(** * DeviceHub tools: resource resolution and mutation orchestration

    A shallow embedding of [src/tools/devicehub_tools.py].  The nine tool
    functions are modelled over
    - a universe [pyval] of Python values held by SDK objects and result
      dictionaries,
    - SDK objects as attribute dictionaries ([getattr] is a lookup with a
      default, a direct attribute access raises [AttributeError]),
    - a record [gateway] of the external collaborators (connection provider,
      remote catalog, live-value subsystem),
    - a writer monad that logs every mutating remote call together with an
      error monad for Python exceptions,
    - the [try / except McpError / except Exception] boundary of every tool. *)

From Stdlib Require Import ZArith String Ascii DecimalString.
From stdpp Require Import gmap strings list sorting.

Open Scope Z_scope.

(** ** Python values *)

(** None, bool, int, str, list and dict (with str keys).  Floats are left out. *)
#[warnings="-register-all"]
Inductive pyval : Type :=
  | PNone
  | PBool (b : bool)
  | PInt (z : Z)
  | PStr (s : string)
  | PList (l : list pyval)
  | PDict (d : gmap string pyval).

(** An SDK object (driver, device, tag) seen through its attributes, and a
    Python dict with str keys: both are finite maps from names to values. *)
Abbreviation pyobj := (gmap string pyval).
Abbreviation pydict := (gmap string pyval).

Definition is_none (v : pyval) : bool :=
  match v with PNone => true | _ => false end.

Definition str_nonempty (s : string) : bool :=
  match s with EmptyString => false | String _ _ => true end.

(** Python truthiness ([if v], [v or w], [not v]). *)
Definition truthy (v : pyval) : bool :=
  match v with
  | PNone => false
  | PBool b => b
  | PInt z => negb (z =? 0)
  | PStr s => str_nonempty s
  | PList l => match l with [] => false | _ :: _ => true end
  | PDict d => negb (bool_decide (dom d = ∅))
  end.

(** [v == s] for a str [s]: no value of another type equals a str. *)
Definition py_eq_str (v : pyval) (s : string) : bool :=
  match v with PStr s' => String.eqb s' s | _ => false end.

(** bool is a subtype of int: [True == 1], [False < 2]. *)
Definition py_num (v : pyval) : option Z :=
  match v with
  | PBool b => Some (Z.b2z b)
  | PInt z => Some z
  | _ => None
  end.

(** ** Exceptions *)

Inductive error_code := INVALID_PARAMS | INTERNAL_ERROR.

(** [McpError] is the deliberately raised error of the tools.
    [AttributeError], [KeyError] and [TypeError] are what Python raises on a
    missing attribute, a missing key, or an unsupported comparison or hash,
    and [SdkError] is whatever an SDK call raises; all four are subclasses
    of [Exception].  [NotException cls] is an exception of a class [cls]
    that derives from [BaseException] but not from [Exception]:
    [asyncio.CancelledError], delivered at an [await], [KeyboardInterrupt],
    [SystemExit]. *)
Inductive pyexn :=
  | McpError (code : error_code) (message : string)
  | AttributeError (attr : string)
  | KeyError (key : string)
  | TypeError
  | SdkError (text : string)
  | NotException (cls : string).

Inductive result (A : Type) :=
  | Ok (a : A)
  | Raise (e : pyexn).
Arguments Ok {A} a.
Arguments Raise {A} e.

Definition bind {A B} (r : result A) (f : A → result B) : result B :=
  match r with Ok a => f a | Raise e => Raise e end.

Notation "'let*' x ':=' e 'in' k" := (bind e (λ x, k))
  (at level 10, x pattern, e at level 100, k at level 200,
   format "'[v' 'let*'  x  ':='  e  'in' '/' k ']'").

(** [[f(x) for x in l]]: the first exception stops the traversal. *)
Fixpoint traverse {A B} (f : A → result B) (l : list A) : result (list B) :=
  match l with
  | [] => Ok []
  | x :: l' =>
      let* y := f x in
      let* ys := traverse f l' in
      Ok (y :: ys)
  end.

(** What an SDK call gives back: a value, or an exception of the SDK's own,
    which is never an [McpError] (the SDK does not know that class).  The
    SDK calls are synchronous: no cancellation is delivered inside them. *)
Inductive sdk (A : Type) :=
  | Returned (a : A)
  | Failed (text : string).
Arguments Returned {A} a.
Arguments Failed {A} text.

Definition call {A} (r : sdk A) : result A :=
  match r with Returned a => Ok a | Failed t => Raise (SdkError t) end.

(** ** Attribute and key access *)

(** [getattr(o, k, default)] *)
Definition getattr (o : pyobj) (k : string) (dflt : pyval) : pyval :=
  default dflt (o !! k).

(** [o.k] *)
Definition attr (o : pyobj) (k : string) : result pyval :=
  match o !! k with Some v => Ok v | None => Raise (AttributeError k) end.

(** [d[k]] *)
Definition item (d : pydict) (k : string) : result pyval :=
  match d !! k with Some v => Ok v | None => Raise (KeyError k) end.

(** [d.get(k)] and [d.get(k, default)] *)
Definition dict_get (d : pydict) (k : string) (dflt : pyval) : pyval :=
  default dflt (d !! k).

(** A dict display [{k1: v1, ...}] followed by the comprehension
    [{k: v for k, v in info.items() if v is not None}].  The keys of every
    display in the source are distinct literals. *)
Fixpoint drop_none (items : list (string * pyval)) : pydict :=
  match items with
  | [] => ∅
  | (k, v) :: rest =>
      if is_none v then drop_none rest else <[k := v]> (drop_none rest)
  end.

(** ** Sorting: [list.sort(key=...)] *)

(** [a < b]: defined between two str (code point order, which is the byte
    order of UTF-8) and between two numbers; [TypeError] for None and dict,
    and for the other mixed pairs.  Sequences are not ordered by the model:
    it raises [TypeError] for them too. *)
Definition py_lt (a b : pyval) : result bool :=
  match a, b with
  | PStr s, PStr t => Ok (String.ltb s t)
  | _, _ =>
      match py_num a, py_num b with
      | Some x, Some y => Ok (x <? y)
      | _, _ => Raise TypeError
      end
  end.

(** [a == b] between None, str and numbers, as for the keys of a dict and
    the components of a sort key.  Two lists or two dicts are never equal
    for the model. *)
Definition py_key_eqb (a b : pyval) : bool :=
  match a, b with
  | PNone, PNone => true
  | PStr s, PStr t => String.eqb s t
  | _, _ =>
      match py_num a, py_num b with
      | Some x, Some y => x =? y
      | _, _ => false
      end
  end.

(** [(a0, a1) < (b0, b1)]: the first components that differ decide. *)
Definition py_lt_pair (a b : pyval * pyval) : result bool :=
  if py_key_eqb a.1 b.1 then
    if py_key_eqb a.2 b.2 then Ok false else py_lt a.2 b.2
  else py_lt a.1 b.1.

Section sorting.
Context {K A : Type} (lt : K → K → result bool).

(** Insert [x] before the first element that is not smaller than it ([x]
    comes from an earlier position): equal keys keep their order, as in
    Python's stable sort, which compares with [<] only. *)
Fixpoint insert_by (x : K * A) (l : list (K * A)) : result (list (K * A)) :=
  match l with
  | [] => Ok [x]
  | y :: l' =>
      let* b := lt y.1 x.1 in
      if b then (let* r := insert_by x l' in Ok (y :: r))
      else Ok (x :: y :: l')
  end.

Fixpoint sort_keyed (l : list (K * A)) : result (list (K * A)) :=
  match l with
  | [] => Ok []
  | x :: l' => let* r := sort_keyed l' in insert_by x r
  end.

(** The keys are computed first, for every element; then the list is sorted
    on them. *)
Definition py_sort (key : A → result K) (l : list A) : result (list A) :=
  let* keyed := traverse (λ x, let* k := key x in Ok (k, x)) l in
  let* sorted := sort_keyed keyed in
  Ok (sorted.*2).
End sorting.

(** ** The tool boundary *)

(** What a tool gives to its caller: the success envelope
    ([format_success_response(result)]), the error envelope
    ([format_error_response(reason, str(e), **extra)]), or an exception that
    leaves the function.  The two formatting helpers and the logger are
    taken to return; the log lines are not modelled. *)
Inductive outcome (P : Type) :=
  | Success (payload : P)
  | ErrorResponse (reason : string) (e : pyexn) (extra : list (string * pyval))
  | Propagated (e : pyexn).
Arguments Success {P} payload.
Arguments ErrorResponse {P} reason e extra.
Arguments Propagated {P} e.

(** [try: body / except McpError: raise / except Exception as e: return
    format_error_response(reason, str(e), **extra)].  Neither handler
    matches an exception that is not an [Exception]: it leaves the tool as
    it is. *)
Definition try_except {P} (reason : string) (extra : list (string * pyval))
    (body : result P) : outcome P :=
  match body with
  | Ok p => Success p
  | Raise (McpError c m) => Propagated (McpError c m)
  | Raise (NotException cls) => Propagated (NotException cls)
  | Raise e => ErrorResponse reason e extra
  end.

(** ** SDK objects, arguments, collaborators *)

(** A Topic of a tag: its identifier and its direction, both read
    directly. *)
Record Topic := mkTopic { topic : pyval; direction : pyval }.

(** A tag: its attributes, and its list of topics.  An SDK object is
    truthy: [if not requested_device] and [if found_tag] only tell an object
    from None. *)
Record Tag := mkTag { tag_attrs : pyobj; topics : list Topic }.

(** An entry of the [arguments] dict: the key is missing, holds null, or
    holds a value of the type the tool's input schema gives it. *)
Inductive arg (A : Type) :=
  | Missing
  | Null
  | Given (a : A).
Arguments Missing {A}.
Arguments Null {A}.
Arguments Given {A} a.

(** [arguments.get(k)] *)
Definition get {A} (a : arg A) : option A :=
  match a with Given x => Some x | _ => None end.

(** [arguments.get(k, default)], as a Python value: the default stands for a
    missing key only. *)
Definition get_or {A} (inj : A → pyval) (a : arg A) (dflt : pyval) : pyval :=
  match a with Missing => dflt | Null => PNone | Given x => inj x end.

Record arguments := mkArguments {
  arg_filter_by_driver : arg string;
  arg_name : arg string;
  arg_selected_driver : arg string;
  arg_device_name : arg string;
  arg_tag_name : arg string;
  arg_tag_id : arg string;
  arg_tag_ids : arg (list string);
  arg_value_type : arg string;
  arg_description : arg string;
  arg_properties : arg (list pyval);
  arg_publish_cov : arg bool }.

Definition no_arguments : arguments :=
  mkArguments Missing Missing Missing Missing Missing Missing Missing Missing
              Missing Missing Missing.

(** Truthiness of [arguments.get(k)] for a str argument. *)
Definition supplied (o : option string) : bool :=
  match o with Some s => str_nonempty s | None => false end.

(** The value of what a device creation returns: an object with a
    [__dict__], or something that only has a [str()]. *)
Inductive created :=
  | WithDict (d : pyobj)
  | Plain (text : string).

(** The external collaborators.  [get_litmus_connection] and
    [get_current_value_on_topic] belong to this server and may raise
    anything, [McpError] included; the second one is awaited (line 337),
    the only [await] of the file.  The others are the SDK's. *)
Record gateway := mkGateway {
  get_litmus_connection : result unit;
  list_all_drivers : sdk (list pyobj);
  get_default_properties : pyobj → sdk pyval;
  list_devices : sdk (list pyobj);
  new_device : pydict → sdk pyobj;
  create_device : pyobj → sdk created;
  list_registers_from_single_device : pyobj → sdk (list Tag);
  list_all_tags : sdk (list Tag);
  new_tag : pydict → sdk Tag;
  create_tags : list Tag → sdk (list Tag);
  update_tags : list Tag → sdk (list Tag);
  delete_tag : Tag → sdk unit;
  delete_tags : list Tag → sdk unit;
  get_current_value_on_topic : pyval → result pyval }.

(** ** Mutating remote calls *)

Inductive remote_call :=
  | CreateDevice (d : pyobj)
  | CreateTags (ts : list Tag)
  | UpdateTags (ts : list Tag)
  | DeleteTag (t : Tag)
  | DeleteTags (ts : list Tag).

(** A computation that may raise, with the mutating calls it has issued. *)
Definition logged (A : Type) : Type := list remote_call * result A.

Definition lift {A} (r : result A) : logged A := ([], r).

(** Issue a mutating call: it is in the log whatever it answers. *)
Definition remote {A} (c : remote_call) (answer : sdk A) : logged A :=
  ([c], call answer).

Definition bind_logged {A B} (m : logged A) (f : A → logged B) : logged B :=
  match m.2 with
  | Ok a => (m.1 ++ (f a).1, (f a).2)
  | Raise e => (m.1, Raise e)
  end.

Notation "'let!' x ':=' e 'in' k" := (bind_logged e (λ x, k))
  (at level 10, x pattern, e at level 100, k at level 200,
   format "'[v' 'let!'  x  ':='  e  'in' '/' k ']'").

Definition try_except_logged {P} (reason : string)
    (extra : list (string * pyval)) (body : logged P)
    : list remote_call * outcome P :=
  (body.1, try_except reason extra body.2).

(** ** Helpers shared by the tools *)

(** [if not x: raise McpError(ErrorData(code=INVALID_PARAMS, message=...))]
    for a required str argument. *)
Definition required (o : option string) (message : string) : result string :=
  match o with
  | Some s =>
      if str_nonempty s then Ok s else Raise (McpError INVALID_PARAMS message)
  | None => Raise (McpError INVALID_PARAMS message)
  end.

(** [{x}] in an f-string, for [x = arguments.get(k)]. *)
Definition fmt (o : option string) : string :=
  match o with Some s => s | None => "None" end.

(** [v == x] for [x = arguments.get(k)]. *)
Definition py_eq_arg (v : pyval) (o : option string) : bool :=
  match o with Some s => py_eq_str v s | None => is_none v end.

Definition device_not_found (device_name : string) : pyexn :=
  McpError INVALID_PARAMS
    ("Device '" +:+ device_name +:+
     "' not found. Use get_devicehub_devices to see available devices.").

(** [_find_device_by_name]: the first device of a freshly fetched list whose
    name equals [device_name]. *)
Fixpoint first_named (device_name : string) (device_list : list pyobj)
    : result (option pyobj) :=
  match device_list with
  | [] => Ok None
  | device :: rest =>
      let* n := attr device "name" in
      if py_eq_str n device_name then Ok (Some device)
      else first_named device_name rest
  end.

Definition _find_device_by_name (gw : gateway) (device_name : string)
    : result (option pyobj) :=
  let* device_list := call (list_devices gw) in
  first_named device_name device_list.

(** [next((t for t in tag_list if t.<k> == wanted), None)] *)
Fixpoint find_tag (k : string) (wanted : option string) (tag_list : list Tag)
    : result (option Tag) :=
  match tag_list with
  | [] => Ok None
  | t :: rest =>
      let* v := attr (tag_attrs t) k in
      if py_eq_arg v wanted then Ok (Some t) else find_tag k wanted rest
  end.

(** Counting dicts: [counts[k] = counts.get(k, 0) + 1].  Lists and dicts are
    unhashable. *)
Definition hashable (v : pyval) : bool :=
  match v with PList _ | PDict _ => false | _ => true end.

Fixpoint incr (k : pyval) (counts : list (pyval * nat)) : list (pyval * nat) :=
  match counts with
  | [] => [(k, 1%nat)]
  | (k', n) :: rest =>
      if py_key_eqb k' k then (k', S n) :: rest else (k', n) :: incr k rest
  end.

Definition count_up (k : pyval) (counts : list (pyval * nat))
    : result (list (pyval * nat)) :=
  if hashable k then Ok (incr k counts) else Raise TypeError.

(** ** Field normalizers *)

(** lines 30-38 *)
Definition driver_info (driver : pyobj) : result pydict :=
  let* n := attr driver "name" in
  Ok (drop_none
        [("name", n);
         ("id", getattr driver "id" PNone);
         ("protocol", getattr driver "protocol" PNone);
         ("version", getattr driver "version" PNone);
         ("description", getattr driver "description" PNone);
         ("category", getattr driver "category" PNone)]).

Definition _build_device_info (device : pyobj) : result pydict :=
  let* n := attr device "name" in
  Ok (drop_none
        [("name", n);
         ("id", getattr device "id" PNone);
         ("driver", getattr device "driver" PNone);
         ("metadata", getattr device "metadata" (PStr "unknown"));
         ("description", getattr device "description" PNone);
         ("properties", getattr device "properties" PNone)]).

(** lines 226-236: a tag in the listing of one device *)
Definition register_info (current_tag : pyobj) : result pydict :=
  let* n := attr current_tag "tag_name" in
  Ok (drop_none
        [("tag_name", n);
         ("id", getattr current_tag "id" PNone);
         ("address", getattr current_tag "address" PNone);
         ("data_type", getattr current_tag "data_type" PNone);
         ("scaling", getattr current_tag "scaling" PNone);
         ("read_write", getattr current_tag "read_write" PNone);
         ("unit", getattr current_tag "unit" PNone);
         ("description", getattr current_tag "description" PNone)]).

(** lines 428-436, 521-529 and 622-630: a tag in the global listing, and a
    created or updated tag *)
Definition tag_info (current_tag : pyobj) : result pydict :=
  let* n := attr current_tag "tag_name" in
  Ok (drop_none
        [("tag_name", n);
         ("id", getattr current_tag "id" PNone);
         ("device", getattr current_tag "device" PNone);
         ("value_type", getattr current_tag "value_type" PNone);
         ("description", getattr current_tag "description" PNone);
         ("publish_cov", getattr current_tag "publish_cov" PNone)]).

(** ** listDrivers *)

Record drivers_result := mkDriversResult {
  drivers_count : nat;
  drivers : list pydict;
  driver_names : list pyval }.

Definition get_litmusedge_driver_list (gw : gateway) : outcome drivers_result :=
  try_except "retrieval_failed" [("count", PInt 0); ("drivers", PList [])]
    (let* connection := get_litmus_connection gw in
     let* driver_list := call (list_all_drivers gw) in
     let* drivers := traverse driver_info driver_list in
     let* drivers := py_sort py_lt (λ x, item x "name") drivers in
     let* names := traverse (λ d, item d "name") drivers in
     Ok (mkDriversResult (length drivers) drivers names)).

(** ** listDevices *)

Fixpoint _create_device_summary (device_data : list pydict)
    (driver_counts : list (pyval * nat)) : result (list (pyval * nat)) :=
  match device_data with
  | [] => Ok driver_counts
  | device :: rest =>
      let driver := dict_get device "driver" (PStr "unknown") in
      let* driver_counts := count_up driver driver_counts in
      _create_device_summary rest driver_counts
  end.

(** [filter_by_driver and device_info.get("driver") != filter_by_driver]:
    the device is skipped. *)
Definition skipped_by_driver (filter_by_driver : option string)
    (device_info : pydict) : bool :=
  supplied filter_by_driver
  && negb (py_eq_arg (dict_get device_info "driver" PNone) filter_by_driver).

Record devices_result := mkDevicesResult {
  devices_count : nat;
  devices : list pydict;
  by_driver : list (pyval * nat);
  devices_filters_applied : option string }.

Definition get_devicehub_devices (gw : gateway) (arguments : arguments)
    : outcome devices_result :=
  try_except "retrieval_failed" [("count", PInt 0); ("devices", PList [])]
    (let filter_by_driver := get (arg_filter_by_driver arguments) in
     let* connection := get_litmus_connection gw in
     let* device_list := call (list_devices gw) in
     (* the loop builds the info of every device, kept or skipped *)
     let* infos := traverse _build_device_info device_list in
     let device_data :=
       List.filter (λ i, negb (skipped_by_driver filter_by_driver i)) infos in
     let* device_data := py_sort py_lt (λ x, item x "name") device_data in
     let* summary := _create_device_summary device_data [] in
     Ok (mkDevicesResult (length device_data) device_data summary
           (if supplied filter_by_driver then filter_by_driver else None))).

(** ** createDevice *)

(** [driver_map[driver.name] = entry]: an assignment replaces the entry of
    an equal key. *)
Fixpoint set_entry {V} (k : pyval) (v : V) (m : list (pyval * V))
    : list (pyval * V) :=
  match m with
  | [] => [(k, v)]
  | (k', v') :: rest =>
      if py_key_eqb k' k then (k', v) :: rest else (k', v') :: set_entry k v rest
  end.

(** The loop of lines 141-146.  The right-hand side of the assignment is
    evaluated before its target. *)
Fixpoint collect_drivers (gw : gateway) (driver_list : list pyobj)
    (driver_map : list (pyval * (pyval * pyval))) (driver_names : list pyval)
    : result (list (pyval * (pyval * pyval)) * list pyval) :=
  match driver_list with
  | [] => Ok (driver_map, driver_names)
  | driver :: rest =>
      let* id := attr driver "id" in
      let* props := call (get_default_properties gw driver) in
      let* n := attr driver "name" in
      if hashable n then
        collect_drivers gw rest (set_entry n (id, props) driver_map)
                        (driver_names ++ [n])
      else Raise TypeError
  end.

(** [driver_map[selected_driver]] *)
Fixpoint entry_of {V} (k : string) (m : list (pyval * V)) : result V :=
  match m with
  | [] => Raise (KeyError k)
  | (k', v) :: rest => if py_eq_str k' k then Ok v else entry_of k rest
  end.

(** [{driver_names}] in the f-string of line 152: [str()] of a list, which
    is its [repr()], built from the [repr()] of its elements.

    [repr()] of a str: the quote is the single quote, or the double quote
    when the str holds a single quote and no double quote; the quote and the
    backslash are escaped with a backslash, tab,
    newline and carriage return are written [\t], [\n], [\r], the other
    control characters [\xhh], and every other character is copied.  A str
    is held as its UTF-8 bytes; for a character outside ASCII Python asks
    the Unicode tables whether it is printable, which are not modelled: a
    byte above 127 is copied. *)
Definition single_quote : ascii := ascii_of_nat 39.
Definition double_quote : ascii := ascii_of_nat 34.
Definition backslash : ascii := ascii_of_nat 92.

Fixpoint occurs (c : ascii) (s : string) : bool :=
  match s with
  | EmptyString => false
  | String c' s' => Ascii.eqb c' c || occurs c s'
  end.

Definition hex_digit (n : nat) : ascii :=
  default "0"%char (String.get n "0123456789abcdef").

Definition escaped (quote c : ascii) : string :=
  let n := nat_of_ascii c in
  if Ascii.eqb c quote || Ascii.eqb c backslash then
    String backslash (String c EmptyString)
  else if (n =? 9)%nat then "\t"
  else if (n =? 10)%nat then "\n"
  else if (n =? 13)%nat then "\r"
  else if (n <? 32)%nat || (n =? 127)%nat then
    "\x" +:+ String (hex_digit (n / 16))
               (String (hex_digit (n mod 16)) EmptyString)
  else String c EmptyString.

Fixpoint escape_all (quote : ascii) (s : string) : string :=
  match s with
  | EmptyString => EmptyString
  | String c s' => escaped quote c +:+ escape_all quote s'
  end.

Definition repr_str (s : string) : string :=
  let quote :=
    if occurs single_quote s && negb (occurs double_quote s)
    then double_quote else single_quote in
  String quote (escape_all quote s +:+ String quote EmptyString).

(** [sep.join(l)] *)
Fixpoint join_with (sep : string) (l : list string) : string :=
  match l with
  | [] => EmptyString
  | [x] => x
  | x :: rest => x +:+ sep +:+ join_with sep rest
  end.

(** [repr(v)].  A dict is shown in the order of its keys: the model keeps
    no insertion order.  (No dict is shown by the tools: the elements of
    [driver_names] are dict keys, and a dict is not hashable.) *)
Fixpoint py_repr (v : pyval) : string :=
  match v with
  | PNone => "None"
  | PBool b => if b then "True" else "False"
  | PInt z => NilZero.string_of_int (Z.to_int z)
  | PStr s => repr_str s
  | PList l => "[" +:+ join_with ", " (map py_repr l) +:+ "]"
  | PDict d =>
      "{" +:+ join_with ", "
                (map (λ kv, repr_str kv.1 +:+ ": " +:+ kv.2)
                     (map_to_list (py_repr <$> d))) +:+ "}"
  end.

Definition repr_list (l : list pyval) : string := py_repr (PList l).

Record device_created_result := mkDeviceCreated {
  device : pydict;
  next_steps : list string }.

Definition create_devicehub_device (gw : gateway) (arguments : arguments)
    : list remote_call * outcome device_created_result :=
  try_except_logged "creation_failed" []
    (let name := get (arg_name arguments) in
     let selected_driver := get (arg_selected_driver arguments) in
     let! name := lift (required name "'name' parameter is required") in
     let! selected_driver :=
       lift (required selected_driver
               "'selected_driver' parameter is required") in
     let! connection := lift (get_litmus_connection gw) in
     let! driver_list := lift (call (list_all_drivers gw)) in
     let! (driver_map, driver_names) :=
       lift (collect_drivers gw driver_list [] []) in
     if negb (existsb (λ n, py_eq_str n selected_driver) driver_names) then
       lift (Raise (McpError INVALID_PARAMS
                      ("Driver '" +:+ selected_driver +:+
                       "' not found. Available drivers: " +:+
                       repr_list driver_names)))
     else
       let! entry := lift (entry_of selected_driver driver_map) in
       let! device :=
         lift (call (new_device gw
                       (list_to_map [("name", PStr name);
                                     ("properties", entry.2);
                                     ("driver", entry.1)]))) in
       let! created_device :=
         remote (CreateDevice device) (create_device gw device) in
       let device_dict :=
         match created_device with
         | WithDict d => d
         | Plain text => {["id" := PStr text]}
         end in
       lift (Ok (mkDeviceCreated device_dict
                   ["Update connection properties (IP address, port, etc.)";
                    "Configure tags/registers for data collection";
                    "Enable the device to start communication"]))).

(** ** listDeviceTags *)

Record device_tags_result := mkDeviceTags {
  tags_device_name : string;
  tags_count : nat;
  tags : list pydict;
  tag_names : list pyval }.

Definition get_devicehub_device_tags (gw : gateway) (arguments : arguments)
    : outcome device_tags_result :=
  try_except "retrieval_failed" [("count", PInt 0); ("tags", PList [])]
    (let device_name := get (arg_device_name arguments) in
     let* device_name :=
       required device_name "'device_name' parameter is required" in
     let* connection := get_litmus_connection gw in
     let* requested_device := _find_device_by_name gw device_name in
     match requested_device with
     | None => Raise (device_not_found device_name)
     | Some requested_device =>
         let* tag_list :=
           call (list_registers_from_single_device gw requested_device) in
         let* tag_data :=
           traverse (λ t, register_info (tag_attrs t)) tag_list in
         let* tag_data := py_sort py_lt (λ x, item x "tag_name") tag_data in
         let* names := traverse (λ t, item t "tag_name") tag_data in
         Ok (mkDeviceTags device_name (length tag_data) tag_data names)
     end).

(** ** readTagValue *)

(** [next((topic.topic for topic in tag.topics
           if topic.direction == "Output"), None)] *)
Fixpoint first_output_topic (ts : list Topic) : pyval :=
  match ts with
  | [] => PNone
  | t :: rest =>
      if py_eq_str (direction t) "Output" then topic t
      else first_output_topic rest
  end.

(** Lines 301-308: the tag is looked up by [tag_name] when that is truthy,
    by [tag_id] otherwise. *)
Definition find_requested_tag (tag_list : list Tag)
    (tag_name tag_id : option string) : result (option Tag) :=
  if supplied tag_name then find_tag "tag_name" tag_name tag_list
  else find_tag "id" tag_id tag_list.

Definition identifier_of (tag_name tag_id : option string) : string :=
  if supplied tag_name then "name '" +:+ fmt tag_name +:+ "'"
  else "ID '" +:+ fmt tag_id +:+ "'".

Record tag_value_result := mkTagValue {
  value_device_name : string;
  value_tag_name : pyval;
  value_tag_id : pyval;
  data : pyval }.

Definition get_current_value_of_devicehub_tag (gw : gateway)
    (arguments : arguments) : outcome tag_value_result :=
  try_except "read_failed" []
    (let device_name := get (arg_device_name arguments) in
     let tag_name := get (arg_tag_name arguments) in
     let tag_id := get (arg_tag_id arguments) in
     let* device_name :=
       required device_name "'device_name' parameter is required" in
     if negb (supplied tag_name) && negb (supplied tag_id) then
       Raise (McpError INVALID_PARAMS
                "Either 'tag_name' or 'tag_id' is required. Use get_devicehub_device_tags to see available tags.")
     else
     let* connection := get_litmus_connection gw in
     let* requested_device := _find_device_by_name gw device_name in
     match requested_device with
     | None => Raise (device_not_found device_name)
     | Some requested_device =>
         let* tag_list :=
           call (list_registers_from_single_device gw requested_device) in
         let* requested_tag := find_requested_tag tag_list tag_name tag_id in
         let identifier := identifier_of tag_name tag_id in
         match requested_tag with
         | None =>
             Raise (McpError INVALID_PARAMS
                      ("Tag with " +:+ identifier +:+
                       " not found on device '" +:+ device_name +:+ "'"))
         | Some requested_tag =>
             let requested_value_from_topic :=
               first_output_topic (topics requested_tag) in
             if negb (truthy requested_value_from_topic) then
               Raise (McpError INTERNAL_ERROR
                        ("No output topic found for tag " +:+ identifier))
             else
               let* value_data :=
                 get_current_value_on_topic gw requested_value_from_topic in
               (* tag_name or requested_tag.tag_name *)
               let* out_name :=
                 if supplied tag_name then Ok (PStr (fmt tag_name))
                 else attr (tag_attrs requested_tag) "tag_name" in
               (* tag_id or requested_tag.id *)
               let* out_id :=
                 if supplied tag_id then Ok (PStr (fmt tag_id))
                 else attr (tag_attrs requested_tag) "id" in
               Ok (mkTagValue device_name out_name out_id value_data)
         end
     end).

(** ** listAllTags *)

(** Lines 421-426: with a filter, a tag is skipped when it has a truthy
    [device_name] attribute that differs from the filter. *)
Definition skipped_by_device (device_name_filter : option string)
    (current_tag : pyobj) : bool :=
  supplied device_name_filter
  && (let tag_device_name := getattr current_tag "device_name" PNone in
      truthy tag_device_name
      && negb (py_eq_arg tag_device_name device_name_filter)).

(** The loop of lines 416-440. *)
Fixpoint collect_tags (device_name_filter : option string)
    (all_tags : list Tag) (tag_data : list pydict)
    (device_counts : list (pyval * nat))
    : result (list pydict * list (pyval * nat)) :=
  match all_tags with
  | [] => Ok (tag_data, device_counts)
  | current_tag :: rest =>
      let device_id := getattr (tag_attrs current_tag) "device" PNone in
      if skipped_by_device device_name_filter (tag_attrs current_tag) then
        collect_tags device_name_filter rest tag_data device_counts
      else
        let* info := tag_info (tag_attrs current_tag) in
        let device_key :=
          if truthy device_id then device_id else PStr "unknown" in
        let* device_counts := count_up device_key device_counts in
        collect_tags device_name_filter rest (tag_data ++ [info])
                     device_counts
  end.

Record all_tags_result := mkAllTags {
  all_count : nat;
  all_tags : list pydict;
  by_device : list (pyval * nat);
  all_filters_applied : option string }.

Definition list_all_devicehub_tags (gw : gateway) (arguments : arguments)
    : outcome all_tags_result :=
  try_except "retrieval_failed" [("count", PInt 0); ("tags", PList [])]
    (let device_name_filter := get (arg_device_name arguments) in
     let* connection := get_litmus_connection gw in
     let* all_tags := call (list_all_tags gw) in
     let* (tag_data, device_counts) :=
       collect_tags device_name_filter all_tags [] [] in
     let* tag_data :=
       py_sort py_lt_pair
         (λ x, Ok (dict_get x "device" (PStr EmptyString),
                   dict_get x "tag_name" (PStr EmptyString)))
         tag_data in
     Ok (mkAllTags (length tag_data) tag_data device_counts
           (if supplied device_name_filter then device_name_filter
            else None))).

(** ** createTag, updateTag, deleteTag *)

Record tag_result := mkTagResult {
  tag_device_name : string;
  tag : pydict }.

Definition create_devicehub_tag (gw : gateway) (arguments : arguments)
    : list remote_call * outcome tag_result :=
  try_except_logged "creation_failed" []
    (let device_name := get (arg_device_name arguments) in
     let tag_name := get (arg_tag_name arguments) in
     let value_type := get (arg_value_type arguments) in
     let description :=
       get_or PStr (arg_description arguments) (PStr EmptyString) in
     let properties := get_or PList (arg_properties arguments) (PList []) in
     let publish_cov :=
       get_or PBool (arg_publish_cov arguments) (PBool false) in
     let! device_name :=
       lift (required device_name "'device_name' parameter is required") in
     let! tag_name :=
       lift (required tag_name "'tag_name' parameter is required") in
     let! value_type :=
       lift (required value_type "'value_type' parameter is required") in
     let! connection := lift (get_litmus_connection gw) in
     let! requested_device := lift (_find_device_by_name gw device_name) in
     match requested_device with
     | None => lift (Raise (device_not_found device_name))
     | Some requested_device =>
         let! device_id := lift (attr requested_device "id") in
         let! new_tag :=
           lift (call (new_tag gw
                         (list_to_map [("device", device_id);
                                       ("tag_name", PStr tag_name);
                                       ("value_type", PStr value_type);
                                       ("description", description);
                                       ("properties", properties);
                                       ("publish_cov", publish_cov)]))) in
         let! created_tags :=
           remote (CreateTags [new_tag]) (create_tags gw [new_tag]) in
         match created_tags with
         | created_tag :: _ =>
             let! info := lift (tag_info (tag_attrs created_tag)) in
             lift (Ok (mkTagResult device_name info))
         | [] =>
             lift (Raise (McpError INTERNAL_ERROR
                            "Tag creation returned no results"))
         end
     end).

(** [if new is not None: existing_tag.<k> = new] *)
Definition update_field {A} (k : string) (inj : A → pyval) (new : option A)
    (existing_tag : Tag) : Tag :=
  match new with
  | Some v => mkTag (<[k := inj v]> (tag_attrs existing_tag))
                    (topics existing_tag)
  | None => existing_tag
  end.

Definition update_devicehub_tag (gw : gateway) (arguments : arguments)
    : list remote_call * outcome tag_result :=
  try_except_logged "update_failed" []
    (let device_name := get (arg_device_name arguments) in
     let tag_id := get (arg_tag_id arguments) in
     let new_tag_name := get (arg_tag_name arguments) in
     let new_value_type := get (arg_value_type arguments) in
     let new_description := get (arg_description arguments) in
     let new_properties := get (arg_properties arguments) in
     let new_publish_cov := get (arg_publish_cov arguments) in
     let! device_name :=
       lift (required device_name "'device_name' parameter is required") in
     let! tag_id :=
       lift (required tag_id "'tag_id' parameter is required for updates") in
     let! connection := lift (get_litmus_connection gw) in
     let! requested_device := lift (_find_device_by_name gw device_name) in
     match requested_device with
     | None => lift (Raise (device_not_found device_name))
     | Some requested_device =>
         let! tag_list :=
           lift (call (list_registers_from_single_device gw
                         requested_device)) in
         let! existing_tag := lift (find_tag "id" (Some tag_id) tag_list) in
         match existing_tag with
         | None =>
             lift (Raise (McpError INVALID_PARAMS
                            ("Tag with ID '" +:+ tag_id +:+
                             "' not found on device '" +:+ device_name +:+
                             "'")))
         | Some existing_tag =>
             let existing_tag :=
               update_field "tag_name" PStr new_tag_name existing_tag in
             let existing_tag :=
               update_field "value_type" PStr new_value_type existing_tag in
             let existing_tag :=
               update_field "description" PStr new_description existing_tag in
             let existing_tag :=
               update_field "properties" PList new_properties existing_tag in
             let existing_tag :=
               update_field "publish_cov" PBool new_publish_cov existing_tag in
             let! updated_tags :=
               remote (UpdateTags [existing_tag])
                      (update_tags gw [existing_tag]) in
             match updated_tags with
             | updated_tag :: _ =>
                 let! info := lift (tag_info (tag_attrs updated_tag)) in
                 lift (Ok (mkTagResult device_name info))
             | [] =>
                 lift (Raise (McpError INTERNAL_ERROR
                                "Tag update returned no results"))
             end
         end
     end).

(** Lines 702-708: the tags of [tag_list] that the identifiers resolve to,
    with their names; an identifier without a match adds nothing. *)
Fixpoint find_tags_by_ids (tag_list : list Tag) (tag_ids : list string)
    : result (list Tag * list pyval) :=
  match tag_ids with
  | [] => Ok ([], [])
  | tid :: rest =>
      let* found_tag := find_tag "id" (Some tid) tag_list in
      match found_tag with
      | Some found_tag =>
          let* n := attr (tag_attrs found_tag) "tag_name" in
          let* (ts, ns) := find_tags_by_ids tag_list rest in
          Ok (found_tag :: ts, n :: ns)
      | None => find_tags_by_ids tag_list rest
      end
  end.

(** Lines 709-720: one identifier. *)
Definition find_single_tag (k : string) (wanted : option string)
    (tag_list : list Tag) : result (list Tag * list pyval) :=
  let* found_tag := find_tag k wanted tag_list in
  match found_tag with
  | Some found_tag =>
      let* n := attr (tag_attrs found_tag) "tag_name" in
      Ok ([found_tag], [n])
  | None => Ok ([], [])
  end.

(** Lines 699-720: [tag_ids] first, then [tag_id], then [tag_name]. *)
Definition tags_to_delete (tag_list : list Tag) (tag_name tag_id : option string)
    (tag_ids : list string) : result (list Tag * list pyval) :=
  match tag_ids with
  | _ :: _ => find_tags_by_ids tag_list tag_ids
  | [] =>
      if supplied tag_id then find_single_tag "id" tag_id tag_list
      else if supplied tag_name then
        find_single_tag "tag_name" tag_name tag_list
      else Ok ([], [])
  end.

Record deletion_result := mkDeletion {
  deletion_device_name : string;
  deleted_count : nat;
  deleted_tags : list pyval }.

Definition delete_devicehub_tag (gw : gateway) (arguments : arguments)
    : list remote_call * outcome deletion_result :=
  try_except_logged "deletion_failed" []
    (let device_name := get (arg_device_name arguments) in
     let tag_name := get (arg_tag_name arguments) in
     let tag_id := get (arg_tag_id arguments) in
     let tag_ids := default [] (get (arg_tag_ids arguments)) in
     let! device_name :=
       lift (required device_name "'device_name' parameter is required") in
     if negb (supplied tag_name) && negb (supplied tag_id)
        && negb (bool_decide (tag_ids ≠ [])) then
       lift (Raise (McpError INVALID_PARAMS
                      "Either 'tag_name', 'tag_id', or 'tag_ids' is required"))
     else
     let! connection := lift (get_litmus_connection gw) in
     let! requested_device := lift (_find_device_by_name gw device_name) in
     match requested_device with
     | None => lift (Raise (device_not_found device_name))
     | Some requested_device =>
         let! tag_list :=
           lift (call (list_registers_from_single_device gw
                         requested_device)) in
         let! (to_delete, deleted_tag_names) :=
           lift (tags_to_delete tag_list tag_name tag_id tag_ids) in
         match to_delete with
         | [] =>
             lift (Raise (McpError INVALID_PARAMS
                            "No matching tags found to delete"))
         | [only] =>
             let! _ := remote (DeleteTag only) (delete_tag gw only) in
             lift (Ok (mkDeletion device_name (length to_delete)
                         deleted_tag_names))
         | _ =>
             let! _ := remote (DeleteTags to_delete)
                              (delete_tags gw to_delete) in
             lift (Ok (mkDeletion device_name (length to_delete)
                         deleted_tag_names))
         end
     end).

(** * Specification vocabulary *)

(** [a] is not after [b] on key [k]: both dicts hold the key, and
    [b[k] < a[k]] is False. *)
Definition key_le (k : string) (a b : pydict) : Prop :=
  ∃ ka kb, a !! k = Some ka ∧ b !! k = Some kb ∧ py_lt kb ka = Ok false.

(** The attributes a normalizer reads, each with the default of its
    [getattr]; the first one is read directly. *)
Definition driver_fields : list (string * pyval) :=
  [("name", PNone); ("id", PNone); ("protocol", PNone); ("version", PNone);
   ("description", PNone); ("category", PNone)].

Definition device_fields : list (string * pyval) :=
  [("name", PNone); ("id", PNone); ("driver", PNone);
   ("metadata", PStr "unknown"); ("description", PNone);
   ("properties", PNone)].

Definition register_fields : list (string * pyval) :=
  [("tag_name", PNone); ("id", PNone); ("address", PNone);
   ("data_type", PNone); ("scaling", PNone); ("read_write", PNone);
   ("unit", PNone); ("description", PNone)].

Definition tag_fields : list (string * pyval) :=
  [("tag_name", PNone); ("id", PNone); ("device", PNone);
   ("value_type", PNone); ("description", PNone); ("publish_cov", PNone)].

Definition fill (o : pyobj) (spec : string * pyval) : string * pyval :=
  (spec.1, getattr o spec.1 spec.2).

Definition nonnull (v : pyval) : option pyval :=
  if is_none v then None else Some v.

Definition normalize (specs : list (string * pyval)) (o : pyobj) : pydict :=
  drop_none (map (fill o) specs).

(** A normalizer is sparse: an attribute that is absent or null on the raw
    record is absent from the mapping, unless it is one of [substituted]
    and absent on the record. *)
Definition sparse (f : pyobj → result pydict) (substituted : list string)
    : Prop :=
  ∀ o m k, f o = Ok m →
    o !! k = None ∨ o !! k = Some PNone →
    (k ∈ substituted → o !! k ≠ None) →
    m !! k = None.

(** A normalized mapping read again as a raw record: the object whose
    attributes are the entries of the mapping, every key an attribute of
    that name.  This step is the reader's, not the code's: the tools
    normalize SDK objects only and never normalize twice, and a dict handed
    as it is to [_build_device_info] has no attribute [name], so the call
    raises [AttributeError] whatever the dict holds. *)
Definition record_of (m : pydict) : pyobj := m.

(** Normalizing, reading the mapping again as a record and normalizing that
    record gives the same mapping, on the records of [P]. *)
Definition idempotent_on (f : pyobj → result pydict) (P : pyobj → Prop)
    : Prop :=
  ∀ o m, f o = Ok m → P o → f (record_of m) = Ok m.

(** The normalized [driver] field equals [f]. *)
Definition has_driver (f : string) (device_info : pydict) : bool :=
  match device_info !! "driver" with
  | Some (PStr s) => String.eqb s f
  | _ => false
  end.

(** The tag's own [device_name] attribute equals [f], or the tag has none
    (the attribute is absent, null, or otherwise falsy). *)
Definition device_name_matches (f : string) (t : Tag) : bool :=
  match tag_attrs t !! "device_name" with
  | None => true
  | Some v => negb (truthy v) || py_eq_str v f
  end.

(** A device record as the SDK types it: the name is a str, and the driver
    can be counted (it is not a list or a dict). *)
Definition well_formed_device (d : pyobj) : Prop :=
  (∃ s, d !! "name" = Some (PStr s))
  ∧ hashable (getattr d "driver" PNone) = true.

(** A tag record as the SDK types it: the name is a str, and the device is a
    str or is missing. *)
Definition well_formed_tag (t : Tag) : Prop :=
  (∃ s, tag_attrs t !! "tag_name" = Some (PStr s))
  ∧ (getattr (tag_attrs t) "device" PNone = PNone
     ∨ ∃ s, tag_attrs t !! "device" = Some (PStr s)).

(** The outcome is one a tool may hand to the transport: an envelope, or a
    re-raised [McpError]. *)
Definition at_boundary {P} (o : outcome P) : Prop :=
  match o with
  | Success _ | ErrorResponse _ _ _ => True
  | Propagated e => ∃ code message, e = McpError code message
  end.

(** The exception is an instance of [Exception]. *)
Definition is_exception (e : pyexn) : bool :=
  match e with NotException _ => false | _ => true end.

Definition is_mcp_error (e : pyexn) : bool :=
  match e with McpError _ _ => true | _ => false end.

(** One of the two collaborators of this server raises [e]: the connection
    provider, or the live-value subsystem on some topic. *)
Definition raised_by_collaborator (gw : gateway) (e : pyexn) : Prop :=
  get_litmus_connection gw = Raise e
  ∨ ∃ t, get_current_value_on_topic gw t = Raise e.

(** The only exceptions outside [Exception] that the computation raises are
    those of a collaborator. *)
Definition tame (gw : gateway) {A} (r : result A) : Prop :=
  ∀ e, r = Raise e → is_exception e = false → raised_by_collaborator gw e.

(** The outcome of a tool whose last handler returns
    [format_error_response(reason, str(e), **extra)]: a success envelope;
    the error envelope of the tool, for an [Exception] that is not an
    [McpError]; a re-raised [McpError]; or an exception that is not an
    [Exception] and that a collaborator raised. *)
Definition guarded {P} (gw : gateway) (reason : string)
    (extra : list (string * pyval)) (o : outcome P) : Prop :=
  match o with
  | Success _ => True
  | ErrorResponse r e x =>
      r = reason ∧ x = extra ∧ is_exception e = true ∧ is_mcp_error e = false
  | Propagated e =>
      is_mcp_error e = true
      ∨ (is_exception e = false ∧ raised_by_collaborator gw e)
  end.

(** A tool that ends in a validation error has issued no mutating call. *)
Definition quiet_on_validation_error {P}
    (r : list remote_call * outcome P) : Prop :=
  ∀ message, r.2 = Propagated (McpError INVALID_PARAMS message) → r.1 = [].

(** The topic has direction "Output". *)
Definition is_output (t : Topic) : bool := py_eq_str (direction t) "Output".

(** * A small catalog

    Three devices, the registers of the first one, and a global tag list;
    every remote call succeeds. *)

Definition plc1 : pyobj :=
  list_to_map [("name", PStr "PLC1"); ("id", PStr "dev1");
               ("driver", PStr "ModbusTCP")].
Definition plc2 : pyobj :=
  list_to_map [("name", PStr "PLC2"); ("id", PStr "dev2");
               ("driver", PStr "OPCUA"); ("metadata", PNone)].
Definition plc3 : pyobj :=
  list_to_map [("name", PStr "PLC3"); ("driver", PStr "ModbusTCP");
               ("description", PNone)].

Definition temp : Tag :=
  mkTag (list_to_map [("tag_name", PStr "Temp"); ("id", PStr "t1");
                      ("device", PStr "dev1"); ("value_type", PStr "Float");
                      ("description", PStr "inlet"); ("properties", PList []);
                      ("publish_cov", PBool false)])
        [mkTopic (PStr "in/temp") (PStr "Input");
         mkTopic (PStr "out/temp") (PStr "Output");
         mkTopic (PStr "out/temp2") (PStr "Output")].
Definition pressure : Tag :=
  mkTag (list_to_map [("tag_name", PStr "Pressure"); ("id", PStr "t3");
                      ("device", PStr "dev1")])
        [mkTopic (PStr "in/pressure") (PStr "Input")].
Definition level : Tag :=
  mkTag (list_to_map [("tag_name", PStr "Level"); ("id", PStr "t4");
                      ("device", PStr "dev1")])
        [mkTopic (PStr EmptyString) (PStr "Output");
         mkTopic (PStr "out/level") (PStr "Output")].
Definition flow : Tag :=
  mkTag (list_to_map [("tag_name", PStr "Flow"); ("id", PStr "t7");
                      ("device", PStr "dev2"); ("device_name", PStr "PLC2")])
        [].
Definition speed : Tag :=
  mkTag (list_to_map [("tag_name", PStr "Speed"); ("id", PStr "t8");
                      ("device", PStr "dev1"); ("device_name", PStr "PLC1")])
        [].

Definition catalog : gateway := {|
  get_litmus_connection := Ok ();
  list_all_drivers :=
    Returned [list_to_map [("name", PStr "OPCUA"); ("id", PStr "drv2")];
              list_to_map [("name", PStr "ModbusTCP"); ("id", PStr "drv1")]];
  get_default_properties := λ _, Returned (PList []);
  list_devices := Returned [plc2; plc1; plc3];
  new_device := λ kwargs, Returned kwargs;
  create_device := λ d, Returned (WithDict d);
  list_registers_from_single_device := λ d,
    Returned (if py_eq_str (getattr d "id" PNone) "dev1"
              then [temp; pressure; level] else []);
  list_all_tags := Returned [temp; flow; speed];
  new_tag := λ kwargs, Returned (mkTag kwargs []);
  create_tags := λ ts, Returned ts;
  update_tags := λ ts, Returned ts;
  delete_tag := λ _, Returned ();
  delete_tags := λ _, Returned ();
  get_current_value_on_topic := λ t, Ok (PList [t; PInt 21]) |}.

(** [{"filter_by_driver": "ModbusTCP"}] *)
Definition only_modbus : arguments :=
  mkArguments (Given "ModbusTCP") Missing Missing Missing Missing Missing
              Missing Missing Missing Missing Missing.

(** [{"device_name": "PLC1"}] *)
Definition only_plc1 : arguments :=
  mkArguments Missing Missing Missing (Given "PLC1") Missing Missing
              Missing Missing Missing Missing Missing.

(** [{"device_name": "PLC2"}] *)
Definition only_plc2 : arguments :=
  mkArguments Missing Missing Missing (Given "PLC2") Missing Missing
              Missing Missing Missing Missing Missing.

(** [{"device_name": "PLC1", "tag_id": "t1", "description": "outlet"}] *)
Definition describe_temp : arguments :=
  mkArguments Missing Missing Missing (Given "PLC1") Missing (Given "t1")
              Missing Missing (Given "outlet") Missing Missing.

(** [{"device_name": "PLC1", "tag_ids": ["t1", "t2", "t3"]}] *)
Definition delete_three : arguments :=
  mkArguments Missing Missing Missing (Given "PLC1") Missing Missing
              (Given ["t1"; "t2"; "t3"]) Missing Missing Missing Missing.

(** [{"device_name": "PLC1", "tag_id": "zz"}] *)
Definition update_unknown : arguments :=
  mkArguments Missing Missing Missing (Given "PLC1") Missing (Given "zz")
              Missing Missing Missing Missing Missing.

(** [{"device_name": "PLC1", "tag_name": "Temp", "tag_id": "t9"}] *)
Definition read_temp_as_t9 : arguments :=
  mkArguments Missing Missing Missing (Given "PLC1") (Given "Temp")
              (Given "t9") Missing Missing Missing Missing Missing.

(** [{"device_name": "PLC1", "tag_name": "Level"}] *)
Definition read_level : arguments :=
  mkArguments Missing Missing Missing (Given "PLC1") (Given "Level")
              Missing Missing Missing Missing Missing Missing.

(** [{"device_name": "PLC1", "tag_name": "Pressure"}] *)
Definition read_pressure : arguments :=
  mkArguments Missing Missing Missing (Given "PLC1") (Given "Pressure")
              Missing Missing Missing Missing Missing Missing.

(** [{"device_name": "PLC1", "tag_id": "t1"}] *)
Definition read_t1 : arguments :=
  mkArguments Missing Missing Missing (Given "PLC1") Missing (Given "t1")
              Missing Missing Missing Missing Missing.

(** [gw], with a live-value subsystem whose task is cancelled at the
    [await]. *)
Definition cancelled_at_read (gw : gateway) : gateway :=
  mkGateway (get_litmus_connection gw) (list_all_drivers gw)
    (get_default_properties gw) (list_devices gw) (new_device gw)
    (create_device gw) (list_registers_from_single_device gw)
    (list_all_tags gw) (new_tag gw) (create_tags gw) (update_tags gw)
    (delete_tag gw) (delete_tags gw)
    (λ _, Raise (NotException "CancelledError")).

(** * Vocabulary of the further properties *)

(** The number of records a counting dict has counted. *)
Definition total (counts : list (pyval * nat)) : nat := sum_list counts.*2.

(** [counts.get(k, 0)] *)
Fixpoint count_of (k : pyval) (counts : list (pyval * nat)) : nat :=
  match counts with
  | [] => 0%nat
  | (k', n) :: rest => if py_key_eqb k' k then n else count_of k rest
  end.

(** The sort key of the global tag listing, and its order between two
    normalized tags: [key(b) < key(a)] is False. *)
Definition pair_key (x : pydict) : pyval * pyval :=
  (dict_get x "device" (PStr EmptyString),
   dict_get x "tag_name" (PStr EmptyString)).

Definition pair_le (a b : pydict) : Prop :=
  py_lt_pair (pair_key b) (pair_key a) = Ok false.

(** The group a normalized device is counted in. *)
Definition driver_key (device : pydict) : pyval :=
  dict_get device "driver" (PStr "unknown").

(** [gw], with another answer to [devices.list_devices]. *)
Definition with_devices (gw : gateway) (answer : sdk (list pyobj)) : gateway :=
  mkGateway (get_litmus_connection gw) (list_all_drivers gw)
    (get_default_properties gw) answer (new_device gw) (create_device gw)
    (list_registers_from_single_device gw) (list_all_tags gw) (new_tag gw)
    (create_tags gw) (update_tags gw) (delete_tag gw) (delete_tags gw)
    (get_current_value_on_topic gw).

(** A device record without a [name] attribute. *)
Definition nameless : pyobj := list_to_map [("id", PStr "dev9")].

(** A driver record the device creation can read: it has an [id], its
    [get_default_properties()] returns, and its name is a str. *)
Definition usable_driver (gw : gateway) (d : pyobj) : Prop :=
  is_Some (d !! "id")
  ∧ (∃ props, get_default_properties gw d = Returned props)
  ∧ ∃ s, d !! "name" = Some (PStr s).

Definition driver_name (d : pyobj) : pyval := getattr d "name" PNone.

(** Every character of the str is in ASCII. *)
Fixpoint all_ascii (s : string) : bool :=
  match s with
  | EmptyString => true
  | String c s' => (nat_of_ascii c <? 128)%nat && all_ascii s'
  end.

(** The keyword arguments of [devices.Device(...)]. *)
Definition device_kwargs (name : string) (props id : pyval) : pydict :=
  list_to_map [("name", PStr name); ("properties", props); ("driver", id)].

(** [{"name": "Line4", "selected_driver": "ModbusTCP"}] and
    [{"name": "Line4", "selected_driver": "BACnet"}] *)
Definition new_line4 : arguments :=
  mkArguments Missing (Given "Line4") (Given "ModbusTCP") Missing Missing
              Missing Missing Missing Missing Missing Missing.
Definition new_line4_bacnet : arguments :=
  mkArguments Missing (Given "Line4") (Given "BACnet") Missing Missing
              Missing Missing Missing Missing Missing Missing.

(** The keyword arguments of [Tag(...)] in the tag creation. *)
Definition tag_kwargs (device_id : pyval) (tag_name value_type : string)
    (arguments : arguments) : pydict :=
  list_to_map
    [("device", device_id); ("tag_name", PStr tag_name);
     ("value_type", PStr value_type);
     ("description",
      get_or PStr (arg_description arguments) (PStr EmptyString));
     ("properties", get_or PList (arg_properties arguments) (PList []));
     ("publish_cov", get_or PBool (arg_publish_cov arguments) (PBool false))].

(** The existing tag after the five conditional assignments of the
    update. *)
Definition merged (arguments : arguments) (existing_tag : Tag) : Tag :=
  update_field "publish_cov" PBool (get (arg_publish_cov arguments))
    (update_field "properties" PList (get (arg_properties arguments))
       (update_field "description" PStr (get (arg_description arguments))
          (update_field "value_type" PStr (get (arg_value_type arguments))
             (update_field "tag_name" PStr (get (arg_tag_name arguments))
                existing_tag)))).

(** [{"device_name": "PLC1", "tag_name": "Flow2", "value_type": "Float"}] *)
Definition create_flow2 : arguments :=
  mkArguments Missing Missing Missing (Given "PLC1") (Given "Flow2") Missing
              Missing (Given "Float") Missing Missing Missing.

(** [{"device_name": "PLC1", "tag_id": "t1", "tag_name": "Temp2",
      "publish_cov": true}] *)
Definition rename_temp : arguments :=
  mkArguments Missing Missing Missing (Given "PLC1") (Given "Temp2")
              (Given "t1") Missing Missing Missing Missing (Given true).

(** [{"device_name": "PLC7", "tag_name": "Temp", "tag_id": "t1",
      "value_type": "Float"}] *)
Definition on_plc7 : arguments :=
  mkArguments Missing Missing Missing (Given "PLC7") (Given "Temp")
              (Given "t1") Missing (Given "Float") Missing Missing Missing.

(** The group a normalized tag is counted in: its device, or "unknown" when
    the device is missing or falsy. *)
Definition device_group (info : pydict) : pyval :=
  let d := dict_get info "device" PNone in
  if truthy d then d else PStr "unknown".

(** The arguments without [tag_name] and [tag_id], and without [tag_name]. *)
Definition only_tag_ids (a : arguments) : arguments :=
  mkArguments (arg_filter_by_driver a) (arg_name a) (arg_selected_driver a)
    (arg_device_name a) Missing Missing (arg_tag_ids a) (arg_value_type a)
    (arg_description a) (arg_properties a) (arg_publish_cov a).

Definition without_tag_name (a : arguments) : arguments :=
  mkArguments (arg_filter_by_driver a) (arg_name a) (arg_selected_driver a)
    (arg_device_name a) Missing (arg_tag_id a) (arg_tag_ids a)
    (arg_value_type a) (arg_description a) (arg_properties a)
    (arg_publish_cov a).

(** The tag answers one of the identifiers of the request. *)
Definition requested (arguments : arguments) (t : Tag) : Prop :=
  (∃ tid, tid ∈ default [] (get (arg_tag_ids arguments))
          ∧ tag_attrs t !! "id" = Some (PStr tid))
  ∨ (∃ i, get (arg_tag_id arguments) = Some i
          ∧ tag_attrs t !! "id" = Some (PStr i))
  ∨ (∃ n, get (arg_tag_name arguments) = Some n
          ∧ tag_attrs t !! "tag_name" = Some (PStr n)).

(** The mutating call of a deletion of [ts]. *)
Definition deletion_call (ts : list Tag) : remote_call :=
  match ts with [t] => DeleteTag t | _ => DeleteTags ts end.

(** A normalizer keeps exactly the listed attributes that are not null. *)
Definition exact_on (f : pyobj → result pydict)
    (specs : list (string * pyval)) : Prop :=
  ∀ o m k v, f o = Ok m →
    (m !! k = Some v ↔
     v ≠ PNone ∧ ∃ d, (k, d) ∈ specs ∧ getattr o k d = v).

(** [{"device_name": "PLC1", "tag_name": "Level", "tag_id": "t4",
      "tag_ids": ["t1"]}] *)
Definition delete_mixed : arguments :=
  mkArguments Missing Missing Missing (Given "PLC1") (Given "Level")
              (Given "t4") (Given ["t1"]) Missing Missing Missing Missing.

(** No tag of the list has the string [s] as its attribute [k]. *)
Definition no_tag_has (k s : string) (tag_list : list Tag) : Prop :=
  Forall (λ t, ∃ v, tag_attrs t !! k = Some v ∧ v ≠ PStr s) tag_list.

(** [{"device_name": "PLC1", "tag_id": "t9"}] *)
Definition on_t9 : arguments :=
  mkArguments Missing Missing Missing (Given "PLC1") Missing (Given "t9")
              Missing Missing Missing Missing Missing.

(** * Properties *)

(** ** The error monad *)

Lemma bind_Ok {A B} (r : result A) (f : A → result B) (b : B) :
  bind r f = Ok b → ∃ a, r = Ok a ∧ f a = Ok b.
Proof. destruct r as [a|e]; simpl; [eauto | discriminate]. Qed.

Ltac bind_inv H :=
  let a := fresh "x" in
  let Ha := fresh "E" in
  apply bind_Ok in H as (a & Ha & H).

Lemma traverse_Forall2 {A B} (f : A → result B) l r :
  traverse f l = Ok r → Forall2 (λ x y, f x = Ok y) l r.
Proof.
  revert r. induction l as [|x l IH]; simpl; intros r H.
  - injection H as <-. constructor.
  - bind_inv H. bind_inv H. injection H as <-. constructor; auto.
Qed.

Lemma traverse_total {A B} (f : A → result B) l :
  Forall (λ x, ∃ y, f x = Ok y) l → ∃ r, traverse f l = Ok r.
Proof.
  induction 1 as [|x l [y Hy] _ [r Hr]]; simpl; [eauto|].
  rewrite Hy. simpl. rewrite Hr. simpl. eauto.
Qed.

(** ** Sorting *)

Section sorting_facts.
Context {K A : Type} (lt : K → K → result bool).

  (** [le a b]: the comparison [b < a] answers False. *)
Let le (a b : K * A) : Prop := lt b.1 a.1 = Ok false.

Lemma insert_by_perm (x : K * A) l r :
    insert_by lt x l = Ok r → r ≡ₚ x :: l.
  Proof.
    revert r. induction l as [|y l IH]; simpl; intros r H.
    - by injection H as <-.
    - bind_inv H. destruct x0.
      + bind_inv H. injection H as <-. rewrite (IH _ E0). apply Permutation_swap.
      + by injection H as <-.
  Qed.

Lemma sort_keyed_perm (l r : list (K * A)) :
    sort_keyed lt l = Ok r → r ≡ₚ l.
  Proof.
    revert r. induction l as [|x l IH]; simpl; intros r H.
    - by injection H as <-.
    - bind_inv H. rewrite (insert_by_perm _ _ _ H). by rewrite (IH _ E).
  Qed.

Hypothesis lt_asym : ∀ a b, lt a b = Ok true → lt b a = Ok false.
Hypothesis le_trans :
    ∀ a b c, lt b a = Ok false → lt c b = Ok false → lt c a = Ok false.

Lemma insert_by_sorted (x : K * A) l r :
    StronglySorted le l → insert_by lt x l = Ok r → StronglySorted le r.
  Proof.
    revert r. induction l as [|y l IH]; simpl; intros r Hs H.
    - injection H as <-. repeat constructor.
    - apply StronglySorted_inv in Hs as [Hs Hy]. bind_inv H. destruct x0.
      + bind_inv H. injection H as <-. constructor; [by apply IH|].
        rewrite (insert_by_perm _ _ _ E0). constructor; [|done].
        by apply lt_asym.
      + injection H as <-. constructor; [by constructor|].
        constructor; [done|].
        eapply Forall_impl; [exact Hy|]. intros z Hz. by eapply le_trans.
  Qed.

Lemma sort_keyed_sorted (l r : list (K * A)) :
    sort_keyed lt l = Ok r → StronglySorted le r.
  Proof.
    revert r. induction l as [|x l IH]; simpl; intros r H.
    - injection H as <-. constructor.
    - bind_inv H. eapply insert_by_sorted; [by apply IH | done].
  Qed.

Lemma py_sort_perm (key : A → result K) l r :
    py_sort lt key l = Ok r → r ≡ₚ l.
  Proof.
    unfold py_sort. intros H. bind_inv H. bind_inv H. injection H as <-.
    rewrite (sort_keyed_perm _ _ E0).
    apply traverse_Forall2 in E. clear E0.
    induction E as [|a kx l r Hk _ IH]; simpl; [done|].
    bind_inv Hk. injection Hk as <-. simpl. by rewrite IH.
  Qed.

Lemma py_sort_sorted (key : A → result K) l r :
    py_sort lt key l = Ok r →
    StronglySorted (λ a b, ∃ ka kb,
                      key a = Ok ka ∧ key b = Ok kb ∧ lt kb ka = Ok false) r.
  Proof.
    unfold py_sort. intros H. bind_inv H. bind_inv H. injection H as <-.
    assert (Hkeys : Forall (λ kx : K * A, key kx.2 = Ok kx.1) x0).
    { rewrite (sort_keyed_perm _ _ E0).
      apply traverse_Forall2 in E. clear E0.
      induction E as [|a kx l r Hk _ IH]; constructor; [|done].
      bind_inv Hk. by injection Hk as <-. }
    apply sort_keyed_sorted in E0. clear E.
    induction E0 as [|kx r Hs IH Hall]; simpl; [constructor|].
    apply Forall_cons in Hkeys as [Hk Hkeys].
    constructor; [by apply IH|].
    apply Forall_fmap, Forall_forall. intros ky Hy.
    rewrite Forall_forall in Hall. rewrite Forall_forall in Hkeys.
    exists kx.1, ky.1. split; [done|]. split; [by apply Hkeys|].
    by apply Hall.
  Qed.
End sorting_facts.

(** A sort does not raise when [<] is defined between its keys. *)
Section sorting_total.
Context {K A : Type} (lt : K → K → result bool) (good : K → Prop).
Hypothesis lt_total : ∀ a b, good a → good b → ∃ c, lt a b = Ok c.

Lemma insert_by_total (x : K * A) l :
  good x.1 → Forall (λ kx, good kx.1) l → ∃ r, insert_by lt x l = Ok r.
Proof.
  intros Hx. induction 1 as [|y l Hy _ IH]; simpl; [eauto|].
  destruct (lt_total y.1 x.1 Hy Hx) as [[] ->]; simpl; [|eauto].
  destruct IH as [r ->]. simpl. eauto.
Qed.

Lemma sort_keyed_total (l : list (K * A)) :
  Forall (λ kx, good kx.1) l → ∃ r, sort_keyed lt l = Ok r.
Proof.
  induction 1 as [|x l Hx Hl IH]; simpl; [eauto|].
  destruct IH as [r Hr]. rewrite Hr. simpl.
  apply insert_by_total; [done|]. by rewrite (sort_keyed_perm _ _ _ Hr).
Qed.

Lemma py_sort_total (key : A → result K) l :
  Forall (λ x, ∃ k, key x = Ok k ∧ good k) l → ∃ r, py_sort lt key l = Ok r.
Proof.
  intros Hl. unfold py_sort.
  assert (∃ keyed, traverse (λ x, let* k := key x in Ok (k, x)) l = Ok keyed
                   ∧ Forall (λ kx : K * A, good kx.1) keyed)
    as (keyed & -> & Hk).
  { induction Hl as [|x l (k & Hk & Hg) _ (keyed & IH & Hgood)]; simpl;
      [by eauto|].
    rewrite Hk. simpl. rewrite IH. simpl. eauto. }
  simpl. destruct (sort_keyed_total keyed Hk) as [r ->]. simpl. eauto.
Qed.
End sorting_total.

(** The order of str is a total preorder. *)
Lemma string_compare_le_trans (a b c : string) :
  String.compare a b ≠ Gt → String.compare b c ≠ Gt → String.compare a c ≠ Gt.
Proof.
  revert b c. induction a as [|x a IH]; intros [|y b] [|z c]; simpl; try done.
  unfold Ascii.compare.
  destruct (N.compare_spec (N_of_ascii x) (N_of_ascii y)) as [Hxy|Hxy|Hxy];
    try done;
    destruct (N.compare_spec (N_of_ascii y) (N_of_ascii z)) as [Hyz|Hyz|Hyz];
    try done; intros H1 H2.
  - rewrite Hxy, Hyz, N.compare_refl. eauto.
  - rewrite Hxy. by apply N.compare_lt_iff in Hyz as ->.
  - rewrite <- Hyz. by apply N.compare_lt_iff in Hxy as ->.
  - assert (N_of_ascii x < N_of_ascii z)%N as Hxz by lia.
    by apply N.compare_lt_iff in Hxz as ->.
Qed.

Lemma py_lt_asym a b : py_lt a b = Ok true → py_lt b a = Ok false.
Proof.
  destruct a as [|ba|za|sa|la|da], b as [|bb|zb|sb|lb|db]; simpl;
    try discriminate; intros [= H]; f_equal;
    try (unfold String.ltb in *; rewrite String.compare_antisym;
         by destruct (String.compare sa sb));
    repeat match goal with b : bool |- _ => destruct b end;
    simpl in *; try done; lia.
Qed.

Lemma py_lt_le_trans a b c :
  py_lt b a = Ok false → py_lt c b = Ok false → py_lt c a = Ok false.
Proof.
  assert (Hnum : ∀ u v w x y z,
    py_num u = Some x → py_num v = Some y → py_num w = Some z →
    py_lt v u = Ok false → py_lt w v = Ok false → py_lt w u = Ok false).
  { intros u v w x y z Hu Hv Hw.
    destruct u, v, w; simpl in *; try discriminate;
      intros [= H1] [= H2]; f_equal; simplify_eq; try lia;
      repeat match goal with b : bool |- _ => destruct b end;
      simpl in *; try done; lia. }
  destruct a as [| | |sa| |], b as [| | |sb| |], c as [| | |sc| |];
    try (simpl; discriminate); try (by eapply Hnum).
  simpl. unfold String.ltb. intros [= H1] [= H2]. f_equal.
  pose proof (string_compare_le_trans sa sb sc) as Ht.
  rewrite (String.compare_antisym sa sb), (String.compare_antisym sb sc),
    (String.compare_antisym sa sc) in Ht.
  destruct (String.compare sb sa), (String.compare sc sb),
    (String.compare sc sa); simpl in *; try done; exfalso; by apply Ht.
Qed.

Lemma item_Ok (d : pydict) k v : item d k = Ok v ↔ d !! k = Some v.
Proof. unfold item. destruct (d !! k); split; congruence. Qed.

Lemma attr_Ok (o : pyobj) k v : attr o k = Ok v ↔ o !! k = Some v.
Proof. unfold attr. destruct (o !! k); split; congruence. Qed.

(** Between two str, [key_le] is the order of their code points. *)
Lemma key_le_str k (a b : pydict) s t :
  a !! k = Some (PStr s) → b !! k = Some (PStr t) →
  key_le k a b ↔ String.leb s t = true.
Proof.
  intros Ha Hb. unfold key_le. split.
  - intros (ka & kb & Ha' & Hb' & Hlt). simplify_eq. simpl in Hlt.
    injection Hlt as Hlt. unfold String.ltb in Hlt. unfold String.leb.
    rewrite String.compare_antisym. by destruct (String.compare t s).
  - intros Hle. exists (PStr s), (PStr t). repeat split; try done. simpl.
    f_equal. unfold String.ltb. unfold String.leb in Hle.
    rewrite String.compare_antisym in Hle. by destruct (String.compare t s).
Qed.

Lemma sort_by_item k l r :
  py_sort py_lt (λ x, item x k) l = Ok r →
  r ≡ₚ l ∧ StronglySorted (key_le k) r.
Proof.
  intros H. split; [by eapply py_sort_perm|].
  apply py_sort_sorted in H; [|apply py_lt_asym|apply py_lt_le_trans].
  induction H as [|a r _ IH Hall]; constructor; [done|].
  eapply Forall_impl; [exact Hall|].
  intros b (ka & kb & Ha & Hb & Hlt). exists ka, kb.
  by rewrite <- !item_Ok.
Qed.

(** ** Field normalizers *)

Lemma nonnull_Some v w : nonnull v = Some w → v = w ∧ nonnull w = Some w.
Proof. unfold nonnull. destruct (is_none v) eqn:E; [done|]. intros [= <-]. by rewrite E. Qed.

Lemma nonnull_None v : nonnull v = None → v = PNone.
Proof. by destruct v. Qed.

Lemma normalize_lookup specs o k :
  NoDup specs.*1 →
  normalize specs o !! k =
    (list_to_map specs : gmap string pyval) !! k ≫= λ d, nonnull (getattr o k d).
Proof.
  unfold normalize.
  induction specs as [|[k0 d0] specs IH]; simpl; intros Hnd; [done|].
  apply NoDup_cons in Hnd as [Hk0 Hnd]. specialize (IH Hnd).
  destruct (is_none (getattr o k0 d0)) eqn:E.
  - rewrite IH. destruct (decide (k = k0)) as [->|Hne].
    + rewrite lookup_insert_eq. simpl. unfold nonnull. rewrite E.
      by rewrite (not_elem_of_list_to_map_1 _ _ Hk0).
    + by rewrite lookup_insert_ne.
  - destruct (decide (k = k0)) as [->|Hne].
    + rewrite !lookup_insert_eq. simpl. unfold nonnull. by rewrite E.
    + by rewrite !lookup_insert_ne.
Qed.

Lemma normalize_sparse specs o k :
  NoDup specs.*1 →
  o !! k = None ∨ o !! k = Some PNone →
  (∀ d, (list_to_map specs : gmap string pyval) !! k = Some d →
        o !! k = None → d = PNone) →
  normalize specs o !! k = None.
Proof.
  intros Hnd Hk Hd. rewrite normalize_lookup by done.
  destruct (list_to_map specs !! k) as [d|] eqn:E; simpl; [|done].
  unfold getattr. destruct Hk as [Hk|Hk]; rewrite Hk; simpl; [|done].
  by rewrite (Hd d).
Qed.

Lemma normalize_idempotent specs o :
  NoDup specs.*1 →
  (∀ k d, (list_to_map specs : gmap string pyval) !! k = Some d →
          d ≠ PNone → o !! k ≠ Some PNone) →
  normalize specs (normalize specs o) = normalize specs o.
Proof.
  intros Hnd Hd. apply map_eq. intros k.
  rewrite (normalize_lookup specs (normalize specs o)) by done.
  rewrite normalize_lookup by done.
  destruct (list_to_map specs !! k) as [d|] eqn:E; simpl; [|done].
  unfold getattr at 1. rewrite normalize_lookup, E by done. simpl.
  destruct (nonnull (getattr o k d)) as [v|] eqn:Ev; simpl.
  - by apply nonnull_Some in Ev as [_ ?].
  - apply nonnull_None in Ev. destruct (is_none d) eqn:Ed.
    + by destruct d.
    + exfalso. apply (Hd k d E); [by destruct d|].
      unfold getattr in Ev. destruct (o !! k); simpl in Ev; [by subst|].
      subst d. done.
Qed.

(** What the four normalizers of the source have in common. *)
Section normalizer.
Context (f : pyobj → result pydict) (key : string)
        (specs : list (string * pyval)).
Hypothesis shape :
  ∀ o, f o = (let* _ := attr o key in Ok (normalize ((key, PNone) :: specs) o)).
Hypothesis distinct : NoDup (key :: specs.*1).

Lemma normalizer_Ok o m :
  f o = Ok m ↔ is_Some (o !! key) ∧ m = normalize ((key, PNone) :: specs) o.
Proof.
  rewrite shape. unfold attr. destruct (o !! key) as [n|]; simpl.
  - split; [intros [= <-]; eauto | by intros [_ ->]].
  - split; [done | by intros [[? ?] _]].
Qed.

Lemma normalizer_sparse substituted :
  (∀ k d, (k, d) ∈ specs → d ≠ PNone → k ∈ substituted) →
  sparse f substituted.
Proof.
  intros Hsub o m k Hm Hk Hex. apply normalizer_Ok in Hm as [_ ->].
  apply normalize_sparse; [done|done|]. intros d Hd Ho.
  destruct (is_none d) eqn:Ed; [by destruct d|]. exfalso.
  apply elem_of_list_to_map_2 in Hd.
  apply elem_of_cons in Hd as [[= -> ->]|Hd]; [done|].
  apply Hex; [|done]. apply (Hsub k d Hd). by destruct d.
Qed.

Lemma normalizer_idempotent (P : pyobj → Prop) :
  (∀ o, P o → o !! key ≠ Some PNone) →
  (∀ o k d, P o → (k, d) ∈ specs → d ≠ PNone → o !! k ≠ Some PNone) →
  idempotent_on f P.
Proof.
  intros Hkey Hsub o m Hm HP. apply normalizer_Ok in Hm as [[n Hn] ->].
  unfold record_of. apply normalizer_Ok. split.
  - rewrite normalize_lookup by done. simpl. rewrite lookup_insert_eq. simpl.
    unfold getattr. rewrite Hn. simpl. unfold nonnull.
    destruct (is_none n) eqn:En; [|eauto].
    destruct n; try done. by destruct (Hkey o HP).
  - symmetry. apply normalize_idempotent; [done|]. intros k d Hd Hne.
    apply elem_of_list_to_map_2 in Hd.
    apply elem_of_cons in Hd as [[= -> ->]|Hd]; [done|]. by eapply Hsub.
Qed.
End normalizer.

Lemma driver_info_shape o :
  driver_info o =
  (let* _ := attr o "name" in Ok (normalize driver_fields o)).
Proof.
  unfold driver_info, attr, normalize, driver_fields, fill, getattr. simpl.
  by destruct (o !! "name").
Qed.

Lemma device_info_shape o :
  _build_device_info o =
  (let* _ := attr o "name" in Ok (normalize device_fields o)).
Proof.
  unfold _build_device_info, attr, normalize, device_fields, fill, getattr.
  simpl. by destruct (o !! "name").
Qed.

Lemma register_info_shape o :
  register_info o =
  (let* _ := attr o "tag_name" in Ok (normalize register_fields o)).
Proof.
  unfold register_info, attr, normalize, register_fields, fill, getattr.
  simpl. by destruct (o !! "tag_name").
Qed.

Lemma tag_info_shape o :
  tag_info o =
  (let* _ := attr o "tag_name" in Ok (normalize tag_fields o)).
Proof.
  unfold tag_info, attr, normalize, tag_fields, fill, getattr. simpl.
  by destruct (o !! "tag_name").
Qed.

(** C1, as stated, fails on the code.  A device without a [metadata]
    attribute is given the substitute value "unknown".  For the second half
    of the claim the mapping is read again as a record ([record_of]): a
    device whose [metadata] is null loses the key and gets the substitute
    back when that record is normalized; a record whose name is null loses
    its name, and normalizing the mapping read as a record raises. *)
Lemma normalization_substitutes_metadata :
  ¬ sparse _build_device_info []
  ∧ ¬ idempotent_on _build_device_info (λ o, o !! "name" ≠ Some PNone)
  ∧ ¬ idempotent_on driver_info (λ _, True).
Proof.
  split; [|split].
  - intros H.
    specialize (H {["name" := PStr "PLC1"]}
                  (<["metadata" := PStr "unknown"]> {["name" := PStr "PLC1"]})
                  "metadata" eq_refl (or_introl eq_refl)).
    rewrite lookup_insert_eq in H.
    assert (Some (PStr "unknown") = None) as [=].
    apply H. by intros ?%elem_of_nil.
  - intros H.
    specialize (H (<["metadata" := PNone]> {["name" := PStr "PLC1"]})
                  {["name" := PStr "PLC1"]} eq_refl).
    assert (Hm : _build_device_info {["name" := PStr "PLC1"]}
                 = Ok {["name" := PStr "PLC1"]}) by (apply H; done).
    vm_compute in Hm. injection Hm as Hm. discriminate Hm.
  - intros H.
    specialize (H {["name" := PNone]} ∅ eq_refl I). discriminate H.
Qed.

(** C1 (amended).  Every attribute that is absent or null on the raw record
    (driver, device or tag) is absent from the normalized mapping, except the
    [metadata] of a device, which is given the substitute value "unknown"
    when the attribute is absent (a null [metadata] is dropped); and when a
    normalized mapping is read again as a record, its keys as attributes
    ([record_of]), normalizing that record yields the same mapping, for a
    record whose name is not null and, for a device, whose [metadata] is not
    null. *)
Theorem normalization_sparse_and_idempotent :
  sparse driver_info []
  ∧ sparse register_info []
  ∧ sparse tag_info []
  ∧ sparse _build_device_info ["metadata"]
  ∧ (∀ device m, _build_device_info device = Ok m →
       device !! "metadata" = None →
       m !! "metadata" = Some (PStr "unknown"))
  ∧ idempotent_on driver_info (λ o, o !! "name" ≠ Some PNone)
  ∧ idempotent_on register_info (λ o, o !! "tag_name" ≠ Some PNone)
  ∧ idempotent_on tag_info (λ o, o !! "tag_name" ≠ Some PNone)
  ∧ idempotent_on _build_device_info
      (λ o, o !! "name" ≠ Some PNone ∧ o !! "metadata" ≠ Some PNone).
Proof.
  assert (Hnone : ∀ (specs : list (string * pyval)) (l : list string),
    Forall (λ kd, kd.2 = PNone ∨ kd.1 ∈ l) specs →
    ∀ k d, (k, d) ∈ specs → d ≠ PNone → k ∈ l).
  { intros specs l Hall k d Hkd Hd. rewrite Forall_forall in Hall.
    by destruct (Hall _ Hkd) as [?|?]. }
  repeat split.
  - eapply (normalizer_sparse _ "name" (tail driver_fields)), Hnone;
      [apply driver_info_shape | by compute_done | ].
    repeat constructor.
  - eapply (normalizer_sparse _ "tag_name" (tail register_fields)), Hnone;
      [apply register_info_shape | by compute_done | ].
    repeat constructor.
  - eapply (normalizer_sparse _ "tag_name" (tail tag_fields)), Hnone;
      [apply tag_info_shape | by compute_done | ].
    repeat constructor.
  - eapply (normalizer_sparse _ "name" (tail device_fields)), Hnone;
      [apply device_info_shape | by compute_done | ].
    repeat (constructor; [first [by left | by right; simpl; constructor]|]).
    constructor.
  - intros device m Hm Hmeta.
    apply (normalizer_Ok _ "name" (tail device_fields)) in Hm as [_ ->];
      [|apply device_info_shape].
    rewrite normalize_lookup by compute_done. 
    unfold getattr. rewrite Hmeta. done.
  - eapply (normalizer_idempotent _ "name" (tail driver_fields));
      [apply driver_info_shape | by compute_done | done | ].
    intros o k d _ Hkd Hd. exfalso.
    eapply (Hnone (tail driver_fields) []) in Hkd; [by apply elem_of_nil in Hkd| |done].
    repeat constructor.
  - eapply (normalizer_idempotent _ "tag_name" (tail register_fields));
      [apply register_info_shape | by compute_done | done | ].
    intros o k d _ Hkd Hd. exfalso.
    eapply (Hnone (tail register_fields) []) in Hkd; [by apply elem_of_nil in Hkd| |done].
    repeat constructor.
  - eapply (normalizer_idempotent _ "tag_name" (tail tag_fields));
      [apply tag_info_shape | by compute_done | done | ].
    intros o k d _ Hkd Hd. exfalso.
    eapply (Hnone (tail tag_fields) []) in Hkd; [by apply elem_of_nil in Hkd| |done].
    repeat constructor.
  - eapply (normalizer_idempotent _ "name" (tail device_fields));
      [apply device_info_shape | by compute_done | by intros o [? _] | ].
    intros o k d [_ Hmeta] Hkd Hd.
    eapply (Hnone (tail device_fields) ["metadata"]) in Hkd; [| |done].
    + apply list_elem_of_singleton in Hkd as ->. done.
    + repeat (constructor; [first [by left | by right; simpl; constructor]|]).
      constructor.
Qed.

Lemma normalization_witness :
  let device : pyobj :=
    <["description" := PNone]>
      (<["id" := PStr "d1"]> {["name" := PStr "PLC1"]}) in
  ∃ m, _build_device_info device = Ok m
       ∧ m !! "description" = None
       ∧ m !! "metadata" = Some (PStr "unknown")
       ∧ _build_device_info (record_of m) = Ok m.
Proof.
  destruct normalization_sparse_and_idempotent
    as (_ & _ & _ & Hs & Hm & _ & _ & _ & Hi).
  intros device.
  set (m := <["metadata" := PStr "unknown"]>
              (<["id" := PStr "d1"]> {["name" := PStr "PLC1"]}) : pydict).
  exists m. split; [reflexivity|]. split; [|split].
  - apply (Hs device m "description");
      [reflexivity | right; reflexivity | ].
    intros [=]%list_elem_of_singleton.
  - apply (Hm device m); reflexivity.
  - apply (Hi device m); [reflexivity|]. split; vm_compute; discriminate.
Defined.

(** ** listDevices *)

Lemma try_except_Success {P} reason extra (body : result P) p :
  try_except reason extra body = Success p ↔ body = Ok p.
Proof.
  unfold try_except. destruct body as [q|[]]; split; congruence.
Qed.

Lemma has_driver_spec f (i : pydict) :
  has_driver f i = true ↔ i !! "driver" = Some (PStr f).
Proof.
  unfold has_driver. destruct (i !! "driver") as [[]|]; try (split; congruence).
  rewrite String.eqb_eq. split; congruence.
Qed.



(** On a collection of well-formed devices the tool succeeds. *)
Lemma py_lt_str_total a b :
  (∃ s, a = PStr s) → (∃ s, b = PStr s) → ∃ c, py_lt a b = Ok c.
Proof. intros [s ->] [t ->]. simpl. eauto. Qed.

Lemma traverse_Forall {A B} (f : A → result B) (P : A → Prop) (Q : B → Prop) l :
  (∀ x, P x → ∃ y, f x = Ok y ∧ Q y) →
  Forall P l → ∃ r, traverse f l = Ok r ∧ Forall Q r.
Proof.
  intros Hf. induction 1 as [|x l Hx _ (r & Hr & HQ)]; simpl; [by eauto|].
  destruct (Hf x Hx) as (y & -> & Hy). simpl. rewrite Hr. simpl. eauto.
Qed.

Lemma Forall_list_filter {A} (P : A → Prop) (f : A → bool) l :
  Forall P l → Forall P (List.filter f l).
Proof.
  induction 1 as [|x l Hx _ IH]; simpl; [done|].
  destruct (f x); [by constructor | done].
Qed.

Lemma device_info_well_formed d :
  well_formed_device d →
  ∃ info, _build_device_info d = Ok info
          ∧ (∃ s, info !! "name" = Some (PStr s))
          ∧ hashable (dict_get info "driver" (PStr "unknown")) = true.
Proof.
  intros [[s Hs] Hh]. rewrite device_info_shape. unfold attr. rewrite Hs.
  simpl. eexists. split; [done|]. split.
  - exists s. rewrite normalize_lookup by compute_done.
    unfold getattr. by rewrite Hs.
  - unfold dict_get. rewrite normalize_lookup by compute_done.
    change ((list_to_map device_fields : gmap string pyval) !! "driver")
      with (Some PNone).
    simpl. destruct (nonnull (getattr d "driver" PNone)) as [v|] eqn:Hv;
      [|done].
    by apply nonnull_Some in Hv as [<- _].
Qed.

Lemma _create_device_summary_total device_data driver_counts :
  Forall (λ i : pydict,
            hashable (dict_get i "driver" (PStr "unknown")) = true)
         device_data →
  ∃ r, _create_device_summary device_data driver_counts = Ok r.
Proof.
  intros H. revert driver_counts.
  induction H as [|i l Hi _ IH]; simpl; intros driver_counts; [eauto|].
  unfold count_up. rewrite Hi. simpl. apply IH.
Qed.

Lemma listDevices_succeeds gw arguments device_list :
  get_litmus_connection gw = Ok () →
  list_devices gw = Returned device_list →
  Forall well_formed_device device_list →
  ∃ payload, get_devicehub_devices gw arguments = Success payload.
Proof.
  intros Hconn Hl Hwf. unfold get_devicehub_devices. cbv zeta.
  rewrite Hconn, Hl. simpl.
  destruct (traverse_Forall _build_device_info well_formed_device
              (λ info : pydict,
                 (∃ s, info !! "name" = Some (PStr s))
                 ∧ hashable (dict_get info "driver" (PStr "unknown")) = true)
              device_list) as (infos & -> & Hinfos);
    [by apply device_info_well_formed | done |]. simpl.
  set (kept := List.filter _ infos).
  assert (Hkept : Forall (λ info : pydict,
                    (∃ s, info !! "name" = Some (PStr s))
                    ∧ hashable (dict_get info "driver" (PStr "unknown")) = true)
                  kept) by by apply Forall_list_filter.
  destruct (py_sort_total py_lt (λ k, ∃ s, k = PStr s) py_lt_str_total
              (λ x : pydict, item x "name") kept) as [sorted Hsorted].
  { eapply Forall_impl; [exact Hkept|]. intros info [[s Hs] _].
    exists (PStr s). split; [by apply item_Ok | eauto]. }
  rewrite Hsorted. simpl.
  destruct (_create_device_summary_total sorted []) as [summary ->];
    [|simpl; eauto].
  rewrite (py_sort_perm _ _ _ _ Hsorted).
  eapply Forall_impl; [exact Hkept|]. by intros info [_ ?].
Qed.


(** ** listAllTags *)

Lemma kept_by_device f (t : Tag) :
  str_nonempty f = true →
  negb (skipped_by_device (Some f) (tag_attrs t)) = device_name_matches f t.
Proof.
  intros Hf. unfold skipped_by_device, device_name_matches, getattr. simpl.
  rewrite Hf. simpl. destruct (tag_attrs t !! "device_name") as [v|]; simpl.
  - by rewrite negb_andb, negb_involutive.
  - done.
Qed.

(** The loop appends, in order, the info of every tag that is not skipped. *)
Lemma collect_tags_kept filter all tag_data counts tag_data' counts' :
  collect_tags filter all tag_data counts = Ok (tag_data', counts') →
  ∃ infos,
    traverse (λ t, tag_info (tag_attrs t))
      (List.filter (λ t, negb (skipped_by_device filter (tag_attrs t))) all)
    = Ok infos
    ∧ tag_data' = tag_data ++ infos.
Proof.
  revert tag_data counts.
  induction all as [|t all IH]; simpl; intros tag_data counts H.
  - injection H as <- <-. exists []. by rewrite app_nil_r.
  - destruct (skipped_by_device filter (tag_attrs t)); simpl.
    + by apply IH in H.
    + bind_inv H. bind_inv H. apply IH in H as (infos & Hinfos & ->).
      exists (x :: infos). rewrite E, Hinfos. simpl.
      by rewrite <- app_assoc.
Qed.

(** C5.  The filter lets through a tag of another device.  Temp is a tag
    of the device dev1, which is PLC1, and has no [device_name] attribute;
    with the filter "PLC2" the listing holds Temp next to Flow, the one tag
    whose [device_name] is "PLC2", and reports the filter as applied. *)
Lemma listAllTags_lists_tag_of_another_device :
  list_all_tags catalog = Returned [temp; flow; speed]
  ∧ tag_attrs temp !! "device_name" = None
  ∧ tag_attrs temp !! "device" = plc1 !! "id"
  ∧ plc1 !! "name" = Some (PStr "PLC1")
  ∧ ∃ payload,
      list_all_devicehub_tags catalog only_plc2 = Success payload
      ∧ map (λ d : pydict, d !! "tag_name") (all_tags payload)
        = [Some (PStr "Temp"); Some (PStr "Flow")]
      ∧ all_filters_applied payload = Some "PLC2".
Proof.
  repeat (split; [reflexivity|]).
  eexists. repeat split; reflexivity.
Qed.

(** What the filter keeps.  With a non-empty [device_name] filter, the tag
    list of a successful [list_all_devicehub_tags] holds exactly the tags of
    the collection whose own [device_name] attribute equals the filter or is
    absent, null or empty, each as many times as the collection has it; the
    device collection is not consulted. *)
Theorem listAllTags_device_filter gw arguments payload f :
  list_all_devicehub_tags gw arguments = Success payload →
  get (arg_device_name arguments) = Some f →
  supplied (Some f) = true →
  ∃ tag_list infos,
    list_all_tags gw = Returned tag_list
    ∧ traverse (λ t, tag_info (tag_attrs t))
        (List.filter (device_name_matches f) tag_list) = Ok infos
    ∧ all_tags payload ≡ₚ infos.
Proof.
  unfold list_all_devicehub_tags. rewrite try_except_Success.
  intros H Hf Hs. rewrite Hf in H.
  bind_inv H. destruct (list_all_tags gw) as [tag_list|]; [|discriminate].
  simpl in H. bind_inv H. destruct x0 as [tag_data counts].
  bind_inv H. injection H as <-. simpl.
  apply collect_tags_kept in E0 as (infos & Hinfos & ->).
  exists tag_list, infos. split; [done|]. split.
  - erewrite filter_ext; [exact Hinfos|].
    intros t. symmetry. by apply kept_by_device.
  - by apply py_sort_perm in E1.
Qed.

(** On a collection of well-formed tags the tool succeeds. *)
Lemma py_lt_pair_str_total (a b : pyval * pyval) :
  ((∃ s, a.1 = PStr s) ∧ ∃ s, a.2 = PStr s) →
  ((∃ s, b.1 = PStr s) ∧ ∃ s, b.2 = PStr s) →
  ∃ c, py_lt_pair a b = Ok c.
Proof.
  destruct a as [a1 a2], b as [b1 b2]. simpl.
  intros [[? ->] [? ->]] [[? ->] [? ->]]. unfold py_lt_pair. simpl.
  repeat case_match; eauto.
Qed.

Lemma tag_info_well_formed t :
  well_formed_tag t →
  ∃ info, tag_info (tag_attrs t) = Ok info
          ∧ (∃ s, dict_get info "device" (PStr EmptyString) = PStr s)
          ∧ (∃ s, dict_get info "tag_name" (PStr EmptyString) = PStr s).
Proof.
  intros [[s Hs] Hd]. rewrite tag_info_shape. unfold attr. rewrite Hs. simpl.
  eexists. split; [done|]. unfold dict_get.
  rewrite !normalize_lookup by compute_done.
  change ((list_to_map tag_fields : gmap string pyval) !! "device")
    with (Some PNone).
  change ((list_to_map tag_fields : gmap string pyval) !! "tag_name")
    with (Some PNone).
  simpl. split.
  - destruct Hd as [->|[d Hd]]; simpl; [eauto|].
    unfold getattr. rewrite Hd. simpl. eauto.
  - unfold getattr. rewrite Hs. simpl. eauto.
Qed.

Lemma collect_tags_total filter all tag_data counts :
  Forall well_formed_tag all →
  ∃ r, collect_tags filter all tag_data counts = Ok r.
Proof.
  intros H. revert tag_data counts.
  induction H as [|t all Ht _ IH]; simpl; intros tag_data counts; [eauto|].
  destruct (skipped_by_device filter (tag_attrs t)); [apply IH|].
  destruct (tag_info_well_formed t Ht) as (info & -> & _). simpl.
  destruct Ht as [_ [->|[d Hd]]]; simpl; [apply IH|].
  unfold getattr. rewrite Hd. simpl. unfold count_up.
  destruct (str_nonempty d); simpl; apply IH.
Qed.

Lemma listAllTags_succeeds gw arguments tag_list :
  get_litmus_connection gw = Ok () →
  list_all_tags gw = Returned tag_list →
  Forall well_formed_tag tag_list →
  ∃ payload, list_all_devicehub_tags gw arguments = Success payload.
Proof.
  intros Hconn Hl Hwf. unfold list_all_devicehub_tags. cbv zeta.
  rewrite Hconn, Hl. simpl.
  destruct (collect_tags_total (get (arg_device_name arguments)) tag_list
              [] [] Hwf) as [[tag_data counts] Hc].
  rewrite Hc. simpl.
  apply collect_tags_kept in Hc as (infos & Hinfos & ->). simpl.
  destruct (py_sort_total py_lt_pair
              (λ k, (∃ s, k.1 = PStr s) ∧ ∃ s, k.2 = PStr s)
              py_lt_pair_str_total
              (λ x : pydict, Ok (dict_get x "device" (PStr EmptyString),
                                 dict_get x "tag_name" (PStr EmptyString)))
              infos) as [sorted ->]; [|simpl; eauto].
  apply traverse_Forall2 in Hinfos.
  assert (Hkept : Forall well_formed_tag
            (List.filter
               (λ t, negb (skipped_by_device (get (arg_device_name arguments))
                             (tag_attrs t))) tag_list))
    by by apply Forall_list_filter.
  revert Hkept. induction Hinfos as [|t info ts infos Hi _ IH];
    intros Hkept; [constructor|].
  apply Forall_cons in Hkept as [Ht Hkept]. constructor; [|by apply IH].
  destruct (tag_info_well_formed t Ht) as (info' & Hi' & Hd & Hn).
  rewrite Hi in Hi'. injection Hi' as <-. eauto.
Qed.

Lemma listAllTags_witness :
  ∃ payload infos,
    list_all_devicehub_tags catalog only_plc1 = Success payload
    ∧ traverse (λ t, tag_info (tag_attrs t)) [temp; speed] = Ok infos
    ∧ all_tags payload ≡ₚ infos.
Proof.
  destruct (listAllTags_device_filter catalog only_plc1 _ "PLC1" eq_refl
              eq_refl eq_refl) as (tag_list & infos & Hl & Hinfos & Hperm).
  injection Hl as <-. eexists _, infos. split; [reflexivity|].
  split; [exact Hinfos | exact Hperm].
Defined.

(** ** The log of mutating calls *)

Lemma bind_logged_lift {A B} (r : result A) (f : A → logged B) :
  bind_logged (lift r) f
  = match r with Ok a => f a | Raise e => ([], Raise e) end.
Proof.
  destruct r as [a|e]; unfold bind_logged, lift; simpl; [|done].
  by destruct (f a).
Qed.

Lemma bind_logged_remote {A B} c (answer : sdk A) (f : A → logged B) :
  bind_logged (remote c answer) f
  = match answer with
    | Returned a => (c :: (f a).1, (f a).2)
    | Failed t => ([c], Raise (SdkError t))
    end.
Proof. by destruct answer. Qed.

Lemma try_except_logged_fst {P} reason extra (body : logged P) :
  (try_except_logged reason extra body).1 = body.1.
Proof. done. Qed.

Lemma try_except_logged_snd {P} reason extra (body : logged P) :
  (try_except_logged reason extra body).2 = try_except reason extra body.2.
Proof. done. Qed.

Lemma required_Ok s message :
  str_nonempty s = true → required (Some s) message = Ok s.
Proof. intros H. unfold required. by rewrite H. Qed.

(** ** updateTag *)

Lemma update_field_other {A} k (inj : A → pyval) new t k' :
  k' ≠ k → tag_attrs (update_field k inj new t) !! k' = tag_attrs t !! k'.
Proof.
  intros Hne. destruct new; simpl; [|done]. by rewrite lookup_insert_ne.
Qed.

Lemma update_field_omitted {A} k (inj : A → pyval) t :
  update_field k inj None t = t.
Proof. done. Qed.

Lemma update_field_topics {A} k (inj : A → pyval) new t :
  topics (update_field k inj new t) = topics t.
Proof. by destruct new. Qed.

(** C2.  When the device and the tag resolve, exactly one remote call is
    issued, an update of one tag; that tag keeps the topics and every
    attribute of the existing tag that the request does not supply.  With
    only [description] supplied, [tag_name], [value_type], [properties] and
    [publish_cov] are those of the record before the update. *)
Theorem updateTag_partial_merge gw arguments dn tid dev tag_list existing :
  get (arg_device_name arguments) = Some dn → str_nonempty dn = true →
  get (arg_tag_id arguments) = Some tid → str_nonempty tid = true →
  get_litmus_connection gw = Ok () →
  _find_device_by_name gw dn = Ok (Some dev) →
  list_registers_from_single_device gw dev = Returned tag_list →
  find_tag "id" (Some tid) tag_list = Ok (Some existing) →
  ∃ sent,
    (update_devicehub_tag gw arguments).1 = [UpdateTags [sent]]
    ∧ topics sent = topics existing
    ∧ (∀ k, k ∉ ["tag_name"; "value_type"; "description"; "properties";
                 "publish_cov"] →
            tag_attrs sent !! k = tag_attrs existing !! k)
    ∧ (get (arg_tag_name arguments) = None →
       tag_attrs sent !! "tag_name" = tag_attrs existing !! "tag_name")
    ∧ (get (arg_value_type arguments) = None →
       tag_attrs sent !! "value_type" = tag_attrs existing !! "value_type")
    ∧ (get (arg_description arguments) = None →
       tag_attrs sent !! "description" = tag_attrs existing !! "description")
    ∧ (get (arg_properties arguments) = None →
       tag_attrs sent !! "properties" = tag_attrs existing !! "properties")
    ∧ (get (arg_publish_cov arguments) = None →
       tag_attrs sent !! "publish_cov" = tag_attrs existing !! "publish_cov")
    ∧ (∀ d, get (arg_description arguments) = Some d →
            tag_attrs sent !! "description" = Some (PStr d)).
Proof.
  intros Hdn Hdn' Htid Htid' Hconn Hdev Hregs Hfind.
  unfold update_devicehub_tag. cbv zeta. rewrite try_except_logged_fst.
  rewrite Hdn, Htid.
  rewrite bind_logged_lift, (required_Ok dn) by done. cbv beta iota.
  rewrite bind_logged_lift, (required_Ok tid) by done. cbv beta iota.
  rewrite bind_logged_lift, Hconn. cbv beta iota.
  rewrite bind_logged_lift, Hdev. cbv beta iota.
  rewrite bind_logged_lift, Hregs. simpl call. cbv beta iota.
  rewrite bind_logged_lift, Hfind. cbv beta iota.
  rewrite bind_logged_remote.
  eexists. split.
  { destruct (update_tags gw _) as [[|? ?]|]; simpl; try reflexivity.
    rewrite bind_logged_lift. by destruct (tag_info _). }
  split; [by rewrite !update_field_topics|].
  split.
  { intros k Hk. rewrite !update_field_other; [done|..];
      intros ->; apply Hk; set_solver. }
  repeat split;
    try (intros ->;
         by repeat first [rewrite update_field_omitted
                         |rewrite update_field_other by done]).
  intros d ->. rewrite !update_field_other by done. simpl.
    by rewrite lookup_insert_eq.
Qed.

Lemma updateTag_witness :
  ∃ sent,
    (update_devicehub_tag catalog describe_temp).1 = [UpdateTags [sent]]
    ∧ tag_attrs sent !! "tag_name" = Some (PStr "Temp")
    ∧ tag_attrs sent !! "value_type" = Some (PStr "Float")
    ∧ tag_attrs sent !! "properties" = Some (PList [])
    ∧ tag_attrs sent !! "publish_cov" = Some (PBool false)
    ∧ tag_attrs sent !! "description" = Some (PStr "outlet").
Proof.
  destruct (updateTag_partial_merge catalog describe_temp "PLC1" "t1" plc1
              [temp; pressure; level] temp eq_refl eq_refl eq_refl eq_refl
              eq_refl eq_refl eq_refl eq_refl)
    as (sent & Hlog & _ & _ & Hn & Hv & _ & Hp & Hc & Hd).
  exists sent. split; [exact Hlog|].
  rewrite (Hn eq_refl), (Hv eq_refl), (Hp eq_refl), (Hc eq_refl),
    (Hd "outlet" eq_refl).
  repeat split; reflexivity.
Defined.

(** ** deleteTag *)

Lemma find_tags_by_ids_skip tag_list before tid after :
  find_tag "id" (Some tid) tag_list = Ok None →
  find_tags_by_ids tag_list (before ++ tid :: after)
  = find_tags_by_ids tag_list (before ++ after).
Proof.
  intros Hnone. induction before as [|b before IH]; simpl.
  - by rewrite Hnone.
  - destruct (find_tag "id" (Some b) tag_list) as [[t|]|]; simpl; [|done|done].
    destruct (attr (tag_attrs t) "tag_name"); simpl; [|done]. by rewrite IH.
Qed.

Lemma find_tags_by_ids_none tag_list tag_ids :
  (∀ tid, tid ∈ tag_ids → find_tag "id" (Some tid) tag_list = Ok None) →
  find_tags_by_ids tag_list tag_ids = Ok ([], []).
Proof.
  induction tag_ids as [|tid tag_ids IH]; simpl; intros H; [done|].
  rewrite (H tid) by (by left). simpl. apply IH. intros ? ?. apply H.
  by right.
Qed.

Lemma tags_to_delete_none tag_list tag_name tag_id tag_ids :
  (∀ tid, tid ∈ tag_ids → find_tag "id" (Some tid) tag_list = Ok None) →
  (supplied tag_id = true → find_tag "id" tag_id tag_list = Ok None) →
  (supplied tag_name = true →
   find_tag "tag_name" tag_name tag_list = Ok None) →
  tags_to_delete tag_list tag_name tag_id tag_ids = Ok ([], []).
Proof.
  intros Hids Hid Hname. unfold tags_to_delete, find_single_tag.
  destruct tag_ids as [|tid tag_ids]; [|by apply find_tags_by_ids_none].
  destruct (supplied tag_id); [by rewrite Hid|].
  destruct (supplied tag_name); [by rewrite Hname|done].
Qed.

(** C3.  For a device that resolves: an identifier of [tag_ids] that matches
    no tag is skipped; when no supplied identifier resolves the tool raises
    the invalid-parameters error and issues no call; one resolved tag is
    deleted with the single-item call and several with the batch call, and
    the result reports their number; with [tag_ids = [a, b, c]] where only
    [b] matches nothing, the tags of [a] and [c] are deleted in one batch
    call and [deleted_count] is 2. *)
Theorem deleteTag_batch gw arguments dn dev tag_list tag_name tag_id tag_ids :
  get (arg_tag_name arguments) = tag_name →
  get (arg_tag_id arguments) = tag_id →
  default [] (get (arg_tag_ids arguments)) = tag_ids →
  get (arg_device_name arguments) = Some dn → str_nonempty dn = true →
  supplied tag_name || supplied tag_id || bool_decide (tag_ids ≠ []) = true →
  get_litmus_connection gw = Ok () →
  _find_device_by_name gw dn = Ok (Some dev) →
  list_registers_from_single_device gw dev = Returned tag_list →
  (∀ before tid after,
     find_tag "id" (Some tid) tag_list = Ok None →
     find_tags_by_ids tag_list (before ++ tid :: after)
     = find_tags_by_ids tag_list (before ++ after))
  ∧ ((∀ tid, tid ∈ tag_ids → find_tag "id" (Some tid) tag_list = Ok None) →
     (supplied tag_id = true → find_tag "id" tag_id tag_list = Ok None) →
     (supplied tag_name = true →
      find_tag "tag_name" tag_name tag_list = Ok None) →
     delete_devicehub_tag gw arguments
     = ([], Propagated
              (McpError INVALID_PARAMS "No matching tags found to delete")))
  ∧ (∀ t ns,
       tags_to_delete tag_list tag_name tag_id tag_ids = Ok ([t], ns) →
       (delete_devicehub_tag gw arguments).1 = [DeleteTag t]
       ∧ (delete_tag gw t = Returned () →
          (delete_devicehub_tag gw arguments).2
          = Success (mkDeletion dn 1 ns)))
  ∧ (∀ ts ns,
       tags_to_delete tag_list tag_name tag_id tag_ids = Ok (ts, ns) →
       (2 ≤ length ts)%nat →
       (delete_devicehub_tag gw arguments).1 = [DeleteTags ts]
       ∧ (delete_tags gw ts = Returned () →
          (delete_devicehub_tag gw arguments).2
          = Success (mkDeletion dn (length ts) ns)))
  ∧ (∀ a b c ta tc na nc,
       tag_ids = [a; b; c] →
       find_tag "id" (Some a) tag_list = Ok (Some ta) →
       attr (tag_attrs ta) "tag_name" = Ok na →
       find_tag "id" (Some b) tag_list = Ok None →
       find_tag "id" (Some c) tag_list = Ok (Some tc) →
       attr (tag_attrs tc) "tag_name" = Ok nc →
       delete_tags gw [ta; tc] = Returned () →
       delete_devicehub_tag gw arguments
       = ([DeleteTags [ta; tc]], Success (mkDeletion dn 2 [na; nc]))).
Proof.
  intros Htn Hti Htis Hdn Hdn' Hsup Hconn Hdev Hregs.
  assert (Hop : ∀ ts ns,
    tags_to_delete tag_list tag_name tag_id tag_ids = Ok (ts, ns) →
    delete_devicehub_tag gw arguments
    = try_except_logged "deletion_failed" []
        match ts with
        | [] => lift (Raise (McpError INVALID_PARAMS
                               "No matching tags found to delete"))
        | [only] =>
            let! _ := remote (DeleteTag only) (delete_tag gw only) in
            lift (Ok (mkDeletion dn (length ts) ns))
        | _ =>
            let! _ := remote (DeleteTags ts) (delete_tags gw ts) in
            lift (Ok (mkDeletion dn (length ts) ns))
        end).
  { intros ts ns Hres. unfold delete_devicehub_tag. cbv zeta.
    rewrite Htn, Hti, Htis, Hdn.
    rewrite bind_logged_lift, (required_Ok dn) by done. cbv beta iota.
    replace (negb (supplied tag_name) && negb (supplied tag_id)
             && negb (bool_decide (tag_ids ≠ []))) with false
      by (destruct (supplied tag_name), (supplied tag_id),
            (bool_decide (tag_ids ≠ [])); done).
    rewrite bind_logged_lift, Hconn. cbv beta iota.
    rewrite bind_logged_lift, Hdev. cbv beta iota.
    rewrite bind_logged_lift, Hregs. simpl call. cbv beta iota.
    rewrite bind_logged_lift, Hres. done. }
  split; [intros; by apply find_tags_by_ids_skip|].
  split; [|split; [|split]].
  - intros Hids Hid Hname.
    by rewrite (Hop [] []) by by apply tags_to_delete_none.
  - intros t ns Hres. rewrite (Hop _ _ Hres), bind_logged_remote.
    split; [by destruct (delete_tag gw t)|]. by intros ->.
  - intros ts ns Hres Hlen. rewrite (Hop _ _ Hres).
    destruct ts as [|t1 [|t2 ts]]; simpl in Hlen; [lia|lia|].
    rewrite bind_logged_remote.
    split; [by destruct (delete_tags gw _)|]. by intros ->.
  - intros a b c ta tc na nc Hids Ha Hna Hb Hc Hnc Hdel.
    rewrite (Hop [ta; tc] [na; nc]).
    + by rewrite bind_logged_remote, Hdel.
    + unfold tags_to_delete. rewrite Hids. simpl.
      by rewrite Ha, Hb, Hc; simpl; rewrite Hna, Hnc.
Qed.

Lemma deleteTag_witness :
  delete_devicehub_tag catalog delete_three
  = ([DeleteTags [temp; pressure]],
     Success (mkDeletion "PLC1" 2 [PStr "Temp"; PStr "Pressure"])).
Proof.
  destruct (deleteTag_batch catalog delete_three "PLC1" plc1
              [temp; pressure; level] None None ["t1"; "t2"; "t3"]
              eq_refl eq_refl eq_refl eq_refl eq_refl eq_refl eq_refl
              eq_refl eq_refl) as (_ & _ & _ & _ & H).
  apply (H "t1" "t2" "t3" temp pressure (PStr "Temp") (PStr "Pressure"));
    reflexivity.
Defined.

(** ** Validation failures issue no mutating call *)

Section quiet.
Context {A : Type}.

Let clean {B} (m : logged B) : Prop :=
  ∀ message, m.2 = Raise (McpError INVALID_PARAMS message) → m.1 = [].
Let never_invalid {B} (m : logged B) : Prop :=
  ∀ message, m.2 ≠ Raise (McpError INVALID_PARAMS message).

Lemma clean_lift (r : result A) : clean (lift r).
Proof. done. Qed.

Lemma clean_bind_lift {B} (r : result B) (f : B → logged A) :
  (∀ b, clean (f b)) → clean (bind_logged (lift r) f).
Proof.
  intros Hf. rewrite bind_logged_lift. destruct r; [apply Hf | done].
Qed.

Lemma clean_bind_remote {B} c (answer : sdk B) (f : B → logged A) :
  (∀ b, never_invalid (f b)) → clean (bind_logged (remote c answer) f).
Proof.
  intros Hf message. rewrite bind_logged_remote.
  destruct answer as [b|t]; simpl; [|done]. intros H. by destruct (Hf b message).
Qed.

Lemma never_invalid_tail device_name (ts : list Tag) message' :
  never_invalid
    match ts with
    | t :: _ =>
        let! info := lift (tag_info (tag_attrs t)) in
        lift (Ok (mkTagResult device_name info))
    | [] => lift (Raise (McpError INTERNAL_ERROR message'))
    end.
Proof.
  intros message. destruct ts as [|t ts]; [done|].
  rewrite bind_logged_lift. unfold tag_info, attr.
  by destruct (tag_attrs t !! "tag_name").
Qed.

Lemma quiet_try_except reason extra (body : logged A) :
  clean body → quiet_on_validation_error (try_except_logged reason extra body).
Proof.
  intros Hb message. rewrite try_except_logged_fst, try_except_logged_snd.
  unfold try_except. destruct body.2 as [p|[]] eqn:E; try done.
  intros [= -> ->]. by eapply Hb.
Qed.
End quiet.

(** C10.  Whenever [create_devicehub_tag], [update_devicehub_tag] or
    [delete_devicehub_tag] ends in a validation error (an [McpError] with
    code [INVALID_PARAMS]: a missing required parameter, a device name or a
    tag identifier that does not resolve), no create, update or delete call
    has been issued. *)
Theorem validation_failure_issues_no_mutation gw arguments :
  quiet_on_validation_error (create_devicehub_tag gw arguments)
  ∧ quiet_on_validation_error (update_devicehub_tag gw arguments)
  ∧ quiet_on_validation_error (delete_devicehub_tag gw arguments).
Proof.
  split; [|split]; apply quiet_try_except; cbv zeta.
  - do 4 (apply clean_bind_lift; intros ?).
    apply clean_bind_lift; intros [requested_device|]; [|apply clean_lift].
    do 2 (apply clean_bind_lift; intros ?).
    apply clean_bind_remote. intros ts. apply never_invalid_tail.
  - do 3 (apply clean_bind_lift; intros ?).
    apply clean_bind_lift; intros [requested_device|]; [|apply clean_lift].
    apply clean_bind_lift; intros tag_list.
    apply clean_bind_lift; intros [existing_tag|]; [|apply clean_lift].
    apply clean_bind_remote. intros ts. apply never_invalid_tail.
  - apply clean_bind_lift; intros device_name.
    match goal with |- context [if ?c then _ else _] => destruct c end;
      [apply clean_lift|].
    apply clean_bind_lift; intros connection.
    apply clean_bind_lift; intros [requested_device|]; [|apply clean_lift].
    apply clean_bind_lift; intros tag_list.
    apply clean_bind_lift; intros [[|t [|t' ts]] ns]; [apply clean_lift|..];
      apply clean_bind_remote; by intros ? message.
Qed.

Lemma validation_failure_witness :
  (update_devicehub_tag catalog update_unknown).2
  = Propagated (McpError INVALID_PARAMS
                  "Tag with ID 'zz' not found on device 'PLC1'")
  ∧ (update_devicehub_tag catalog update_unknown).1 = [].
Proof.
  split; [reflexivity|].
  destruct (validation_failure_issues_no_mutation catalog update_unknown)
    as (_ & H & _).
  eapply H. reflexivity.
Defined.

(** ** The exception boundary *)

Section tame.
Context (gw : gateway).

Lemma tame_Ok {A} (a : A) : tame gw (Ok a).
Proof. done. Qed.

Lemma tame_Raise {A} e : is_exception e = true → tame gw (Raise (A:=A) e).
Proof. intros He e' [= <-]. congruence. Qed.

Lemma tame_bind {A B} (r : result A) (f : A → result B) :
  tame gw r → (∀ a, tame gw (f a)) → tame gw (bind r f).
Proof.
  intros Hr Hf. destruct r as [a|e]; [apply Hf|].
  intros e' [= <-]. by apply Hr.
Qed.

Lemma tame_call {A} (r : sdk A) : tame gw (call r).
Proof. destruct r; [apply tame_Ok | by apply tame_Raise]. Qed.

Lemma tame_connection : tame gw (get_litmus_connection gw).
Proof. intros e He _. by left. Qed.

Lemma tame_live t : tame gw (get_current_value_on_topic gw t).
Proof. intros e He _. right. by exists t. Qed.

Lemma tame_attr o k : tame gw (attr o k).
Proof. unfold attr. destruct (o !! k); [apply tame_Ok | by apply tame_Raise]. Qed.

Lemma tame_item d k : tame gw (item d k).
Proof. unfold item. destruct (d !! k); [apply tame_Ok | by apply tame_Raise]. Qed.

Lemma tame_required o message : tame gw (required o message).
Proof.
  unfold required. destruct o as [s|]; [destruct (str_nonempty s)|];
    first [apply tame_Ok | by apply tame_Raise].
Qed.

Lemma tame_traverse {A B} (f : A → result B) l :
  (∀ x, tame gw (f x)) → tame gw (traverse f l).
Proof.
  intros Hf. induction l as [|x l IH]; simpl; [apply tame_Ok|].
  apply tame_bind; [apply Hf|]. intros y.
  apply tame_bind; [apply IH|]. intros ys. apply tame_Ok.
Qed.

Lemma tame_py_lt a b : tame gw (py_lt a b).
Proof.
  unfold py_lt. destruct a, b; simpl;
    first [apply tame_Ok | by apply tame_Raise].
Qed.

Lemma tame_py_lt_pair a b : tame gw (py_lt_pair a b).
Proof.
  unfold py_lt_pair. destruct (py_key_eqb a.1 b.1); [|apply tame_py_lt].
  destruct (py_key_eqb a.2 b.2); [apply tame_Ok | apply tame_py_lt].
Qed.

Lemma tame_py_sort {K A} (lt : K → K → result bool) (key : A → result K) l :
  (∀ a b, tame gw (lt a b)) → (∀ x, tame gw (key x)) → tame gw (py_sort lt key l).
Proof.
  intros Hlt Hkey. unfold py_sort.
  apply tame_bind.
  { apply tame_traverse. intros x. apply tame_bind; [apply Hkey|].
    intros k. apply tame_Ok. }
  intros keyed. apply tame_bind; [|intros ?; apply tame_Ok].
  induction keyed as [|x keyed IH]; simpl; [apply tame_Ok|].
  apply tame_bind; [apply IH|]. intros r. clear IH.
  induction r as [|y r IH]; simpl; [apply tame_Ok|].
  apply tame_bind; [apply Hlt|]. intros [|]; [|apply tame_Ok].
  apply tame_bind; [apply IH|]. intros ?. apply tame_Ok.
Qed.

Lemma tame_normalizers o :
  tame gw (driver_info o) ∧ tame gw (_build_device_info o)
  ∧ tame gw (register_info o) ∧ tame gw (tag_info o).
Proof.
  repeat split; (apply tame_bind; [apply tame_attr | intros ?; apply tame_Ok]).
Qed.

Lemma tame_count_up k counts : tame gw (count_up k counts).
Proof.
  unfold count_up. destruct (hashable k); [apply tame_Ok | by apply tame_Raise].
Qed.

Lemma tame_device_summary device_data counts :
  tame gw (_create_device_summary device_data counts).
Proof.
  revert counts. induction device_data as [|d l IH]; intros counts; simpl;
    [apply tame_Ok|].
  apply tame_bind; [apply tame_count_up | intros ?; apply IH].
Qed.

Lemma tame_find_device device_name : tame gw (_find_device_by_name gw device_name).
Proof.
  apply tame_bind; [apply tame_call|]. intros device_list.
  induction device_list as [|d l IH]; simpl; [apply tame_Ok|].
  apply tame_bind; [apply tame_attr|]. intros n.
  destruct (py_eq_str n device_name); [apply tame_Ok | apply IH].
Qed.

Lemma tame_find_tag k wanted tag_list : tame gw (find_tag k wanted tag_list).
Proof.
  induction tag_list as [|t l IH]; simpl; [apply tame_Ok|].
  apply tame_bind; [apply tame_attr|]. intros v.
  destruct (py_eq_arg v wanted); [apply tame_Ok | apply IH].
Qed.

Lemma tame_collect_drivers l m ns : tame gw (collect_drivers gw l m ns).
Proof.
  revert m ns. induction l as [|d l IH]; intros m ns; simpl; [apply tame_Ok|].
  apply tame_bind; [apply tame_attr|]. intros id.
  apply tame_bind; [apply tame_call|]. intros props.
  apply tame_bind; [apply tame_attr|]. intros n.
  destruct (hashable n); [apply IH | by apply tame_Raise].
Qed.

Lemma tame_entry_of {V} k (m : list (pyval * V)) : tame gw (entry_of k m).
Proof.
  induction m as [|[k' v] m IH]; simpl; [by apply tame_Raise|].
  destruct (py_eq_str k' k); [apply tame_Ok | apply IH].
Qed.

Lemma tame_collect_tags f l data counts : tame gw (collect_tags f l data counts).
Proof.
  revert data counts. induction l as [|t l IH]; intros data counts; simpl;
    [apply tame_Ok|].
  destruct (skipped_by_device f (tag_attrs t)); [apply IH|].
  apply tame_bind; [apply tame_normalizers|]. intros info.
  apply tame_bind; [apply tame_count_up|]. intros ?. apply IH.
Qed.

Lemma tame_find_single_tag k wanted tag_list :
  tame gw (find_single_tag k wanted tag_list).
Proof.
  apply tame_bind; [apply tame_find_tag|]. intros [t|]; [|apply tame_Ok].
  apply tame_bind; [apply tame_attr | intros ?; apply tame_Ok].
Qed.

Lemma tame_tags_to_delete tag_list tag_name tag_id tag_ids :
  tame gw (tags_to_delete tag_list tag_name tag_id tag_ids).
Proof.
  unfold tags_to_delete. destruct tag_ids as [|tid ids].
  - destruct (supplied tag_id); [apply tame_find_single_tag|].
    destruct (supplied tag_name); [apply tame_find_single_tag | apply tame_Ok].
  - generalize (tid :: ids). intros l.
    induction l as [|i l IH]; simpl; [apply tame_Ok|].
    apply tame_bind; [apply tame_find_tag|]. intros [t|]; [|apply IH].
    apply tame_bind; [apply tame_attr|]. intros n.
    apply tame_bind; [apply IH|]. intros [ts ns]. apply tame_Ok.
Qed.

Lemma tame_lift {A B} (r : result A) (f : A → logged B) :
  tame gw r → (∀ a, tame gw (f a).2) → tame gw (bind_logged (lift r) f).2.
Proof.
  intros Hr Hf. rewrite bind_logged_lift. destruct r as [a|e]; [apply Hf|].
  intros e' [= <-]. by apply Hr.
Qed.

Lemma tame_remote {A B} c (answer : sdk A) (f : A → logged B) :
  (∀ a, tame gw (f a).2) → tame gw (bind_logged (remote c answer) f).2.
Proof.
  intros Hf. rewrite bind_logged_remote.
  destruct answer as [a|t]; simpl; [apply Hf | by apply tame_Raise].
Qed.

Lemma guarded_try_except {P} reason extra (body : result P) :
  tame gw body → guarded gw reason extra (try_except reason extra body).
Proof.
  intros Hb. destruct body as [p|e]; [done|].
  destruct e; simpl; auto.
Qed.
End tame.

Lemma guarded_at_boundary {P} gw reason extra (o : outcome P) :
  guarded gw reason extra o →
  (∀ e, raised_by_collaborator gw e → is_exception e = true) →
  at_boundary o.
Proof.
  destruct o as [p|r e x|e]; simpl; [done..|]. intros [He|[He Hc]] Hgw.
  - destruct e; try done. eauto.
  - apply Hgw in Hc. congruence.
Qed.

(** C9, as stated, fails on the code.  When the task is cancelled while
    [get_current_value_of_devicehub_tag] waits for the live value, the
    [CancelledError] is no [Exception]: neither handler catches it, and it
    reaches the caller, which gets neither an envelope nor an [McpError]. *)
Lemma exception_boundary_cancellation :
  get_current_value_of_devicehub_tag (cancelled_at_read catalog) read_t1
  = Propagated (NotException "CancelledError")
  ∧ ¬ at_boundary
        (get_current_value_of_devicehub_tag (cancelled_at_read catalog)
           read_t1).
Proof.
  split; [reflexivity|]. intros (code & message & [=]).
Qed.

(** C9 (amended).  Every tool, on every input and whatever its collaborators
    answer, returns a success envelope, or its error envelope (with the
    reason code and the fixed fields of the tool) for an [Exception] that is
    not an [McpError], or re-raises an [McpError], or lets through an
    exception that is not an [Exception] (a task cancellation, an
    interpreter exit) and that the connection provider or the live-value
    subsystem raised; when these two raise instances of [Exception] only,
    every outcome is an envelope or an [McpError].  A propagated exception
    is the one that was raised. *)
Theorem exception_boundary gw arguments :
  guarded gw "retrieval_failed" [("count", PInt 0); ("drivers", PList [])]
    (get_litmusedge_driver_list gw)
  ∧ guarded gw "retrieval_failed" [("count", PInt 0); ("devices", PList [])]
      (get_devicehub_devices gw arguments)
  ∧ guarded gw "creation_failed" []
      (create_devicehub_device gw arguments).2
  ∧ guarded gw "retrieval_failed" [("count", PInt 0); ("tags", PList [])]
      (get_devicehub_device_tags gw arguments)
  ∧ guarded gw "read_failed" []
      (get_current_value_of_devicehub_tag gw arguments)
  ∧ guarded gw "retrieval_failed" [("count", PInt 0); ("tags", PList [])]
      (list_all_devicehub_tags gw arguments)
  ∧ guarded gw "creation_failed" [] (create_devicehub_tag gw arguments).2
  ∧ guarded gw "update_failed" [] (update_devicehub_tag gw arguments).2
  ∧ guarded gw "deletion_failed" [] (delete_devicehub_tag gw arguments).2
  ∧ (∀ P reason extra (o : outcome P),
       guarded gw reason extra o →
       (∀ e, raised_by_collaborator gw e → is_exception e = true) →
       at_boundary o)
  ∧ (∀ P reason extra e,
       is_mcp_error e = true ∨ is_exception e = false →
       try_except (P:=P) reason extra (Raise e) = Propagated e)
  ∧ (∀ P reason extra e,
       is_mcp_error e = false → is_exception e = true →
       try_except (P:=P) reason extra (Raise e) = ErrorResponse reason e extra).
Proof.
  split; [|split; [|split; [|split; [|split; [|split; [|split; [|split;
    [|split; [|split; [|split]]]]]]]]]].
  - apply guarded_try_except.
    apply tame_bind; [apply tame_connection|]. intros _.
    apply tame_bind; [apply tame_call|]. intros driver_list.
    apply tame_bind; [apply tame_traverse; intros; apply tame_normalizers|].
    intros drivers.
    apply tame_bind;
      [apply tame_py_sort; intros; [apply tame_py_lt | apply tame_item]|].
    intros sorted.
    apply tame_bind; [apply tame_traverse; intros; apply tame_item|].
    intros names. apply tame_Ok.
  - apply guarded_try_except. cbv zeta.
    apply tame_bind; [apply tame_connection|]. intros _.
    apply tame_bind; [apply tame_call|]. intros device_list.
    apply tame_bind; [apply tame_traverse; intros; apply tame_normalizers|].
    intros infos.
    apply tame_bind;
      [apply tame_py_sort; intros; [apply tame_py_lt | apply tame_item]|].
    intros sorted.
    apply tame_bind; [apply tame_device_summary|]. intros summary.
    apply tame_Ok.
  - unfold create_devicehub_device. rewrite try_except_logged_snd.
    apply guarded_try_except. cbv zeta.
    do 2 (apply tame_lift; [apply tame_required|]; intros ?).
    apply tame_lift; [apply tame_connection|]. intros _.
    apply tame_lift; [apply tame_call|]. intros driver_list.
    apply tame_lift; [apply tame_collect_drivers|]. intros [m ns].
    match goal with |- context [if ?c then _ else _] => destruct c end;
      [by apply tame_Raise|].
    apply tame_lift; [apply tame_entry_of|]. intros entry.
    apply tame_lift; [apply tame_call|]. intros dev.
    apply tame_remote. intros created. apply tame_Ok.
  - apply guarded_try_except. cbv zeta.
    apply tame_bind; [apply tame_required|]. intros dn.
    apply tame_bind; [apply tame_connection|]. intros _.
    apply tame_bind; [apply tame_find_device|].
    intros [dev|]; [|by apply tame_Raise].
    apply tame_bind; [apply tame_call|]. intros tag_list.
    apply tame_bind; [apply tame_traverse; intros; apply tame_normalizers|].
    intros tag_data.
    apply tame_bind;
      [apply tame_py_sort; intros; [apply tame_py_lt | apply tame_item]|].
    intros sorted.
    apply tame_bind; [apply tame_traverse; intros; apply tame_item|].
    intros names. apply tame_Ok.
  - apply guarded_try_except. cbv zeta.
    apply tame_bind; [apply tame_required|]. intros dn.
    match goal with |- context [if ?c then _ else _] => destruct c end;
      [by apply tame_Raise|].
    apply tame_bind; [apply tame_connection|]. intros _.
    apply tame_bind; [apply tame_find_device|].
    intros [dev|]; [|by apply tame_Raise].
    apply tame_bind; [apply tame_call|]. intros tag_list.
    apply tame_bind.
    { unfold find_requested_tag.
      destruct (supplied (get (arg_tag_name arguments)));
        apply tame_find_tag. }
    intros [t|]; [|by apply tame_Raise].
    match goal with |- context [if ?c then _ else _] => destruct c end;
      [by apply tame_Raise|].
    apply tame_bind; [apply tame_live|]. intros v.
    apply tame_bind.
    { destruct (supplied (get (arg_tag_name arguments)));
        [apply tame_Ok | apply tame_attr]. }
    intros out_name. apply tame_bind.
    { destruct (supplied (get (arg_tag_id arguments)));
        [apply tame_Ok | apply tame_attr]. }
    intros out_id. apply tame_Ok.
  - apply guarded_try_except. cbv zeta.
    apply tame_bind; [apply tame_connection|]. intros _.
    apply tame_bind; [apply tame_call|]. intros all_tags.
    apply tame_bind; [apply tame_collect_tags|]. intros [tag_data counts].
    apply tame_bind;
      [apply tame_py_sort; intros; [apply tame_py_lt_pair | apply tame_Ok]|].
    intros sorted. apply tame_Ok.
  - unfold create_devicehub_tag. rewrite try_except_logged_snd.
    apply guarded_try_except. cbv zeta.
    do 3 (apply tame_lift; [apply tame_required|]; intros ?).
    apply tame_lift; [apply tame_connection|]. intros _.
    apply tame_lift; [apply tame_find_device|].
    intros [dev|]; [|by apply tame_Raise].
    apply tame_lift; [apply tame_attr|]. intros device_id.
    apply tame_lift; [apply tame_call|]. intros new.
    apply tame_remote. intros [|t ts]; [by apply tame_Raise|].
    apply tame_lift; [apply tame_normalizers|]. intros info. apply tame_Ok.
  - unfold update_devicehub_tag. rewrite try_except_logged_snd.
    apply guarded_try_except. cbv zeta.
    do 2 (apply tame_lift; [apply tame_required|]; intros ?).
    apply tame_lift; [apply tame_connection|]. intros _.
    apply tame_lift; [apply tame_find_device|].
    intros [dev|]; [|by apply tame_Raise].
    apply tame_lift; [apply tame_call|]. intros tag_list.
    apply tame_lift; [apply tame_find_tag|].
    intros [existing|]; [|by apply tame_Raise].
    apply tame_remote. intros [|t ts]; [by apply tame_Raise|].
    apply tame_lift; [apply tame_normalizers|]. intros info. apply tame_Ok.
  - unfold delete_devicehub_tag. rewrite try_except_logged_snd.
    apply guarded_try_except. cbv zeta.
    apply tame_lift; [apply tame_required|]. intros dn.
    match goal with |- context [if ?c then _ else _] => destruct c end;
      [by apply tame_Raise|].
    apply tame_lift; [apply tame_connection|]. intros _.
    apply tame_lift; [apply tame_find_device|].
    intros [dev|]; [|by apply tame_Raise].
    apply tame_lift; [apply tame_call|]. intros tag_list.
    apply tame_lift; [apply tame_tags_to_delete|].
    intros [[|t [|t' ts]] ns]; [by apply tame_Raise|..];
      apply tame_remote; intros ?; apply tame_Ok.
  - intros P reason extra o. apply guarded_at_boundary.
  - intros P reason extra e [He|He]; by destruct e.
  - intros P reason extra e Hm He. by destruct e.
Qed.

Lemma exception_boundary_witness :
  at_boundary (get_current_value_of_devicehub_tag catalog read_pressure)
  ∧ get_current_value_of_devicehub_tag catalog read_pressure
    = Propagated
        (McpError INTERNAL_ERROR "No output topic found for tag name 'Pressure'").
Proof.
  split; [|reflexivity].
  destruct (exception_boundary catalog read_pressure)
    as (_ & _ & _ & _ & Hread & _ & _ & _ & _ & Hclaim & _).
  apply (Hclaim _ _ _ _ Hread).
  intros e [[=]|[t [=]]].
Defined.

(** ** readTagValue *)

Lemma first_output_topic_find ts :
  first_output_topic ts
  = match List.find is_output ts with Some t => topic t | None => PNone end.
Proof.
  induction ts as [|t ts IH]; simpl; [done|]. unfold is_output at 1.
  by destruct (py_eq_str (direction t) "Output").
Qed.

(** The tool, once the device and its registers are fetched. *)
Lemma read_after_fetch gw arguments dn dev tag_list :
  get (arg_device_name arguments) = Some dn → str_nonempty dn = true →
  supplied (get (arg_tag_name arguments))
  || supplied (get (arg_tag_id arguments)) = true →
  get_litmus_connection gw = Ok () →
  _find_device_by_name gw dn = Ok (Some dev) →
  list_registers_from_single_device gw dev = Returned tag_list →
  get_current_value_of_devicehub_tag gw arguments
  = try_except "read_failed" []
      (let tag_name := get (arg_tag_name arguments) in
       let tag_id := get (arg_tag_id arguments) in
       let* requested_tag := find_requested_tag tag_list tag_name tag_id in
       match requested_tag with
       | None =>
           Raise (McpError INVALID_PARAMS
                    ("Tag with " +:+ identifier_of tag_name tag_id +:+
                     " not found on device '" +:+ dn +:+ "'"))
       | Some requested_tag =>
           let chosen := first_output_topic (topics requested_tag) in
           if negb (truthy chosen) then
             Raise (McpError INTERNAL_ERROR
                      ("No output topic found for tag " +:+
                       identifier_of tag_name tag_id))
           else
             let* value_data := get_current_value_on_topic gw chosen in
             let* out_name :=
               if supplied tag_name then Ok (PStr (fmt tag_name))
               else attr (tag_attrs requested_tag) "tag_name" in
             let* out_id :=
               if supplied tag_id then Ok (PStr (fmt tag_id))
               else attr (tag_attrs requested_tag) "id" in
             Ok (mkTagValue dn out_name out_id value_data)
       end).
Proof.
  intros Hdn Hdn' Hsup Hconn Hdev Hregs.
  unfold get_current_value_of_devicehub_tag. cbv zeta. f_equal.
  rewrite Hdn, (required_Ok dn) by done. cbv beta iota delta [bind].
  replace (negb (supplied (get (arg_tag_name arguments)))
           && negb (supplied (get (arg_tag_id arguments)))) with false
    by (destruct (supplied (get (arg_tag_name arguments))),
          (supplied (get (arg_tag_id arguments))); done).
  by rewrite Hconn, Hdev, Hregs.
Qed.

(** C4 fails on the code.  Temp is looked up by name, its id is "t1", and the
    payload carries the caller's "t9". *)
Lemma readTagValue_echoes_supplied_id :
  find_requested_tag [temp; pressure; level] (Some "Temp") (Some "t9")
  = Ok (Some temp)
  ∧ tag_attrs temp !! "id" = Some (PStr "t1")
  ∧ get_current_value_of_devicehub_tag catalog read_temp_as_t9
    = Success (mkTagValue "PLC1" (PStr "Temp") (PStr "t9")
                 (PList [PStr "out/temp"; PInt 21])).
Proof. repeat split; reflexivity. Qed.

(** C8.  With a truthy [tag_name] and a truthy [tag_id] the request is not
    rejected: the tag is the first one of the device with that name, whatever
    the id, and the id only appears in the payload. *)
Theorem readTagValue_both_identifiers gw arguments dn dev tag_list n i :
  get (arg_device_name arguments) = Some dn → str_nonempty dn = true →
  get (arg_tag_name arguments) = Some n → str_nonempty n = true →
  get (arg_tag_id arguments) = Some i → str_nonempty i = true →
  get_litmus_connection gw = Ok () →
  _find_device_by_name gw dn = Ok (Some dev) →
  list_registers_from_single_device gw dev = Returned tag_list →
  find_requested_tag tag_list (Some n) (Some i)
  = find_tag "tag_name" (Some n) tag_list
  ∧ get_current_value_of_devicehub_tag gw arguments
    = match find_tag "tag_name" (Some n) tag_list with
      | Raise e => try_except "read_failed" [] (Raise e)
      | Ok None =>
          Propagated
            (McpError INVALID_PARAMS
               ("Tag with " +:+ ("name '" +:+ n +:+ "'") +:+
                " not found on device '" +:+ dn +:+ "'"))
      | Ok (Some t) =>
          let chosen := first_output_topic (topics t) in
          if truthy chosen then
            match get_current_value_on_topic gw chosen with
            | Ok v => Success (mkTagValue dn (PStr n) (PStr i) v)
            | Raise e => try_except "read_failed" [] (Raise e)
            end
          else
            Propagated
              (McpError INTERNAL_ERROR
                 ("No output topic found for tag " +:+
                  ("name '" +:+ n +:+ "'")))
      end.
Proof.
  intros Hdn Hdn' Hn Hn' Hi Hi' Hconn Hdev Hregs.
  assert (Hreq : find_requested_tag tag_list (Some n) (Some i)
                 = find_tag "tag_name" (Some n) tag_list).
  { unfold find_requested_tag. simpl. by rewrite Hn'. }
  split; [done|].
  rewrite (read_after_fetch gw arguments dn dev tag_list) by
    (try done; by rewrite Hn; simpl; rewrite Hn').
  cbv zeta. rewrite Hn, Hi, Hreq. unfold identifier_of. simpl supplied.
  rewrite Hn', Hi'. simpl fmt.
  destruct (find_tag "tag_name" (Some n) tag_list) as [[t|]|e]; try done.
  cbv beta iota delta [bind].
  destruct (truthy (first_output_topic (topics t))); simpl; [|done].
  by destruct (get_current_value_on_topic gw _).
Qed.

Lemma readTagValue_both_identifiers_witness :
  get_current_value_of_devicehub_tag catalog read_temp_as_t9
  = Success (mkTagValue "PLC1" (PStr "Temp") (PStr "t9")
               (PList [PStr "out/temp"; PInt 21])).
Proof.
  destruct (readTagValue_both_identifiers catalog read_temp_as_t9 "PLC1"
              plc1 [temp; pressure; level] "Temp" "t9" eq_refl eq_refl
              eq_refl eq_refl eq_refl eq_refl eq_refl eq_refl eq_refl)
    as [_ H].
  exact H.
Defined.

(** C6, as stated, fails on the code.  Level has two Output topics; the
    identifier of the first one is empty, so no topic is looked up and the
    tool raises the system-level error. *)
Lemma readTagValue_empty_output_topic :
  find_requested_tag [temp; pressure; level] (Some "Level") None
  = Ok (Some level)
  ∧ List.find is_output (topics level)
    = Some (mkTopic (PStr EmptyString) (PStr "Output"))
  ∧ get_current_value_of_devicehub_tag catalog read_level
    = Propagated
        (McpError INTERNAL_ERROR "No output topic found for tag name 'Level'").
Proof. repeat split; reflexivity. Qed.

(** C6 (amended).  For a tag that resolves: without a topic of direction
    "Output" the tool raises an [McpError] with code [INTERNAL_ERROR], not a
    validation error; so it does when the identifier of the first Output
    topic is empty or null; otherwise the live value is looked up on the
    first Output topic, and on no other. *)
Theorem readTagValue_output_topic gw arguments dn dev tag_list t :
  get (arg_device_name arguments) = Some dn → str_nonempty dn = true →
  supplied (get (arg_tag_name arguments))
  || supplied (get (arg_tag_id arguments)) = true →
  get_litmus_connection gw = Ok () →
  _find_device_by_name gw dn = Ok (Some dev) →
  list_registers_from_single_device gw dev = Returned tag_list →
  find_requested_tag tag_list (get (arg_tag_name arguments))
    (get (arg_tag_id arguments)) = Ok (Some t) →
  (List.find is_output (topics t) = None →
   get_current_value_of_devicehub_tag gw arguments
   = Propagated
       (McpError INTERNAL_ERROR
          ("No output topic found for tag " +:+
           identifier_of (get (arg_tag_name arguments))
             (get (arg_tag_id arguments)))))
  ∧ (∀ first,
       List.find is_output (topics t) = Some first →
       (truthy (topic first) = false →
        get_current_value_of_devicehub_tag gw arguments
        = Propagated
            (McpError INTERNAL_ERROR
               ("No output topic found for tag " +:+
                identifier_of (get (arg_tag_name arguments))
                  (get (arg_tag_id arguments)))))
       ∧ (truthy (topic first) = true →
          (∀ e, get_current_value_on_topic gw (topic first) = Raise e →
                get_current_value_of_devicehub_tag gw arguments
                = try_except "read_failed" [] (Raise e))
          ∧ (∀ v, get_current_value_on_topic gw (topic first) = Ok v →
                  (∃ payload,
                     get_current_value_of_devicehub_tag gw arguments
                     = Success payload
                     ∧ data payload = v)
                  ∨ (∃ k,
                       get_current_value_of_devicehub_tag gw arguments
                       = ErrorResponse "read_failed" (AttributeError k) [])))).
Proof.
  intros Hdn Hdn' Hsup Hconn Hdev Hregs Hfind.
  rewrite (read_after_fetch gw arguments dn dev tag_list) by done.
  cbv zeta. rewrite Hfind. cbv beta iota delta [bind].
  rewrite first_output_topic_find.
  split; [by intros ->|]. intros first ->. split; [by intros ->|].
  intros ->. simpl negb. cbv iota. split.
  - by intros e ->.
  - intros v ->. cbv beta iota delta [bind].
    destruct (supplied (get (arg_tag_name arguments)));
      destruct (supplied (get (arg_tag_id arguments)));
      cbv beta iota delta [bind]; unfold attr;
      repeat match goal with
             | |- context [tag_attrs t !! ?k] => destruct (tag_attrs t !! k)
             end; simpl; eauto.
Qed.

Lemma readTagValue_output_topic_witness :
  get_current_value_of_devicehub_tag catalog read_pressure
  = Propagated
      (McpError INTERNAL_ERROR
         "No output topic found for tag name 'Pressure'")
  ∧ ((∃ payload,
        get_current_value_of_devicehub_tag catalog read_t1 = Success payload
        ∧ data payload = PList [PStr "out/temp"; PInt 21])
     ∨ (∃ k,
          get_current_value_of_devicehub_tag catalog read_t1
          = ErrorResponse "read_failed" (AttributeError k) [])).
Proof.
  split.
  - destruct (readTagValue_output_topic catalog read_pressure "PLC1" plc1
                [temp; pressure; level] pressure eq_refl eq_refl eq_refl
                eq_refl eq_refl eq_refl eq_refl) as [H _].
    exact (H eq_refl).
  - destruct (readTagValue_output_topic catalog read_t1 "PLC1" plc1
                [temp; pressure; level] temp eq_refl eq_refl eq_refl eq_refl
                eq_refl eq_refl eq_refl) as [_ H].
    destruct (H (mkTopic (PStr "out/temp") (PStr "Output")) eq_refl)
      as [_ H'].
    destruct (H' eq_refl) as [_ Hv]. apply Hv. reflexivity.
Defined.

(** What C4 says does hold when the caller supplies one identifier only. *)
Lemma find_tag_Some k wanted tag_list t :
  find_tag k wanted tag_list = Ok (Some t) →
  ∃ v, tag_attrs t !! k = Some v ∧ py_eq_arg v wanted = true.
Proof.
  induction tag_list as [|t' tag_list IH]; simpl; [done|]. intros H.
  bind_inv H. destruct (py_eq_arg x wanted) eqn:Heq; [|by apply IH].
  injection H as <-. apply attr_Ok in E. eauto.
Qed.

Lemma py_eq_str_eq v s : py_eq_str v s = true → v = PStr s.
Proof.
  destruct v; simpl; try done. by intros ->%String.eqb_eq.
Qed.

Lemma readTagValue_enrichment_one_identifier gw arguments payload :
  get_current_value_of_devicehub_tag gw arguments = Success payload →
  supplied (get (arg_tag_name arguments))
  && supplied (get (arg_tag_id arguments)) = false →
  ∃ dev tag_list t,
    _find_device_by_name gw (value_device_name payload) = Ok (Some dev)
    ∧ list_registers_from_single_device gw dev = Returned tag_list
    ∧ find_requested_tag tag_list (get (arg_tag_name arguments))
        (get (arg_tag_id arguments)) = Ok (Some t)
    ∧ tag_attrs t !! "tag_name" = Some (value_tag_name payload)
    ∧ tag_attrs t !! "id" = Some (value_tag_id payload).
Proof.
  unfold get_current_value_of_devicehub_tag. rewrite try_except_Success.
  cbv zeta. intros H Hone. bind_inv H.
  destruct (negb (supplied (get (arg_tag_name arguments))) && _);
    [discriminate|].
  bind_inv H. bind_inv H. destruct x1 as [dev|]; [|discriminate].
  bind_inv H.
  destruct (list_registers_from_single_device gw dev) as [tag_list|] eqn:Hregs;
    [|discriminate]. injection E2 as <-.
  bind_inv H. destruct x1 as [t|]; [|discriminate].
  destruct (negb (truthy _)); [discriminate|].
  bind_inv H. bind_inv H. bind_inv H. injection H as <-. simpl.
  exists dev, tag_list, t. repeat split; try done.
  - unfold find_requested_tag in E2.
    destruct (supplied (get (arg_tag_name arguments))) eqn:Hn.
    + injection E4 as <-. apply find_tag_Some in E2 as (v & Hv & Heq).
      destruct (get (arg_tag_name arguments)) as [n|]; [|done].
      simpl in *. by apply py_eq_str_eq in Heq as ->.
    + by apply attr_Ok.
  - unfold find_requested_tag in E2.
    destruct (supplied (get (arg_tag_id arguments))) eqn:Hi.
    + rewrite andb_true_r in Hone. rewrite Hone in E2.
      injection E5 as <-. apply find_tag_Some in E2 as (v & Hv & Heq).
      destruct (get (arg_tag_id arguments)) as [i|]; [|done].
      simpl in *. by apply py_eq_str_eq in Heq as ->.
    + by apply attr_Ok.
Qed.

(** * Further properties *)

(** ** listDrivers and listDeviceTags *)

Lemma traverse_item_names k (l : list pydict) names :
  traverse (λ d, item d k) l = Ok names →
  Forall2 (λ (d : pydict) n, d !! k = Some n) l names.
Proof.
  intros H. apply traverse_Forall2 in H.
  eapply Forall2_impl; [exact H|]. intros d n. by rewrite item_Ok.
Qed.

(** X1.  The driver list of a successful [get_litmusedge_driver_list] holds
    the normalized form of every driver of the catalog, once each, sorted
    ascending by name; [count] is its length and [driver_names] lists the
    names in the same order. *)
Theorem listDrivers_sorted_and_complete gw payload :
  get_litmusedge_driver_list gw = Success payload →
  ∃ driver_list infos,
    list_all_drivers gw = Returned driver_list
    ∧ traverse driver_info driver_list = Ok infos
    ∧ drivers payload ≡ₚ infos
    ∧ StronglySorted (key_le "name") (drivers payload)
    ∧ drivers_count payload = length (drivers payload)
    ∧ Forall2 (λ (d : pydict) n, d !! "name" = Some n)
        (drivers payload) (driver_names payload).
Proof.
  unfold get_litmusedge_driver_list. rewrite try_except_Success. intros H.
  bind_inv H. destruct (list_all_drivers gw) as [driver_list|]; [|done].
  simpl in H. bind_inv H. bind_inv H. bind_inv H. injection H as <-. simpl.
  apply sort_by_item in E1 as [Hperm Hsorted].
  exists driver_list, x0. repeat split; try done.
  by apply traverse_item_names.
Qed.

Lemma listDrivers_witness :
  ∃ payload,
    get_litmusedge_driver_list catalog = Success payload
    ∧ driver_names payload = [PStr "ModbusTCP"; PStr "OPCUA"]
    ∧ StronglySorted (key_le "name") (drivers payload).
Proof.
  eexists. split; [reflexivity|]. split; [reflexivity|].
  destruct (listDrivers_sorted_and_complete catalog _ eq_refl)
    as (? & ? & _ & _ & _ & H & _).
  exact H.
Defined.

(** X2.  The tag list of a successful [get_devicehub_device_tags] holds the
    normalized form of every register of the first device with the requested
    name, once each, sorted ascending by [tag_name]; [count] is its length,
    [tag_names] lists the names in the same order, and [device_name] is the
    caller's. *)
Theorem listDeviceTags_sorted_and_complete gw arguments payload :
  get_devicehub_device_tags gw arguments = Success payload →
  ∃ dev tag_list infos,
    get (arg_device_name arguments) = Some (tags_device_name payload)
    ∧ _find_device_by_name gw (tags_device_name payload) = Ok (Some dev)
    ∧ list_registers_from_single_device gw dev = Returned tag_list
    ∧ traverse (λ t, register_info (tag_attrs t)) tag_list = Ok infos
    ∧ tags payload ≡ₚ infos
    ∧ StronglySorted (key_le "tag_name") (tags payload)
    ∧ tags_count payload = length (tags payload)
    ∧ Forall2 (λ (d : pydict) n, d !! "tag_name" = Some n)
        (tags payload) (tag_names payload).
Proof.
  unfold get_devicehub_device_tags. rewrite try_except_Success. cbv zeta.
  intros H. bind_inv H.
  assert (Hdn : get (arg_device_name arguments) = Some x).
  { unfold required in E. destruct (get (arg_device_name arguments)) as [s|];
      [|done]. destruct (str_nonempty s); [|done]. by injection E as ->. }
  bind_inv H. bind_inv H. destruct x1 as [dev|]; [|done]. bind_inv H.
  destruct (list_registers_from_single_device gw dev) as [tag_list|] eqn:Hr;
    [|done]. injection E2 as <-.
  bind_inv H. bind_inv H. bind_inv H. injection H as <-. simpl.
  apply sort_by_item in E3 as [Hperm Hsorted].
  exists dev, tag_list, x1. repeat split; try done.
  by apply traverse_item_names.
Qed.

Lemma listDeviceTags_witness :
  ∃ payload,
    get_devicehub_device_tags catalog only_plc1 = Success payload
    ∧ tag_names payload = [PStr "Level"; PStr "Pressure"; PStr "Temp"]
    ∧ tags_count payload = 3%nat
    ∧ StronglySorted (key_le "tag_name") (tags payload).
Proof.
  eexists. split; [reflexivity|]. split; [reflexivity|].
  split; [reflexivity|].
  destruct (listDeviceTags_sorted_and_complete catalog only_plc1 _ eq_refl)
    as (? & ? & ? & _ & _ & _ & _ & _ & H & _).
  exact H.
Defined.

(** ** Device lookup *)

Lemma py_eq_str_false v s : py_eq_str v s = false ↔ v ≠ PStr s.
Proof.
  destruct v; simpl; try (split; [discriminate|done]).
  rewrite String.eqb_neq. split; congruence.
Qed.

Lemma py_eq_str_true v s : py_eq_str v s = true ↔ v = PStr s.
Proof.
  split; [apply py_eq_str_eq|]. intros ->. simpl. apply String.eqb_refl.
Qed.

Lemma first_named_Some device_name device_list d :
  first_named device_name device_list = Ok (Some d) ↔
  ∃ before after,
    device_list = before ++ d :: after
    ∧ d !! "name" = Some (PStr device_name)
    ∧ Forall (λ d' : pyobj, ∃ n, d' !! "name" = Some n ∧ n ≠ PStr device_name)
        before.
Proof.
  induction device_list as [|d' l IH]; simpl.
  - split; [done|]. intros (before & after & H & _). by destruct before.
  - unfold attr. destruct (d' !! "name") as [n|] eqn:Hn; simpl.
    + destruct (py_eq_str n device_name) eqn:Heq.
      * apply py_eq_str_true in Heq as ->. split.
        -- intros [= ->]. exists [], l. by repeat split.
        -- intros ([|b before] & after & H & Hd & Hb); simplify_eq/=; [done|].
           apply Forall_cons in Hb as [(n & Hn' & Hne) _]. congruence.
      * apply py_eq_str_false in Heq. rewrite IH. split.
        -- intros (before & after & -> & Hd & Hb).
           exists (d' :: before), after. repeat split; [done|].
           constructor; eauto.
        -- intros ([|b before] & after & H & Hd & Hb); simplify_eq/=.
           apply Forall_cons in Hb as [_ Hb]. eauto.
    + split; [done|].
      intros ([|b before] & after & H & Hd & Hb); simplify_eq/=.
      apply Forall_cons in Hb as [(n & Hn' & _) _]. congruence.
Qed.

Lemma first_named_None device_name device_list :
  first_named device_name device_list = Ok None ↔
  Forall (λ d' : pyobj, ∃ n, d' !! "name" = Some n ∧ n ≠ PStr device_name)
    device_list.
Proof.
  induction device_list as [|d' l IH]; simpl; [done|].
  unfold attr. destruct (d' !! "name") as [n|] eqn:Hn; simpl.
  - destruct (py_eq_str n device_name) eqn:Heq.
    + apply py_eq_str_true in Heq as ->. split; [done|].
      intros [(n & Hn' & Hne) _]%Forall_cons. congruence.
    + apply py_eq_str_false in Heq. rewrite IH, Forall_cons. split; [eauto|].
      by intros [_ ?].
  - split; [done|]. intros [(n & Hn' & _) _]%Forall_cons. congruence.
Qed.

(** X3.  [_find_device_by_name] scans a freshly fetched device list from the
    front: it returns a device exactly when that device is the first one
    whose name equals the requested str (later devices of the same name are
    never returned), and None exactly when every device has a name and none
    equals it. *)
Theorem find_device_first_match gw device_name device_list :
  list_devices gw = Returned device_list →
  (∀ d, _find_device_by_name gw device_name = Ok (Some d) ↔
        ∃ before after,
          device_list = before ++ d :: after
          ∧ d !! "name" = Some (PStr device_name)
          ∧ Forall (λ d' : pyobj,
                      ∃ n, d' !! "name" = Some n ∧ n ≠ PStr device_name)
              before)
  ∧ (_find_device_by_name gw device_name = Ok None ↔
     Forall (λ d' : pyobj, ∃ n, d' !! "name" = Some n ∧ n ≠ PStr device_name)
       device_list).
Proof.
  intros Hl. unfold _find_device_by_name. rewrite Hl. simpl.
  split; [intros d; apply first_named_Some | apply first_named_None].
Qed.

Lemma find_device_witness :
  _find_device_by_name catalog "PLC1" = Ok (Some plc1).
Proof.
  destruct (find_device_first_match catalog "PLC1" [plc2; plc1; plc3] eq_refl)
    as [H _].
  apply H. exists [plc2], [plc3]. split; [reflexivity|].
  split; [reflexivity|]. constructor; [|constructor].
  exists (PStr "PLC2"). split; [reflexivity | discriminate].
Defined.

(** ** listDevices: count, summary, malformed records *)

Lemma py_key_eqb_trans a b c :
  py_key_eqb a b = true → py_key_eqb b c = true → py_key_eqb a c = true.
Proof.
  destruct a, b, c; simpl; try done;
    try (rewrite !String.eqb_eq; congruence);
    rewrite !Z.eqb_eq; congruence.
Qed.

Lemma py_key_eqb_sym a b : py_key_eqb a b = py_key_eqb b a.
Proof.
  destruct a, b; simpl; try done;
    try apply String.eqb_sym; apply Z.eqb_sym.
Qed.

Lemma py_key_eqb_congr a b c :
  py_key_eqb a b = true → py_key_eqb a c = py_key_eqb b c.
Proof.
  intros Hab. destruct (py_key_eqb b c) eqn:Hbc.
  - by eapply py_key_eqb_trans.
  - destruct (py_key_eqb a c) eqn:Hac; [|done].
    rewrite py_key_eqb_sym in Hab.
    by rewrite (py_key_eqb_trans _ _ _ Hab Hac) in Hbc.
Qed.

Lemma total_incr k counts : total (incr k counts) = S (total counts).
Proof.
  unfold total. induction counts as [|[k' n] counts IH]; [done|].
  cbn [incr]. destruct (py_key_eqb k' k); [done|].
  change (sum_list ((k', n) :: incr k counts).*2)
    with (n + sum_list (incr k counts).*2)%nat.
  change (sum_list ((k', n) :: counts).*2)
    with (n + sum_list counts.*2)%nat.
  rewrite IH. lia.
Qed.

Lemma count_of_incr k k' counts :
  count_of k (incr k' counts)
  = (if py_key_eqb k' k then S (count_of k counts) else count_of k counts).
Proof.
  induction counts as [|[k'' n] counts IH]; simpl; [done|].
  destruct (py_key_eqb k'' k') eqn:E; simpl.
  - rewrite (py_key_eqb_congr _ _ k E). by destruct (py_key_eqb k' k).
  - destruct (py_key_eqb k'' k) eqn:E'; [|done].
    destruct (py_key_eqb k' k) eqn:E''; [|done].
    rewrite (py_key_eqb_sym k' k) in E''.
    by rewrite (py_key_eqb_trans _ _ _ E' E'') in E.
Qed.

Lemma _create_device_summary_counts device_data counts r :
  _create_device_summary device_data counts = Ok r →
  total r = (total counts + length device_data)%nat
  ∧ ∀ k, count_of k r
         = (count_of k counts
            + length (List.filter (λ d, py_key_eqb (driver_key d) k)
                        device_data))%nat.
Proof.
  revert counts. induction device_data as [|d l IH]; simpl; intros counts H.
  - injection H as <-. split; [lia|]. intros k. lia.
  - bind_inv H. unfold count_up in E.
    destruct (hashable (dict_get d "driver" (PStr "unknown"))); [|done].
    injection E as <-. apply IH in H as [Ht Hc]. split.
    + rewrite Ht, total_incr. lia.
    + intros k. rewrite Hc, count_of_incr. unfold driver_key.
      destruct (py_key_eqb _ k); simpl; lia.
Qed.

(** X4.  In the result of a successful [get_devicehub_devices], [count] is
    the length of the device list, the counts of [summary.by_driver] add up
    to [count], the count of every group is the number of listed devices
    whose driver is that group (a device without a driver is in the group
    "unknown"), and [filters_applied] is present exactly when a truthy
    filter was given. *)
Theorem listDevices_count_and_summary gw arguments payload :
  get_devicehub_devices gw arguments = Success payload →
  devices_count payload = length (devices payload)
  ∧ total (by_driver payload) = devices_count payload
  ∧ (∀ k, count_of k (by_driver payload)
          = length (List.filter (λ d, py_key_eqb (driver_key d) k)
                      (devices payload)))
  ∧ devices_filters_applied payload
    = (if supplied (get (arg_filter_by_driver arguments))
       then get (arg_filter_by_driver arguments) else None).
Proof.
  unfold get_devicehub_devices. rewrite try_except_Success. intros H.
  bind_inv H. bind_inv H. bind_inv H. bind_inv H. bind_inv H.
  injection H as <-. simpl.
  apply _create_device_summary_counts in E3 as [Ht Hc].
  repeat split; [done|exact Hc].
Qed.

Lemma listDevices_count_witness :
  ∃ payload,
    get_devicehub_devices catalog no_arguments = Success payload
    ∧ devices_count payload = 3%nat
    ∧ total (by_driver payload) = 3%nat
    ∧ count_of (PStr "ModbusTCP") (by_driver payload) = 2%nat.
Proof.
  eexists. split; [reflexivity|]. split; [reflexivity|].
  destruct (listDevices_count_and_summary catalog no_arguments _ eq_refl)
    as (_ & Ht & Hc & _).
  split; [exact Ht|]. rewrite Hc. reflexivity.
Defined.

Lemma build_device_info_raises l e :
  traverse _build_device_info l = Raise e → e = AttributeError "name".
Proof.
  induction l as [|d l IH]; simpl; [done|].
  unfold _build_device_info at 1, attr.
  destruct (d !! "name"); simpl; [|by intros [= <-]].
  destruct (traverse _build_device_info l); simpl; [done|].
  intros [= <-]. by apply IH.
Qed.

Lemma build_device_info_nameless l (d : pyobj) :
  d ∈ l → d !! "name" = None → ∃ e, traverse _build_device_info l = Raise e.
Proof.
  intros Hd Hn. induction Hd as [d l|d d' l _ IH]; simpl.
  - unfold _build_device_info, attr. rewrite Hn. simpl. eauto.
  - destruct (_build_device_info d'); simpl; [|eauto].
    destruct (IH Hn) as [e ->]. simpl. eauto.
Qed.

(** X5.  The device listing is all or nothing: when any device of the
    fetched collection lacks the [name] attribute, [get_devicehub_devices]
    returns the error envelope [retrieval_failed] with [count] 0 and an
    empty device list, whatever the filter, even one that would have skipped
    that device. *)
Theorem listDevices_fails_on_nameless_device gw arguments device_list d :
  get_litmus_connection gw = Ok () →
  list_devices gw = Returned device_list →
  d ∈ device_list → d !! "name" = None →
  get_devicehub_devices gw arguments
  = ErrorResponse "retrieval_failed" (AttributeError "name")
      [("count", PInt 0); ("devices", PList [])].
Proof.
  intros Hconn Hl Hd Hn. unfold get_devicehub_devices. cbv zeta.
  rewrite Hconn, Hl. simpl.
  destruct (build_device_info_nameless device_list d Hd Hn) as [e He].
  rewrite He. by rewrite (build_device_info_raises _ _ He).
Qed.

Lemma listDevices_nameless_witness :
  get_devicehub_devices (with_devices catalog (Returned [plc1; nameless]))
    only_modbus
  = ErrorResponse "retrieval_failed" (AttributeError "name")
      [("count", PInt 0); ("devices", PList [])].
Proof.
  apply (listDevices_fails_on_nameless_device _ _ [plc1; nameless] nameless);
    [reflexivity | reflexivity | | reflexivity].
  apply list_elem_of_In. simpl. right. left. reflexivity.
Defined.

(** ** createDevice *)

Lemma entry_of_set_entry {V} sel n (v : V) m :
  entry_of sel (set_entry n v m)
  = (if py_eq_str n sel then Ok v else entry_of sel m).
Proof.
  induction m as [|[k' v'] m IH]; simpl; [by destruct (py_eq_str n sel)|].
  destruct (py_key_eqb k' n) eqn:E; simpl.
  - destruct (py_eq_str k' sel) eqn:E1, (py_eq_str n sel) eqn:E2; try done.
    + apply py_eq_str_true in E1 as ->. apply py_eq_str_false in E2.
      destruct n; simpl in E; try done. apply String.eqb_eq in E. congruence.
    + apply py_eq_str_true in E2 as ->. apply py_eq_str_false in E1.
      destruct k'; simpl in E; try done. apply String.eqb_eq in E. congruence.
  - destruct (py_eq_str k' sel) eqn:E1; [|done].
    destruct (py_eq_str n sel) eqn:E2; [|done].
    apply py_eq_str_true in E1 as ->. apply py_eq_str_true in E2 as ->.
    simpl in E. by rewrite String.eqb_refl in E.
Qed.

Lemma collect_drivers_spec gw l m ns :
  Forall (usable_driver gw) l →
  ∃ m',
    collect_drivers gw l m ns = Ok (m', ns ++ map driver_name l)
    ∧ (∀ sel, Forall (λ d : pyobj, d !! "name" ≠ Some (PStr sel)) l →
              entry_of sel m' = entry_of sel m)
    ∧ (∀ sel before d after id props,
         l = before ++ d :: after →
         d !! "name" = Some (PStr sel) →
         Forall (λ d' : pyobj, d' !! "name" ≠ Some (PStr sel)) after →
         d !! "id" = Some id →
         get_default_properties gw d = Returned props →
         entry_of sel m' = Ok (id, props)).
Proof.
  intros Hl. revert m ns.
  induction Hl as [|d l ([id Hid] & [props Hp] & [s Hs]) _ IH]; intros m ns.
  - exists m. simpl. rewrite app_nil_r. split; [done|]. split; [done|].
    intros sel before d after id props H. by destruct before.
  - simpl. unfold attr. rewrite Hid, Hp, Hs. simpl.
    destruct (IH (set_entry (PStr s) (id, props) m) (ns ++ [PStr s]))
      as (m' & -> & Hkeep & Hlast).
    exists m'. split.
    { unfold driver_name at 2, getattr. rewrite Hs. simpl.
      by rewrite <- app_assoc. }
    split.
    + intros sel [Hd Hrest]%Forall_cons.
      rewrite (Hkeep sel Hrest), entry_of_set_entry.
      destruct (py_eq_str (PStr s) sel) eqn:E; [|done].
      apply py_eq_str_true in E as [= ->]. done.
    + intros sel [|b before] d' after id' props' Heq Hn Hafter Hid' Hp'.
      * injection Heq as <- <-. rewrite (Hkeep sel Hafter), entry_of_set_entry.
        rewrite Hs in Hn. injection Hn as ->. simpl.
        rewrite String.eqb_refl. congruence.
      * injection Heq as <- ->. by eapply Hlast.
Qed.

Lemma existsb_names sel (l : list pyobj) :
  existsb (λ n, py_eq_str n sel) (map driver_name l) = false ↔
  Forall (λ d : pyobj, d !! "name" ≠ Some (PStr sel)) l.
Proof.
  induction l as [|d l IH]; simpl; [done|].
  rewrite orb_false_iff, IH, Forall_cons, py_eq_str_false.
  unfold driver_name, getattr.
  destruct (d !! "name") as [n|]; simpl; split; intros [H ?]; split;
    try done; congruence.
Qed.

(** X6.  With [name] and [selected_driver] given and every driver of the
    catalog readable, a [selected_driver] that is the name of no driver makes
    [create_devicehub_device] raise [McpError] with code [INVALID_PARAMS];
    the message names the requested driver and lists the names of all the
    drivers, in catalog order, each one as Python shows a str, between
    brackets and separated by a comma and a space; no device is created.
    The names are taken in ASCII. *)
Theorem createDevice_unknown_driver gw arguments n sel driver_list names :
  get (arg_name arguments) = Some n → str_nonempty n = true →
  get (arg_selected_driver arguments) = Some sel → str_nonempty sel = true →
  get_litmus_connection gw = Ok () →
  list_all_drivers gw = Returned driver_list →
  Forall (usable_driver gw) driver_list →
  Forall2 (λ (d : pyobj) s, d !! "name" = Some (PStr s)) driver_list names →
  Forall (λ s, all_ascii s = true) names →
  sel ∉ names →
  create_devicehub_device gw arguments
  = ([], Propagated
           (McpError INVALID_PARAMS
              ("Driver '" +:+ sel +:+ "' not found. Available drivers: " +:+
               ("[" +:+ join_with ", " (map repr_str names) +:+ "]")))).
Proof.
  intros Hn Hn' Hs Hs' Hconn Hl Hu Hnames _ Hno.
  assert (Hmap : map driver_name driver_list = map PStr names).
  { clear -Hnames. induction Hnames as [|d s l ns Hd _ IH]; simpl; [done|].
    unfold driver_name at 1, getattr. rewrite Hd. simpl. by rewrite IH. }
  assert (Hnone : Forall (λ d : pyobj, d !! "name" ≠ Some (PStr sel))
                    driver_list).
  { clear -Hnames Hno. induction Hnames as [|d s l ns Hd _ IH]; [done|].
    apply not_elem_of_cons in Hno as [Hne Hno]. constructor; [|by apply IH].
    rewrite Hd. congruence. }
  unfold create_devicehub_device. cbv zeta. rewrite Hn, Hs.
  rewrite bind_logged_lift, (required_Ok n) by done. cbv beta iota.
  rewrite bind_logged_lift, (required_Ok sel) by done. cbv beta iota.
  rewrite bind_logged_lift, Hconn. cbv beta iota.
  rewrite bind_logged_lift, Hl. simpl call. cbv beta iota.
  destruct (collect_drivers_spec gw driver_list [] [] Hu) as (m' & -> & _).
  rewrite bind_logged_lift. cbv beta iota. simpl app.
  apply existsb_names in Hnone. rewrite Hnone. cbv beta iota.
  unfold lift, try_except_logged. simpl. do 4 f_equal.
  unfold repr_list. rewrite Hmap. simpl. by rewrite map_map.
Qed.

Lemma createDevice_unknown_driver_witness :
  create_devicehub_device catalog new_line4_bacnet
  = ([], Propagated
           (McpError INVALID_PARAMS
              "Driver 'BACnet' not found. Available drivers: ['OPCUA', 'ModbusTCP']")).
Proof.
  apply (createDevice_unknown_driver catalog new_line4_bacnet "Line4"
           "BACnet" _ ["OPCUA"; "ModbusTCP"]
           eq_refl eq_refl eq_refl eq_refl eq_refl eq_refl).
  - repeat constructor; try (by eexists).
  - by repeat constructor.
  - by repeat constructor.
  - intros H. repeat (apply elem_of_cons in H as [[=]|H]).
    by apply elem_of_nil in H.
Defined.

(** X7.  When the drivers are readable and at least one has the selected
    name, the device is built from the id and the default properties of the
    last driver of the catalog with that name; exactly one device creation
    is issued, and when it returns an object the result is that object's
    attribute dict together with the three fixed follow-up steps. *)
Theorem createDevice_uses_selected_driver gw arguments n sel before d after
    id props dev :
  get (arg_name arguments) = Some n → str_nonempty n = true →
  get (arg_selected_driver arguments) = Some sel → str_nonempty sel = true →
  get_litmus_connection gw = Ok () →
  list_all_drivers gw = Returned (before ++ d :: after) →
  Forall (usable_driver gw) (before ++ d :: after) →
  d !! "name" = Some (PStr sel) →
  Forall (λ d' : pyobj, d' !! "name" ≠ Some (PStr sel)) after →
  d !! "id" = Some id →
  get_default_properties gw d = Returned props →
  new_device gw (device_kwargs n props id) = Returned dev →
  (create_devicehub_device gw arguments).1 = [CreateDevice dev]
  ∧ (∀ created_dict,
       create_device gw dev = Returned (WithDict created_dict) →
       (create_devicehub_device gw arguments).2
       = Success
           (mkDeviceCreated created_dict
              ["Update connection properties (IP address, port, etc.)";
               "Configure tags/registers for data collection";
               "Enable the device to start communication"])).
Proof.
  intros Hn Hn' Hs Hs' Hconn Hl Hu Hd Hafter Hid Hp Hnew.
  unfold create_devicehub_device. cbv zeta. rewrite Hn, Hs.
  rewrite bind_logged_lift, (required_Ok n) by done. cbv beta iota.
  rewrite bind_logged_lift, (required_Ok sel) by done. cbv beta iota.
  rewrite bind_logged_lift, Hconn. cbv beta iota.
  rewrite bind_logged_lift, Hl. simpl call. cbv beta iota.
  destruct (collect_drivers_spec gw (before ++ d :: after) [] [] Hu)
    as (m' & -> & _ & Hlast).
  rewrite bind_logged_lift. cbv beta iota. simpl app.
  assert (existsb (λ n0, py_eq_str n0 sel)
            (map driver_name (before ++ d :: after)) = true) as ->.
  { destruct (existsb _ _) eqn:E; [done|]. apply existsb_names in E.
    apply Forall_app in E as [_ [E _]%Forall_cons]. done. }
  simpl negb. cbv iota.
  rewrite bind_logged_lift,
    (Hlast sel before d after id props eq_refl Hd Hafter Hid Hp).
  cbv beta iota. simpl fst. simpl snd.
  unfold device_kwargs in Hnew. simpl in Hnew. rewrite bind_logged_lift, Hnew.
  simpl call. cbv beta iota. rewrite bind_logged_remote.
  split; [by destruct (create_device gw dev)|]. by intros ? ->.
Qed.

Lemma createDevice_witness :
  (create_devicehub_device catalog new_line4).1
  = [CreateDevice (device_kwargs "Line4" (PList []) (PStr "drv1"))].
Proof.
  refine (proj1 (createDevice_uses_selected_driver catalog new_line4 "Line4"
                   "ModbusTCP"
                   [list_to_map [("name", PStr "OPCUA"); ("id", PStr "drv2")]]
                   (list_to_map [("name", PStr "ModbusTCP");
                                 ("id", PStr "drv1")])
                   [] (PStr "drv1") (PList []) _
                   eq_refl eq_refl eq_refl eq_refl eq_refl eq_refl _
                   eq_refl _ eq_refl eq_refl eq_refl)).
  - repeat constructor; try (by eexists).
  - constructor.
Defined.

(** ** createTag and updateTag *)

(** X8.  When the arguments are complete and the device resolves,
    [create_devicehub_tag] builds one tag bound to the id of the device,
    with an empty description, no properties and [publish_cov] False for the
    keys the request leaves out, and issues exactly one creation call with
    that single tag.  An empty answer gives an [McpError] with code
    [INTERNAL_ERROR] although the call has been issued; otherwise the result
    is the normalized form of the first tag of the answer. *)
Theorem createTag_single_call gw arguments dn tn vt dev id t :
  get (arg_device_name arguments) = Some dn → str_nonempty dn = true →
  get (arg_tag_name arguments) = Some tn → str_nonempty tn = true →
  get (arg_value_type arguments) = Some vt → str_nonempty vt = true →
  get_litmus_connection gw = Ok () →
  _find_device_by_name gw dn = Ok (Some dev) →
  dev !! "id" = Some id →
  new_tag gw (tag_kwargs id tn vt arguments) = Returned t →
  (create_devicehub_tag gw arguments).1 = [CreateTags [t]]
  ∧ tag_kwargs id tn vt arguments !! "device" = Some id
  ∧ (arg_description arguments = Missing →
     tag_kwargs id tn vt arguments !! "description"
     = Some (PStr EmptyString))
  ∧ (arg_properties arguments = Missing →
     tag_kwargs id tn vt arguments !! "properties" = Some (PList []))
  ∧ (arg_publish_cov arguments = Missing →
     tag_kwargs id tn vt arguments !! "publish_cov" = Some (PBool false))
  ∧ (create_tags gw [t] = Returned [] →
     (create_devicehub_tag gw arguments).2
     = Propagated (McpError INTERNAL_ERROR "Tag creation returned no results"))
  ∧ (∀ first rest info,
       create_tags gw [t] = Returned (first :: rest) →
       tag_info (tag_attrs first) = Ok info →
       (create_devicehub_tag gw arguments).2
       = Success (mkTagResult dn info)).
Proof.
  intros Hdn Hdn' Htn Htn' Hvt Hvt' Hconn Hdev Hid Hnew.
  unfold create_devicehub_tag. cbv zeta. rewrite Hdn, Htn, Hvt.
  rewrite bind_logged_lift, (required_Ok dn) by done. cbv beta iota.
  rewrite bind_logged_lift, (required_Ok tn) by done. cbv beta iota.
  rewrite bind_logged_lift, (required_Ok vt) by done. cbv beta iota.
  rewrite bind_logged_lift, Hconn. cbv beta iota.
  rewrite bind_logged_lift, Hdev. cbv beta iota.
  rewrite bind_logged_lift. unfold attr. rewrite Hid. cbv beta iota.
  fold (tag_kwargs id tn vt arguments).
  rewrite bind_logged_lift, Hnew. simpl call. cbv beta iota.
  rewrite bind_logged_remote.
  split.
  { destruct (create_tags gw [t]) as [[|? ?]|]; simpl; try done.
    rewrite bind_logged_lift. by destruct (tag_info _). }
  split; [done|].
  split; [by intros H; unfold tag_kwargs; rewrite H|].
  split; [by intros H; unfold tag_kwargs; rewrite H|].
  split; [by intros H; unfold tag_kwargs; rewrite H|].
  split; [by intros ->|].
  intros first rest info -> Hinfo. simpl. by rewrite bind_logged_lift, Hinfo.
Qed.

Lemma createTag_witness :
  (create_devicehub_tag catalog create_flow2).1
  = [CreateTags
       [mkTag (tag_kwargs (PStr "dev1") "Flow2" "Float" create_flow2) []]]
  ∧ tag_kwargs (PStr "dev1") "Flow2" "Float" create_flow2 !! "publish_cov"
    = Some (PBool false).
Proof.
  destruct (createTag_single_call catalog create_flow2 "PLC1" "Flow2" "Float"
              plc1 (PStr "dev1") _ eq_refl eq_refl eq_refl eq_refl eq_refl
              eq_refl eq_refl eq_refl eq_refl eq_refl)
    as (H1 & _ & _ & _ & H2 & _).
  split; [exact H1 | exact (H2 eq_refl)].
Defined.

Lemma update_field_same {A} k (inj : A → pyval) v t :
  tag_attrs (update_field k inj (Some v) t) !! k = Some (inj v).
Proof. simpl. by rewrite lookup_insert_eq. Qed.

(** X9.  When the device and the tag resolve, the tag [update_devicehub_tag]
    sends carries the new value of every field the request supplies, in any
    combination.  An empty answer gives an [McpError] with code
    [INTERNAL_ERROR] although the update has been issued; otherwise the
    result is the normalized form of the first tag of the answer, not of the
    tag that was sent. *)
Theorem updateTag_overwrites_supplied gw arguments dn tid dev tag_list
    existing :
  get (arg_device_name arguments) = Some dn → str_nonempty dn = true →
  get (arg_tag_id arguments) = Some tid → str_nonempty tid = true →
  get_litmus_connection gw = Ok () →
  _find_device_by_name gw dn = Ok (Some dev) →
  list_registers_from_single_device gw dev = Returned tag_list →
  find_tag "id" (Some tid) tag_list = Ok (Some existing) →
  (update_devicehub_tag gw arguments).1
  = [UpdateTags [merged arguments existing]]
  ∧ (∀ v, get (arg_tag_name arguments) = Some v →
          tag_attrs (merged arguments existing) !! "tag_name"
          = Some (PStr v))
  ∧ (∀ v, get (arg_value_type arguments) = Some v →
          tag_attrs (merged arguments existing) !! "value_type"
          = Some (PStr v))
  ∧ (∀ v, get (arg_description arguments) = Some v →
          tag_attrs (merged arguments existing) !! "description"
          = Some (PStr v))
  ∧ (∀ v, get (arg_properties arguments) = Some v →
          tag_attrs (merged arguments existing) !! "properties"
          = Some (PList v))
  ∧ (∀ v, get (arg_publish_cov arguments) = Some v →
          tag_attrs (merged arguments existing) !! "publish_cov"
          = Some (PBool v))
  ∧ (update_tags gw [merged arguments existing] = Returned [] →
     (update_devicehub_tag gw arguments).2
     = Propagated (McpError INTERNAL_ERROR "Tag update returned no results"))
  ∧ (∀ first rest info,
       update_tags gw [merged arguments existing] = Returned (first :: rest) →
       tag_info (tag_attrs first) = Ok info →
       (update_devicehub_tag gw arguments).2
       = Success (mkTagResult dn info)).
Proof.
  intros Hdn Hdn' Htid Htid' Hconn Hdev Hregs Hfind.
  unfold update_devicehub_tag. cbv zeta. rewrite Hdn, Htid.
  rewrite bind_logged_lift, (required_Ok dn) by done. cbv beta iota.
  rewrite bind_logged_lift, (required_Ok tid) by done. cbv beta iota.
  rewrite bind_logged_lift, Hconn. cbv beta iota.
  rewrite bind_logged_lift, Hdev. cbv beta iota.
  rewrite bind_logged_lift, Hregs. simpl call. cbv beta iota.
  rewrite bind_logged_lift, Hfind. cbv beta iota.
  fold (merged arguments existing). rewrite bind_logged_remote.
  split.
  { destruct (update_tags gw _) as [[|? ?]|]; simpl; try done.
    rewrite bind_logged_lift. by destruct (tag_info _). }
  unfold merged at 1 2 3 4 5.
  repeat split;
    try (intros v ->; rewrite ?update_field_other by done;
         by apply update_field_same).
  - by intros ->.
  - intros first rest info -> Hinfo. simpl.
    by rewrite bind_logged_lift, Hinfo.
Qed.

Lemma updateTag_overwrites_witness :
  (update_devicehub_tag catalog rename_temp).1
  = [UpdateTags [merged rename_temp temp]]
  ∧ tag_attrs (merged rename_temp temp) !! "tag_name" = Some (PStr "Temp2")
  ∧ tag_attrs (merged rename_temp temp) !! "publish_cov"
    = Some (PBool true).
Proof.
  destruct (updateTag_overwrites_supplied catalog rename_temp "PLC1" "t1"
              plc1 [temp; pressure; level] temp eq_refl eq_refl eq_refl
              eq_refl eq_refl eq_refl eq_refl eq_refl)
    as (H1 & H2 & _ & _ & _ & H3 & _).
  split; [exact H1|]. split; [exact (H2 _ eq_refl) | exact (H3 _ eq_refl)].
Defined.

(** ** An unknown device *)

(** X10.  A device name that no device of the catalog has makes every tool
    that takes a device raise the same [McpError] with code
    [INVALID_PARAMS], whose message names the device and points at
    [get_devicehub_devices]; the mutating tools issue no call. *)
Theorem unknown_device_is_a_validation_error gw arguments dn :
  get (arg_device_name arguments) = Some dn → str_nonempty dn = true →
  get_litmus_connection gw = Ok () →
  _find_device_by_name gw dn = Ok None →
  get_devicehub_device_tags gw arguments = Propagated (device_not_found dn)
  ∧ (supplied (get (arg_tag_name arguments))
     || supplied (get (arg_tag_id arguments)) = true →
     get_current_value_of_devicehub_tag gw arguments
     = Propagated (device_not_found dn))
  ∧ (supplied (get (arg_tag_name arguments)) = true →
     supplied (get (arg_value_type arguments)) = true →
     create_devicehub_tag gw arguments
     = ([], Propagated (device_not_found dn)))
  ∧ (supplied (get (arg_tag_id arguments)) = true →
     update_devicehub_tag gw arguments
     = ([], Propagated (device_not_found dn)))
  ∧ (supplied (get (arg_tag_name arguments))
     || supplied (get (arg_tag_id arguments))
     || bool_decide (default [] (get (arg_tag_ids arguments)) ≠ []) = true →
     delete_devicehub_tag gw arguments
     = ([], Propagated (device_not_found dn))).
Proof.
  intros Hdn Hdn' Hconn Hdev.
  assert (Hreq : ∀ o message, supplied o = true →
            ∃ s, o = Some s ∧ required o message = Ok s).
  { intros [s|] message H; [|done]. exists s. split; [done|].
    by apply required_Ok. }
  split; [|split; [|split; [|split]]].
  - unfold get_devicehub_device_tags. cbv zeta.
    by rewrite Hdn, (required_Ok dn), Hconn by done; simpl; rewrite Hdev.
  - intros Hs. unfold get_current_value_of_devicehub_tag. cbv zeta.
    rewrite Hdn, (required_Ok dn) by done. cbv beta iota delta [bind].
    replace (negb (supplied (get (arg_tag_name arguments)))
             && negb (supplied (get (arg_tag_id arguments)))) with false
      by (destruct (supplied (get (arg_tag_name arguments))),
            (supplied (get (arg_tag_id arguments))); done).
    by rewrite Hconn, Hdev.
  - intros Htn Hvt. unfold create_devicehub_tag. cbv zeta.
    destruct (Hreq _ "'tag_name' parameter is required" Htn) as (tn & _ & Htn').
    destruct (Hreq _ "'value_type' parameter is required" Hvt)
      as (vt & _ & Hvt').
    rewrite Hdn.
    rewrite bind_logged_lift, (required_Ok dn) by done. cbv beta iota.
    rewrite bind_logged_lift, Htn'. cbv beta iota.
    rewrite bind_logged_lift, Hvt'. cbv beta iota.
    rewrite bind_logged_lift, Hconn. cbv beta iota.
    by rewrite bind_logged_lift, Hdev.
  - intros Hti. unfold update_devicehub_tag. cbv zeta.
    destruct (Hreq _ "'tag_id' parameter is required for updates" Hti)
      as (ti & _ & Hti').
    rewrite Hdn.
    rewrite bind_logged_lift, (required_Ok dn) by done. cbv beta iota.
    rewrite bind_logged_lift, Hti'. cbv beta iota.
    rewrite bind_logged_lift, Hconn. cbv beta iota.
    by rewrite bind_logged_lift, Hdev.
  - intros Hs. unfold delete_devicehub_tag. cbv zeta. rewrite Hdn.
    rewrite bind_logged_lift, (required_Ok dn) by done. cbv beta iota.
    replace (negb (supplied (get (arg_tag_name arguments)))
             && negb (supplied (get (arg_tag_id arguments)))
             && negb (bool_decide
                        (default [] (get (arg_tag_ids arguments)) ≠ [])))
      with false
      by (destruct (supplied (get (arg_tag_name arguments))),
            (supplied (get (arg_tag_id arguments))),
            (bool_decide (default [] (get (arg_tag_ids arguments)) ≠ []));
          done).
    rewrite bind_logged_lift, Hconn. cbv beta iota.
    by rewrite bind_logged_lift, Hdev.
Qed.

Lemma unknown_device_witness :
  update_devicehub_tag catalog on_plc7
  = ([], Propagated
           (McpError INVALID_PARAMS
              "Device 'PLC7' not found. Use get_devicehub_devices to see available devices."))
  ∧ get_devicehub_device_tags catalog on_plc7
    = Propagated (device_not_found "PLC7").
Proof.
  destruct (unknown_device_is_a_validation_error catalog on_plc7 "PLC7"
              eq_refl eq_refl eq_refl eq_refl) as (H1 & _ & _ & H2 & _).
  split; [exact (H2 eq_refl) | exact H1].
Defined.

(** ** listAllTags: order, count, summary *)

Lemma py_lt_congr_l a b c :
  py_key_eqb a b = true → py_lt a c = py_lt b c.
Proof.
  destruct a, b; simpl; try done.
  - destruct c; simpl; intros H%Z.eqb_eq; by rewrite ?H.
  - destruct c; simpl; intros H%Z.eqb_eq; by rewrite ?H.
  - destruct c; simpl; intros H%Z.eqb_eq; by rewrite ?H.
  - destruct c; simpl; intros H%Z.eqb_eq; by rewrite ?H.
  - by intros ->%String.eqb_eq.
Qed.

Lemma py_lt_congr_r a b c :
  py_key_eqb a b = true → py_lt c a = py_lt c b.
Proof.
  destruct a, b; simpl; try done.
  - destruct c; simpl; intros H%Z.eqb_eq; by rewrite ?H.
  - destruct c; simpl; intros H%Z.eqb_eq; by rewrite ?H.
  - destruct c; simpl; intros H%Z.eqb_eq; by rewrite ?H.
  - destruct c; simpl; intros H%Z.eqb_eq; by rewrite ?H.
  - by intros ->%String.eqb_eq.
Qed.

Lemma py_lt_antisym a b :
  py_lt a b = Ok false → py_lt b a = Ok false → py_key_eqb a b = true.
Proof.
  destruct a as [|ba|za|sa|la|da], b as [|bb|zb|sb|lb|db]; simpl;
    try discriminate; intros [= H1] [= H2];
    try (apply Z.eqb_eq; apply Z.ltb_ge in H1, H2; lia).
  unfold String.ltb in *. apply String.eqb_eq, String.compare_eq_iff.
  rewrite String.compare_antisym in H2.
  by destruct (String.compare sa sb).
Qed.

Lemma py_lt_pair_asym a b :
  py_lt_pair a b = Ok true → py_lt_pair b a = Ok false.
Proof.
  unfold py_lt_pair. rewrite (py_key_eqb_sym b.1), (py_key_eqb_sym b.2).
  destruct (py_key_eqb a.1 b.1); [|apply py_lt_asym].
  destruct (py_key_eqb a.2 b.2); [done | apply py_lt_asym].
Qed.

Lemma py_lt_pair_le_trans a b c :
  py_lt_pair b a = Ok false → py_lt_pair c b = Ok false →
  py_lt_pair c a = Ok false.
Proof.
  assert (Hle : ∀ x y z : pyval,
    (if py_key_eqb y x then Ok false else py_lt y x) = Ok false →
    (if py_key_eqb z y then Ok false else py_lt z y) = Ok false →
    (if py_key_eqb z x then Ok false else py_lt z x) = Ok false).
  { intros x y z Hyx Hzy. destruct (py_key_eqb z x) eqn:Ezx; [done|].
    destruct (py_key_eqb y x) eqn:Eyx.
    - destruct (py_key_eqb z y) eqn:Ezy.
      + by rewrite (py_key_eqb_trans _ _ _ Ezy Eyx) in Ezx.
      + by rewrite <- (py_lt_congr_r _ _ z Eyx).
    - destruct (py_key_eqb z y) eqn:Ezy.
      + by rewrite (py_lt_congr_l _ _ x Ezy).
      + by eapply py_lt_le_trans. }
  unfold py_lt_pair.
  destruct (py_key_eqb b.1 a.1) eqn:E1, (py_key_eqb c.1 b.1) eqn:E2.
  - rewrite (py_key_eqb_trans _ _ _ E2 E1). apply Hle.
  - intros _ H.
    rewrite (py_key_eqb_sym c.1 a.1), <- (py_key_eqb_congr _ _ c.1 E1),
      (py_key_eqb_sym b.1 c.1), E2.
    by rewrite <- (py_lt_congr_r _ _ c.1 E1).
  - intros H _. rewrite (py_key_eqb_congr _ _ a.1 E2).
    rewrite E1. by rewrite (py_lt_congr_l _ _ a.1 E2).
  - intros H1 H2. destruct (py_key_eqb c.1 a.1) eqn:E3.
    + exfalso. rewrite (py_lt_congr_l _ _ b.1 E3) in H2.
      pose proof (py_lt_antisym _ _ H1 H2) as E. by rewrite E in E1.
    + by eapply py_lt_le_trans.
Qed.

Lemma string_compare_refl s : String.compare s s = Eq.
Proof.
  pose proof (String.compare_antisym s s) as H.
  by destruct (String.compare s s).
Qed.

(** Between str keys, [pair_le] is the lexicographic order of (device,
    tag_name). *)
Lemma pair_le_str (a b : pydict) da ta db tb :
  pair_key a = (PStr da, PStr ta) → pair_key b = (PStr db, PStr tb) →
  pair_le a b ↔
  String.ltb da db = true ∨ (da = db ∧ String.leb ta tb = true).
Proof.
  intros Ha Hb. unfold pair_le, py_lt_pair. rewrite Ha, Hb. simpl.
  unfold String.ltb, String.leb.
  destruct (String.eqb_spec db da) as [->|Hne].
  - rewrite string_compare_refl.
    destruct (String.eqb_spec tb ta) as [->|Hne'].
    + rewrite string_compare_refl. split; [eauto | done].
    + rewrite (String.compare_antisym tb ta). split.
      * intros [= H]. right. split; [done|].
        by destruct (String.compare ta tb).
      * intros [H|[_ H]]; [done|]. f_equal.
        by destruct (String.compare ta tb).
  - rewrite (String.compare_antisym db da). split.
    + intros [= H]. left. destruct (String.compare da db) eqn:E; try done.
      apply String.compare_eq_iff in E. congruence.
    + intros [H|[-> _]]; [|done]. f_equal.
      by destruct (String.compare da db).
Qed.

Lemma length_filter_Permutation {A} (f : A → bool) l l' :
  l ≡ₚ l' → length (List.filter f l) = length (List.filter f l').
Proof.
  induction 1 as [|x l l' _ IH|x y l|l l' l'' _ IH1 _ IH2]; simpl;
    [done| |by destruct (f x), (f y)|congruence].
  destruct (f x); simpl; congruence.
Qed.

Lemma tag_info_device_group (t : pyobj) info :
  tag_info t = Ok info →
  device_group info
  = (if truthy (getattr t "device" PNone) then getattr t "device" PNone
     else PStr "unknown").
Proof.
  rewrite tag_info_shape. unfold attr.
  destruct (t !! "tag_name"); simpl; [|done]. intros [= <-].
  unfold device_group, dict_get. rewrite normalize_lookup by compute_done.
  change ((list_to_map tag_fields : gmap string pyval) !! "device")
    with (Some PNone). simpl.
  destruct (nonnull (getattr t "device" PNone)) as [v|] eqn:E; simpl.
  - by apply nonnull_Some in E as [<- _].
  - apply nonnull_None in E. by rewrite E.
Qed.

Lemma collect_tags_counts filter all tag_data counts tag_data' counts' :
  collect_tags filter all tag_data counts = Ok (tag_data', counts') →
  ∃ infos,
    tag_data' = tag_data ++ infos
    ∧ total counts' = (total counts + length infos)%nat
    ∧ ∀ k, count_of k counts'
           = (count_of k counts
              + length (List.filter (λ i, py_key_eqb (device_group i) k)
                          infos))%nat.
Proof.
  revert tag_data counts.
  induction all as [|t all IH]; simpl; intros tag_data counts H.
  - injection H as <- <-. exists []. rewrite app_nil_r. simpl.
    split; [done|]. split; [lia|]. intros k. lia.
  - destruct (skipped_by_device filter (tag_attrs t)); [by apply IH|].
    bind_inv H. bind_inv H. unfold count_up in E0.
    destruct (hashable _); [|done]. injection E0 as <-.
    apply IH in H as (infos & -> & Ht & Hc).
    exists (x :: infos). rewrite <- app_assoc. split; [done|]. split.
    + rewrite Ht, total_incr. simpl. lia.
    + intros k. rewrite Hc, count_of_incr. simpl.
      rewrite (tag_info_device_group _ _ E).
      destruct (py_key_eqb _ k); simpl; lia.
Qed.

(** X11.  The tag list of a successful [list_all_devicehub_tags] is sorted
    ascending on the pair (device, tag_name), a missing component counting
    as the empty str. *)
Theorem listAllTags_sorted gw arguments payload :
  list_all_devicehub_tags gw arguments = Success payload →
  StronglySorted pair_le (all_tags payload).
Proof.
  unfold list_all_devicehub_tags. rewrite try_except_Success. intros H.
  bind_inv H. bind_inv H. bind_inv H. destruct x1 as [tag_data counts].
  bind_inv H. injection H as <-. simpl.
  apply py_sort_sorted in E2;
    [|apply py_lt_pair_asym|apply py_lt_pair_le_trans].
  induction E2 as [|a r _ IH Hall]; constructor; [done|].
  eapply Forall_impl; [exact Hall|].
  intros b (ka & kb & [= <-] & [= <-] & Hlt). exact Hlt.
Qed.

Lemma listAllTags_sorted_witness :
  ∃ payload,
    list_all_devicehub_tags catalog no_arguments = Success payload
    ∧ map pair_key (all_tags payload)
      = [(PStr "dev1", PStr "Speed"); (PStr "dev1", PStr "Temp");
         (PStr "dev2", PStr "Flow")]
    ∧ StronglySorted pair_le (all_tags payload).
Proof.
  eexists. split; [reflexivity|]. split; [reflexivity|].
  apply (listAllTags_sorted catalog no_arguments). reflexivity.
Defined.

(** X12.  In the result of a successful [list_all_devicehub_tags], [count]
    is the length of the tag list, the counts of [summary.by_device] add up
    to [count], and the count of every group is the number of listed tags of
    that device; a tag whose device is missing, null or empty is in the
    group "unknown". *)
Theorem listAllTags_count_and_summary gw arguments payload :
  list_all_devicehub_tags gw arguments = Success payload →
  all_count payload = length (all_tags payload)
  ∧ total (by_device payload) = all_count payload
  ∧ ∀ k, count_of k (by_device payload)
         = length (List.filter (λ i, py_key_eqb (device_group i) k)
                     (all_tags payload)).
Proof.
  unfold list_all_devicehub_tags. rewrite try_except_Success. intros H.
  bind_inv H. bind_inv H. bind_inv H. destruct x1 as [tag_data counts].
  bind_inv H. injection H as <-. simpl.
  apply collect_tags_counts in E1 as (infos & -> & Ht & Hc).
  apply py_sort_perm in E2. simpl in *.
  split; [done|]. split.
  - rewrite Ht. simpl. by rewrite E2.
  - intros k. rewrite Hc. simpl. by apply length_filter_Permutation.
Qed.

Lemma listAllTags_count_witness :
  ∃ payload,
    list_all_devicehub_tags catalog no_arguments = Success payload
    ∧ all_count payload = 3%nat
    ∧ total (by_device payload) = 3%nat
    ∧ count_of (PStr "dev1") (by_device payload) = 2%nat.
Proof.
  eexists. split; [reflexivity|]. split; [reflexivity|].
  destruct (listAllTags_count_and_summary catalog no_arguments _ eq_refl)
    as (_ & Ht & Hc).
  split; [exact Ht|]. rewrite Hc. reflexivity.
Defined.

(** X13.  Without a truthy [device_name] filter (the key is missing, null or
    the empty str), a successful [list_all_devicehub_tags] lists every tag
    of the collection, once each, and the result has no [filters_applied]
    entry. *)
Theorem listAllTags_unfiltered gw arguments payload :
  list_all_devicehub_tags gw arguments = Success payload →
  supplied (get (arg_device_name arguments)) = false →
  all_filters_applied payload = None
  ∧ ∃ tag_list infos,
      list_all_tags gw = Returned tag_list
      ∧ traverse (λ t, tag_info (tag_attrs t)) tag_list = Ok infos
      ∧ all_tags payload ≡ₚ infos.
Proof.
  unfold list_all_devicehub_tags. rewrite try_except_Success. cbv zeta.
  intros H Hs. rewrite Hs in H.
  bind_inv H. destruct (list_all_tags gw) as [tag_list|]; [|done].
  simpl in H. bind_inv H. destruct x0 as [tag_data counts].
  bind_inv H. injection H as <-. simpl. split; [done|].
  apply collect_tags_kept in E0 as (infos & Hinfos & ->).
  exists tag_list, infos. split; [done|]. split.
  - rewrite <- Hinfos. f_equal. unfold skipped_by_device. rewrite Hs. simpl.
    clear. induction tag_list as [|t l IH]; simpl; by f_equal.
  - by apply py_sort_perm in E1.
Qed.

Lemma listAllTags_unfiltered_witness :
  ∃ payload infos,
    list_all_devicehub_tags catalog no_arguments = Success payload
    ∧ traverse (λ t, tag_info (tag_attrs t)) [temp; flow; speed] = Ok infos
    ∧ all_tags payload ≡ₚ infos.
Proof.
  destruct (listAllTags_unfiltered catalog no_arguments _ eq_refl eq_refl)
    as (_ & tag_list & infos & Hl & Hinfos & Hperm).
  injection Hl as <-. eexists _, infos. split; [reflexivity|].
  split; [exact Hinfos | exact Hperm].
Defined.

(** ** deleteTag: which identifier counts, and what is deleted *)

(** X14.  [delete_devicehub_tag] uses one kind of identifier only: with a
    non-empty [tag_ids] the arguments [tag_id] and [tag_name] change
    nothing, and without [tag_ids] a truthy [tag_id] makes [tag_name]
    change nothing. *)
Theorem deleteTag_identifier_precedence gw arguments :
  (default [] (get (arg_tag_ids arguments)) ≠ [] →
   delete_devicehub_tag gw arguments
   = delete_devicehub_tag gw (only_tag_ids arguments))
  ∧ (default [] (get (arg_tag_ids arguments)) = [] →
     supplied (get (arg_tag_id arguments)) = true →
     delete_devicehub_tag gw arguments
     = delete_devicehub_tag gw (without_tag_name arguments)).
Proof.
  split.
  - intros Hids. unfold delete_devicehub_tag, only_tag_ids. cbv zeta. simpl.
    destruct (default [] (get (arg_tag_ids arguments))) as [|tid ids]; [done|].
    rewrite bool_decide_true by done. simpl. by rewrite ?andb_false_r.
  - intros Hids Hid. unfold delete_devicehub_tag, without_tag_name.
    cbv zeta. simpl. rewrite Hids. simpl. rewrite !Hid.
    by destruct (supplied (get (arg_tag_name arguments))).
Qed.

Lemma deleteTag_precedence_witness :
  delete_devicehub_tag catalog delete_mixed
  = ([DeleteTag temp], Success (mkDeletion "PLC1" 1 [PStr "Temp"])).
Proof.
  destruct (deleteTag_identifier_precedence catalog delete_mixed) as [H _].
  rewrite H; [reflexivity | discriminate].
Defined.

Lemma find_tag_elem k wanted tag_list t :
  find_tag k wanted tag_list = Ok (Some t) → t ∈ tag_list.
Proof.
  induction tag_list as [|t' l IH]; simpl; [done|]. intros H. bind_inv H.
  destruct (py_eq_arg x wanted).
  - injection H as <-. by left.
  - right. by apply IH.
Qed.

Lemma find_tags_by_ids_resolved tag_list ids ts ns :
  find_tags_by_ids tag_list ids = Ok (ts, ns) →
  Forall (λ t, t ∈ tag_list
               ∧ ∃ tid, tid ∈ ids ∧ tag_attrs t !! "id" = Some (PStr tid)) ts
  ∧ Forall2 (λ t n, tag_attrs t !! "tag_name" = Some n) ts ns.
Proof.
  revert ts ns. induction ids as [|tid ids IH]; simpl; intros ts ns H.
  - injection H as <- <-. by split.
  - bind_inv H. destruct x as [t|].
    + bind_inv H. bind_inv H. destruct x0 as [ts' ns'].
      injection H as <- <-. destruct (IH _ _ E1) as [Hts Hns]. split.
      * constructor.
        -- split; [by eapply find_tag_elem|].
           apply find_tag_Some in E as (v & Hv & Heq).
           apply py_eq_str_eq in Heq as ->. exists tid. split; [by left|done].
        -- eapply Forall_impl; [exact Hts|].
           intros t' [? (tid' & ? & ?)]. split; [done|].
           exists tid'. split; [by right|done].
      * constructor; [by apply attr_Ok|done].
    + destruct (IH _ _ H) as [Hts Hns]. split; [|done].
      eapply Forall_impl; [exact Hts|].
      intros t' [? (tid' & ? & ?)]. split; [done|].
      exists tid'. split; [by right|done].
Qed.

Lemma find_single_tag_resolved k s tag_list ts ns :
  find_single_tag k (Some s) tag_list = Ok (ts, ns) →
  Forall (λ t, t ∈ tag_list ∧ tag_attrs t !! k = Some (PStr s)) ts
  ∧ Forall2 (λ t n, tag_attrs t !! "tag_name" = Some n) ts ns.
Proof.
  unfold find_single_tag. intros H. bind_inv H. destruct x as [t|].
  - bind_inv H. injection H as <- <-. split.
    + constructor; [|done]. split; [by eapply find_tag_elem|].
      apply find_tag_Some in E as (v & Hv & Heq).
      by apply py_eq_str_eq in Heq as ->.
    + constructor; [by apply attr_Ok|done].
  - injection H as <- <-. by split.
Qed.

Lemma bind_logged_Ok {A B} (m : logged A) (f : A → logged B) log b :
  bind_logged m f = (log, Ok b) →
  ∃ a l1 l2, m = (l1, Ok a) ∧ f a = (l2, Ok b) ∧ log = l1 ++ l2.
Proof.
  destruct m as [l1 [a|e]]; unfold bind_logged; simpl; [|done].
  destruct (f a) as [l2 r] eqn:E. simpl. intros [= <- ->]. eauto 6.
Qed.

Lemma lift_inv {A} (r : result A) l a : lift r = (l, Ok a) → r = Ok a ∧ l = [].
Proof. by intros [= <- ->]. Qed.

(** X15.  A successful [delete_devicehub_tag] has issued exactly one
    deletion call; every tag in it is a register of the first device with
    the requested name and answers an identifier of the request;
    [deleted_count] is the number of those tags and [deleted_tags] lists
    their names in the same order. *)
Theorem deleteTag_deletes_only_resolved gw arguments log payload :
  delete_devicehub_tag gw arguments = (log, Success payload) →
  ∃ dev tag_list ts,
    _find_device_by_name gw (deletion_device_name payload) = Ok (Some dev)
    ∧ list_registers_from_single_device gw dev = Returned tag_list
    ∧ ts ≠ []
    ∧ log = [deletion_call ts]
    ∧ Forall (λ t, t ∈ tag_list ∧ requested arguments t) ts
    ∧ deleted_count payload = length ts
    ∧ Forall2 (λ t n, tag_attrs t !! "tag_name" = Some n)
        ts (deleted_tags payload).
Proof.
  unfold delete_devicehub_tag, try_except_logged. cbv zeta. intros H.
  injection H as Hlog Hout. apply try_except_Success in Hout.
  remember (get (arg_tag_name arguments)) as tn eqn:Htn.
  remember (get (arg_tag_id arguments)) as ti eqn:Hti.
  remember (default [] (get (arg_tag_ids arguments))) as ids eqn:Hids.
  match type of Hout with ?b.2 = _ =>
    destruct b as [log' r] eqn:Hbody end.
  simpl in Hlog, Hout. subst log' r.
  apply bind_logged_Ok in Hbody as (dn & l1 & l2 & [Hdn ->]%lift_inv & Hbody & ->).
  destruct (negb (supplied tn) && negb (supplied ti)
            && negb (bool_decide (ids ≠ []))); [done|].
  apply bind_logged_Ok in Hbody as (c & l1 & l3 & [_ ->]%lift_inv & Hbody & ->).
  apply bind_logged_Ok in Hbody
    as ([dev|] & l1 & l4 & [Hdev ->]%lift_inv & Hbody & ->); [|done].
  apply bind_logged_Ok in Hbody
    as (tag_list & l1 & l5 & [Hregs ->]%lift_inv & Hbody & ->).
  apply bind_logged_Ok in Hbody
    as ([ts ns] & l1 & l6 & [Hres ->]%lift_inv & Hbody & ->).
  destruct (list_registers_from_single_device gw dev) as [tl|] eqn:Hr;
    [|done]. injection Hregs as ->.
  assert (Hsafe : Forall (λ t, t ∈ tag_list ∧ requested arguments t) ts
                  ∧ Forall2 (λ t n, tag_attrs t !! "tag_name" = Some n) ts ns).
  { unfold tags_to_delete in Hres. destruct ids as [|tid ids'].
    - destruct (supplied ti) eqn:Es.
      + destruct ti as [i|]; [|done].
        apply find_single_tag_resolved in Hres as [H1 H2]. split; [|done].
        eapply Forall_impl; [exact H1|]. intros t [? ?]. split; [done|].
        right. left. exists i. by rewrite <- Hti.
      + destruct (supplied tn) eqn:Es'.
        * destruct tn as [n|]; [|done].
          apply find_single_tag_resolved in Hres as [H1 H2]. split; [|done].
          eapply Forall_impl; [exact H1|]. intros t [? ?]. split; [done|].
          right. right. exists n. by rewrite <- Htn.
        * injection Hres as <- <-. by split.
    - apply find_tags_by_ids_resolved in Hres as [H1 H2]. split; [|done].
      eapply Forall_impl; [exact H1|]. intros t [? (tid' & ? & ?)].
      split; [done|]. left. exists tid'. by rewrite <- Hids. }
  destruct Hsafe as [Hsafe Hnames].
  exists dev, tag_list, ts. simpl.
  destruct ts as [|t [|t' ts']]; [done| |].
  - apply bind_logged_Ok in Hbody as (u & l1 & l7 & Hcall & [Hp ->]%lift_inv & ->).
    injection Hp as <-. injection Hcall as <- _. simpl. by repeat split.
  - apply bind_logged_Ok in Hbody as (u & l1 & l7 & Hcall & [Hp ->]%lift_inv & ->).
    injection Hp as <-. injection Hcall as <- _. simpl. by repeat split.
Qed.

Lemma deleteTag_resolved_witness :
  ∃ ts,
    [DeleteTags [temp; pressure]] = [deletion_call ts]
    ∧ Forall (λ t, t ∈ [temp; pressure; level] ∧ requested delete_three t) ts
    ∧ Forall2 (λ t n, tag_attrs t !! "tag_name" = Some n)
        ts [PStr "Temp"; PStr "Pressure"].
Proof.
  destruct (deleteTag_deletes_only_resolved catalog delete_three
              [DeleteTags [temp; pressure]]
              (mkDeletion "PLC1" 2 [PStr "Temp"; PStr "Pressure"]) eq_refl)
    as (dev & tag_list & ts & Hdev & Hregs & _ & Hlog & Hsafe & _ & Hnames).
  injection Hdev as <-. injection Hregs as <-. eauto.
Defined.

(** ** The normalizers keep what is listed and not null *)

Lemma normalizer_exact f key specs :
  (∀ o, f o = (let* _ := attr o key in
               Ok (normalize ((key, PNone) :: specs) o))) →
  NoDup (key :: specs.*1) →
  exact_on f ((key, PNone) :: specs).
Proof.
  intros Hshape Hnd o m k v Hm.
  apply (normalizer_Ok f key specs Hshape) in Hm as [_ ->].
  rewrite normalize_lookup by done. split.
  - destruct (list_to_map _ !! k) as [d|] eqn:E; simpl; [|done].
    intros Hv. apply nonnull_Some in Hv as [Hv Hnn]. split.
    + intros ->. done.
    + exists d. split; [|done]. by apply elem_of_list_to_map_2 in E.
  - intros [Hv (d & Hd & Hget)].
    rewrite (elem_of_list_to_map_1 _ k d) by done. simpl. rewrite Hget.
    unfold nonnull. by destruct v.
Qed.

(** X16.  A normalized record holds a key exactly when the key is one of the
    attributes the normalizer lists and the value read for it ([getattr]
    with the listed default) is not null, and it holds that value: nothing
    is added, renamed or converted, and no value is null. *)
Theorem normalization_keeps_listed_values :
  exact_on driver_info driver_fields
  ∧ exact_on _build_device_info device_fields
  ∧ exact_on register_info register_fields
  ∧ exact_on tag_info tag_fields.
Proof.
  split; [|split; [|split]].
  - apply (normalizer_exact _ "name" (tail driver_fields));
      [apply driver_info_shape | compute_done].
  - apply (normalizer_exact _ "name" (tail device_fields));
      [apply device_info_shape | compute_done].
  - apply (normalizer_exact _ "tag_name" (tail register_fields));
      [apply register_info_shape | compute_done].
  - apply (normalizer_exact _ "tag_name" (tail tag_fields));
      [apply tag_info_shape | compute_done].
Qed.

Lemma normalization_keeps_witness :
  ∃ m, _build_device_info plc2 = Ok m
       ∧ m !! "driver" = Some (PStr "OPCUA")
       ∧ m !! "metadata" = None.
Proof.
  destruct normalization_keeps_listed_values as (_ & H & _).
  eexists. split; [reflexivity|]. split.
  - apply (H plc2 _ "driver" (PStr "OPCUA") eq_refl). split; [discriminate|].
    exists PNone. split; [|reflexivity].
    apply list_elem_of_In. simpl. tauto.
  - reflexivity.
Defined.

(** ** Looking a tag up *)

(** X17.  The tag lookup of readTagValue, updateTag and deleteTag returns
    the first tag of the list whose attribute equals the requested string:
    it returns [t] exactly when the list is [before ++ t :: after] with no
    match in [before], whatever [after] holds, and it returns nothing
    exactly when every tag has the attribute with another value. *)
Theorem find_tag_first_match k s tag_list :
  (∀ t, find_tag k (Some s) tag_list = Ok (Some t) ↔
        ∃ before after,
          tag_list = before ++ t :: after
          ∧ tag_attrs t !! k = Some (PStr s)
          ∧ no_tag_has k s before)
  ∧ (find_tag k (Some s) tag_list = Ok None ↔ no_tag_has k s tag_list).
Proof.
  unfold no_tag_has. induction tag_list as [|t' l [IHs IHn]]; simpl.
  - split; [|by split]. intros t. split; [done|].
    intros (before & after & H & _). by destruct before.
  - unfold attr. destruct (tag_attrs t' !! k) as [v|] eqn:Hv; simpl.
    + destruct (py_eq_str v s) eqn:Heq.
      * apply py_eq_str_true in Heq as ->. split.
        -- intros t. split.
           ++ intros [= ->]. exists [], l. by repeat split.
           ++ intros ([|b before] & after & H & Ht & Hb); simplify_eq/=;
                [done|].
              apply Forall_cons in Hb as [(v & Hv' & Hne) _]. congruence.
        -- split; [done|]. intros [(v & Hv' & Hne) _]%Forall_cons.
           congruence.
      * apply py_eq_str_false in Heq. split.
        -- intros t. rewrite IHs. split.
           ++ intros (before & after & -> & Ht & Hb).
              exists (t' :: before), after. repeat split; [done|].
              constructor; eauto.
           ++ intros ([|b before] & after & H & Ht & Hb); simplify_eq/=.
              apply Forall_cons in Hb as [_ Hb]. eauto.
        -- rewrite IHn. split.
           ++ intros H. constructor; eauto.
           ++ by intros [_ H]%Forall_cons.
    + split.
      * intros t. split; [done|].
        intros ([|b before] & after & H & Ht & Hb); simplify_eq/=.
        apply Forall_cons in Hb as [(v & Hv' & _) _]. congruence.
      * split; [done|]. intros [(v & Hv' & _) _]%Forall_cons. congruence.
Qed.

Lemma find_tag_witness :
  find_tag "id" (Some "t3") [temp; pressure; level] = Ok (Some pressure).
Proof.
  destruct (find_tag_first_match "id" "t3" [temp; pressure; level]) as [H _].
  apply H. exists [temp], [level]. split; [reflexivity|].
  split; [reflexivity|]. constructor; [|constructor].
  exists (PStr "t1"). split; [reflexivity | discriminate].
Defined.

Lemma find_tag_none k s tag_list :
  no_tag_has k s tag_list → find_tag k (Some s) tag_list = Ok None.
Proof.
  unfold no_tag_has. induction 1 as [|t l (v & Hv & Hne) _ IH]; simpl; [done|].
  unfold attr. rewrite Hv. simpl.
  destruct (py_eq_str v s) eqn:Heq; [|done].
  by apply py_eq_str_eq in Heq.
Qed.

(** X18.  On a device that exists, asking for a tag that is not among its
    registers is a validation error ([INVALID_PARAMS]) in readTagValue and
    updateTag; the message names the identifier and the device, and
    updateTag issues no mutating call. *)
Theorem unknown_tag_is_a_validation_error gw arguments dn dev tag_list :
  get (arg_device_name arguments) = Some dn → str_nonempty dn = true →
  get_litmus_connection gw = Ok () →
  _find_device_by_name gw dn = Ok (Some dev) →
  list_registers_from_single_device gw dev = Returned tag_list →
  (∀ n, get (arg_tag_name arguments) = Some n → str_nonempty n = true →
        no_tag_has "tag_name" n tag_list →
        get_current_value_of_devicehub_tag gw arguments
        = Propagated
            (McpError INVALID_PARAMS
               ("Tag with " +:+ ("name '" +:+ n +:+ "'") +:+
                " not found on device '" +:+ dn +:+ "'")))
  ∧ (∀ i, get (arg_tag_id arguments) = Some i → str_nonempty i = true →
          no_tag_has "id" i tag_list →
          (supplied (get (arg_tag_name arguments)) = false →
           get_current_value_of_devicehub_tag gw arguments
           = Propagated
               (McpError INVALID_PARAMS
                  ("Tag with " +:+ ("ID '" +:+ i +:+ "'") +:+
                   " not found on device '" +:+ dn +:+ "'")))
          ∧ update_devicehub_tag gw arguments
            = ([], Propagated
                     (McpError INVALID_PARAMS
                        ("Tag with ID '" +:+ i +:+
                         "' not found on device '" +:+ dn +:+ "'")))).
Proof.
  intros Hdn Hdn' Hconn Hdev Hregs. split.
  - intros n Hn Hn' Hnone. unfold get_current_value_of_devicehub_tag.
    cbv zeta. rewrite Hdn, (required_Ok dn) by done.
    cbv beta iota delta [bind]. rewrite Hn. simpl supplied. rewrite Hn'.
    simpl. rewrite Hconn, Hdev, Hregs. simpl.
    unfold find_requested_tag, identifier_of. simpl. rewrite Hn'.
    by rewrite (find_tag_none _ _ _ Hnone).
  - intros i Hi Hi' Hnone. split.
    + intros Hs. unfold get_current_value_of_devicehub_tag.
      cbv zeta. rewrite Hdn, (required_Ok dn) by done.
      cbv beta iota delta [bind]. rewrite Hs, Hi. simpl supplied. rewrite Hi'.
      simpl. rewrite Hconn, Hdev, Hregs. simpl.
      unfold find_requested_tag, identifier_of. rewrite Hs.
      by rewrite (find_tag_none _ _ _ Hnone).
    + unfold update_devicehub_tag. cbv zeta. rewrite Hdn, Hi.
      rewrite bind_logged_lift, (required_Ok dn) by done. cbv beta iota.
      rewrite bind_logged_lift, (required_Ok i) by done. cbv beta iota.
      rewrite bind_logged_lift, Hconn. cbv beta iota.
      rewrite bind_logged_lift, Hdev. cbv beta iota.
      rewrite bind_logged_lift, Hregs. cbv beta iota delta [call].
      by rewrite bind_logged_lift, (find_tag_none _ _ _ Hnone).
Qed.

Lemma unknown_tag_witness :
  update_devicehub_tag catalog on_t9
  = ([], Propagated
           (McpError INVALID_PARAMS "Tag with ID 't9' not found on device 'PLC1'"))
  ∧ get_current_value_of_devicehub_tag catalog on_t9
    = Propagated
        (McpError INVALID_PARAMS "Tag with ID 't9' not found on device 'PLC1'").
Proof.
  assert (Hnone : no_tag_has "id" "t9" [temp; pressure; level]).
  { repeat constructor; eexists; (split; [reflexivity | discriminate]). }
  destruct (unknown_tag_is_a_validation_error catalog on_t9 "PLC1" plc1
              [temp; pressure; level] eq_refl eq_refl eq_refl eq_refl eq_refl)
    as [_ H].
  destruct (H "t9" eq_refl eq_refl Hnone) as [Hr Hu].
  split; [exact Hu | exact (Hr eq_refl)].
Defined.
